(** * trade-ngin: the OHLCV ingestion scripts and their store

    A shallow embedding of the three ingestion entry points
    ([scripts/fetch_data.py], [trade_ngin/scripts/ingest_data.py],
    [scripts/ingest_data.py]), of the Databento adapter
    ([trade_ngin/adapters/databento.py]) and of the write path of the two
    generators ([scripts/generate_simple_data.py],
    [scripts/generate_synthetic_data.py]), together with the part of the
    PostgreSQL session they drive: the [futures_data.ohlcv_1d] table, the
    [INSERT ... ON CONFLICT (time, symbol) DO UPDATE] statement, and the
    transaction around it.

    Prices are binary64 values in the source.  The scripts never compute
    with them, they only hand them to the store, so a finite price is
    modelled by its exact rational value.

    What the libraries and the server do is taken from their
    documentation:
    - [Timestamp.tz_localize] labels a naive timestamp and raises
      [TypeError] on an aware one;
    - a timestamp literal without an offset is read by the server in the
      session's [TimeZone]; [INTEGER] is a 32-bit column;
    - an [INSERT ... ON CONFLICT DO UPDATE] command may not affect a row a
      second time: rows of one command that repeat a key raise a
      cardinality violation;
    - an error puts the transaction in the aborted state, in which every
      further statement raises and [COMMIT] rolls back;
    - [execute_values] sends its tuples in pages of 100, one [INSERT] per
      page;
    - [psycopg2] opens a transaction at the first statement and commits
      only on [commit()]; [close()] drops what was not committed.
    In the modules of the scripts the client is built and the connection
    opens; [Process] puts the two calls that can fail before that,
    [Historical(api_key)] and [psycopg2.connect], in their place in each
    entry point. *)

From Stdlib Require Import List ZArith QArith String Bool Lia.
Import ListNotations.

Local Open Scope string_scope.
Local Open Scope list_scope.
Local Open Scope Z_scope.

(** ** Python values and exceptions *)

Module Py.

(** The exceptions that cross the modelled code.  [DatabentoError] stands
    for whatever the provider client raises; [NumericValueOutOfRange] to
    [UndefinedTable] are the [psycopg2] errors the modelled statements can
    produce, [OperationalError] is what [psycopg2.connect] raises when the
    server cannot be reached, and [UnboundLocalError] is what reading a
    local variable that was never bound raises. *)
Inductive exn : Type :=
| DatabentoError (msg : string)
| ValueError (msg : string)
| TypeError (msg : string)
| NumericValueOutOfRange
| CardinalityViolation
| InFailedSqlTransaction
| UndefinedTable
| OperationalError (msg : string)
| UnboundLocalError (msg : string).

(** [str(e)], as interpolated by the f-strings of the scripts. *)
Definition str (e : exn) : string :=
  match e with
  | DatabentoError m => m
  | ValueError m => m
  | TypeError m => m
  | NumericValueOutOfRange => "integer out of range"
  | CardinalityViolation =>
      "ON CONFLICT DO UPDATE command cannot affect row a second time"
  | InFailedSqlTransaction =>
      "current transaction is aborted, commands ignored until end of transaction block"
  | UndefinedTable => "relation futures_data.ohlcv_1d does not exist"
  | OperationalError m => m
  | UnboundLocalError m => m
  end.

Inductive value : Type :=
| None_
| Bool (b : bool)
| Int (n : Z)
| Tuple (v1 v2 : value).

(** How a call ends: it returns a value, an exception escapes it, or
    [sys.exit] ends the process. *)
Inductive completion : Type :=
| Returned (v : value)
| Raised (e : exn)
| SystemExit (code : Z).

(** A [datetime]/[pd.Timestamp]: the reading of its own clock in
    microseconds since 1970-01-01T00:00:00, and its [tzinfo]: [None] for
    a naive timestamp, [Some off] for an aware one, [off] minutes east of
    UTC. *)
Record Timestamp : Type := mkTimestamp { wall : Z; tzinfo : option Z }.

Definition utc : Z := 0.

(** [Timestamp.tz_localize(tz)]: labels a naive timestamp with [tz]
    without moving its wall-clock reading, and raises [TypeError] on an
    aware one. *)
Definition tz_localize (ts : Timestamp) (tz : Z) : exn + Timestamp :=
  match tzinfo ts with
  | None => inr {| wall := wall ts; tzinfo := Some tz |}
  | Some _ =>
      inl (TypeError "Cannot localize tz-aware Timestamp, use tz_convert for conversions")
  end.

End Py.

(** ** The provider's frames *)

Module Databento.

(** One row of the DataFrame a request yields.  [fetch_data.py] reads the
    timestamp as [row.timestamp], the other two scripts as
    [row['ts_event']]; [instrument_id] and [symbol] are the per-row
    identifiers that come back with the prices. *)
Record row : Type := mkRow {
  ts_event : Py.Timestamp;
  instrument_id : Z;
  symbol : string;
  open : Q;
  high : Q;
  low : Q;
  close : Q;
  volume : Z
}.

Abbreviation DataFrame := (list row).

Record request : Type := mkRequest {
  dataset : string;
  symbols : list string;
  start : string;
  end_ : string;
  schema : string;
  stype_in : option string;
  stype_out : option string
}.

(** A [Historical] client, seen from the scripts: every call either
    raises or returns a frame ([.to_df()] included).  [get_historical_ohlcv] may return [None]
    ([fetch_data.py] tests for it). *)
Record client : Type := mkClient {
  list_datasets : Py.exn + list string;
  list_symbols : string -> Py.exn + list string;
  get_range : request -> Py.exn + DataFrame;
  get_historical_ohlcv : request -> Py.exn + option DataFrame;
  request_full_definitions : DataFrame -> Py.exn + DataFrame
}.

End Databento.

(** ** The store: [futures_data.ohlcv_1d] and a session on it *)

Module Postgres.

(** A row of
    [ohlcv_1d(time timestamptz, symbol text, open, high, low, close
    float8, volume integer, PRIMARY KEY (time, symbol))].  [time] is an
    instant, in microseconds since the epoch. *)
Record Row : Type := mkRow {
  time : Z;
  symbol : string;
  open : Q;
  high : Q;
  low : Q;
  close : Q;
  volume : Z
}.

Definition key : Type := (Z * string)%type.

Definition key_of (r : Row) : key := (time r, symbol r).

Definition key_eq_dec (k1 k2 : key) : {k1 = k2} + {k1 <> k2}.
Proof. decide equality; [apply string_dec | apply Z.eq_dec]. Defined.

#[global] Arguments key_eq_dec : simpl never.

(** The server: its [TimeZone] setting (minutes east of UTC), used to
    read a timestamp literal that carries no offset, and the table, [None]
    while it does not exist. *)
Record database : Type := mkDatabase {
  TimeZone : Z;
  ohlcv_1d : option (list Row)
}.

(** A parameter tuple as the scripts build it:
    [(time, symbol, open, high, low, close, volume)]. *)
Record record : Type := mkRecord {
  rec_time : Py.Timestamp;
  rec_symbol : string;
  rec_open : Q;
  rec_high : Q;
  rec_low : Q;
  rec_close : Q;
  rec_volume : Z
}.

(** The [timestamptz] a timestamp parameter denotes: an aware one by its
    own offset, a naive one by the session's [TimeZone]. *)
Definition timestamptz (tz : Z) (ts : Py.Timestamp) : Z :=
  Py.wall ts - 60000000 * match Py.tzinfo ts with
                          | Some off => off
                          | None => tz
                          end.

(** [volume INTEGER]: a 32-bit column. *)
Definition int4 (v : Z) : bool := ((-2147483648 <=? v) && (v <=? 2147483647))%Z.

Definition row_of (tz : Z) (p : record) : Row :=
  {| time := timestamptz tz (rec_time p);
     symbol := rec_symbol p;
     open := rec_open p;
     high := rec_high p;
     low := rec_low p;
     close := rec_close p;
     volume := rec_volume p |}.

(** [DO UPDATE SET open = EXCLUDED.open, high = EXCLUDED.high, low =
    EXCLUDED.low, close = EXCLUDED.close, volume = EXCLUDED.volume]. *)
Definition do_update (old excluded : Row) : Row :=
  {| time := time old;
     symbol := symbol old;
     open := open excluded;
     high := high excluded;
     low := low excluded;
     close := close excluded;
     volume := volume excluded |}.

(** One proposed row against the table: the row that conflicts on
    [(time, symbol)] is updated in place, and without a conflict the row
    is inserted. *)
Fixpoint upsert (r : Row) (t : list Row) : list Row :=
  match t with
  | [] => [r]
  | x :: t' =>
      if key_eq_dec (key_of x) (key_of r)
      then do_update x r :: t'
      else x :: upsert r t'
  end.

Definition mem_key (k : key) (ks : list key) : bool :=
  if in_dec key_eq_dec k ks then true else false.

(** One [INSERT ... VALUES row, ..., row ON CONFLICT (time, symbol) DO
    UPDATE ...] statement.  The rows are taken in order; a volume that
    does not fit the column raises, and so does a row whose key the same
    statement has already inserted or updated ([touched]).  An error
    leaves no effect of the statement. *)
Fixpoint insert_rows (tz : Z) (touched : list key) (rows : list record)
         (t : list Row) : Py.exn + list Row :=
  match rows with
  | [] => inr t
  | p :: rest =>
      if int4 (rec_volume p) then
        let r := row_of tz p in
        if mem_key (key_of r) touched then inl Py.CardinalityViolation
        else insert_rows tz (key_of r :: touched) rest (upsert r t)
      else inl Py.NumericValueOutOfRange
  end.

End Postgres.

(** ** The client side of a session *)

Module Psycopg2.

Import Postgres.

(** A connection with its open transaction: the server's committed
    state, the transaction's view of the table, and whether an error has
    put the transaction in the aborted state. *)
Record connection : Type := mkConnection {
  server : database;
  work : option (list Row);
  aborted : bool
}.

Definition connect (db : database) : connection :=
  {| server := db; work := ohlcv_1d db; aborted := false |}.

Definition rollback (c : connection) : connection :=
  {| server := server c; work := ohlcv_1d (server c); aborted := false |}.

(** [COMMIT] of an aborted transaction is a rollback, and raises
    nothing. *)
Definition commit (c : connection) : connection :=
  if aborted c then rollback c
  else {| server := {| TimeZone := TimeZone (server c); ohlcv_1d := work c |};
          work := work c;
          aborted := false |}.

(** [close] drops what was not committed. *)
Definition close (c : connection) : database := server c.

Inductive statement : Type :=
| CreateSchemaIfNotExists
| CreateTableIfNotExists
| InsertOnConflictDoUpdate (rows : list record).

Definition fail (e : Py.exn) (c : connection) : (Py.exn + unit) * connection :=
  (inl e, {| server := server c; work := work c; aborted := true |}).

(** [cur.execute(statement)].  In a transaction that an earlier error has
    aborted every statement raises; an error of the statement aborts the
    transaction.  The schema namespace has no state of its own here: the
    table exists or not. *)
Definition execute (s : statement) (c : connection)
  : (Py.exn + unit) * connection :=
  if aborted c then (inl Py.InFailedSqlTransaction, c)
  else
    match s with
    | CreateSchemaIfNotExists => (inr tt, c)
    | CreateTableIfNotExists =>
        (inr tt,
         {| server := server c;
            work := match work c with Some t => Some t | None => Some [] end;
            aborted := false |})
    | InsertOnConflictDoUpdate rows =>
        match work c with
        | None => fail Py.UndefinedTable c
        | Some t =>
            match insert_rows (TimeZone (server c)) [] rows t with
            | inl e => fail e c
            | inr t' =>
                (inr tt, {| server := server c; work := Some t'; aborted := false |})
            end
        end
    end.

End Psycopg2.

(** ** The log *)

Module Logging.

Inductive level : Type := INFO | WARNING | ERROR.

(** The log records that tell how a run went.  The records that only
    echo progress (client initialised, frame shape, sample rows) are not
    modelled. *)
Inductive message : Type :=
| SchemaFailed (e : string)
| FetchFailed (e : string)
| NoData
| RowFailed (row : Databento.row) (e : string)
| Preparing (n : nat)
| Loaded (n : nat)
| LoadFailed (e : string)
| DatasetFailed (dataset : string) (e : string)
| RunFailed (e : string)
| SymbolFailed (symbol : string) (e : string)
| Total (n : nat)
| ConnectionClosed
| ConnectFailed (e : string).

Abbreviation record := (level * message)%type.

End Logging.

(** ** Sessions: a connection and the log, threaded through calls that may
    raise *)

Module Session.

Import Postgres Psycopg2.

Definition state : Type := (connection * list Logging.record)%type.

Definition session (A : Type) : Type := state -> (Py.exn + A) * state.

Definition ret {A} (a : A) : session A := fun s => (inr a, s).

Definition bind {A B} (m : session A) (k : A -> session B) : session B :=
  fun s =>
    match m s with
    | (inr a, s') => k a s'
    | (inl e, s') => (inl e, s')
    end.

Definition raise {A} (e : Py.exn) : session A := fun s => (inl e, s).

Definition lift {A} (r : Py.exn + A) : session A := fun s => (r, s).

(** [try: body  except Exception as e: handler(e)]. *)
Definition try_except {A} (body : session A) (handler : Py.exn -> session A)
  : session A :=
  fun s =>
    match body s with
    | (inr a, s') => (inr a, s')
    | (inl e, s') => handler e s'
    end.

Definition logging (l : Logging.level) (m : Logging.message) : session unit :=
  fun s => (inr tt, (fst s, snd s ++ [(l, m)])).

Definition cur_execute (stmt : statement) : session unit :=
  fun s => let (r, c) := execute stmt (fst s) in (r, (c, snd s)).

Definition conn_commit : session unit :=
  fun s => (inr tt, (commit (fst s), snd s)).

Definition conn_rollback : session unit :=
  fun s => (inr tt, (rollback (fst s), snd s)).

End Session.

Declare Scope session_scope.
Delimit Scope session_scope with session.
Notation "x <- m ;; k" := (Session.bind m (fun x => k))
  (at level 61, m at next level, right associativity) : session_scope.
Notation "m ;; k" := (Session.bind m (fun _ => k))
  (at level 61, right associativity) : session_scope.

(** ** [psycopg2.extras.execute_values] *)

Module Extras.

Import Postgres Psycopg2 Session.
Local Open Scope session_scope.

(** [_paginate(seq, page_size)]: fills a page with up to [page_size]
    items, yields it, and yields the last, shorter page when it is not
    empty.  [room] counts the free places of the page being filled. *)
Fixpoint paginate_from {A} (page_size : nat) (page : list A) (room : nat)
         (seq : list A) : list (list A) :=
  match seq with
  | [] => match page with [] => [] | _ => [page] end
  | x :: seq' =>
      match room with
      | O => page :: paginate_from page_size [x] (page_size - 1) seq'
      | S room' => paginate_from page_size (page ++ [x]) room' seq'
      end
  end.

Definition paginate {A} (seq : list A) (page_size : nat) : list (list A) :=
  paginate_from page_size [] page_size seq.

Fixpoint execute_pages (pages : list (list record)) : session unit :=
  match pages with
  | [] => ret tt
  | page :: rest =>
      cur_execute (InsertOnConflictDoUpdate page) ;; execute_pages rest
  end.

(** One [INSERT] statement per page of [page_size=100] tuples, all in
    the connection's open transaction. *)
Definition execute_values (argslist : list record) : session unit :=
  execute_pages (paginate argslist 100).

End Extras.

(** What a run of an entry point leaves behind. *)
Record outcome : Type := mkOutcome {
  result : Py.completion;
  store : Postgres.database;
  log : list Logging.record
}.

(** ** [scripts/fetch_data.py] *)

Module FetchData.

Import Postgres Psycopg2 Session.
Local Open Scope session_scope.

Section Script.

(** [databento.Historical]: the client an API key yields. *)
Variable Historical : string -> Databento.client.

(** Lines 13-27.  Reaching the server is outside the model: the
    connection is taken to open. *)
Definition get_db_connection (db : database) : connection := connect db.

(** Lines 29-53. *)
Definition ensure_schema_exists : session unit :=
  try_except
    (cur_execute CreateSchemaIfNotExists ;;
     cur_execute CreateTableIfNotExists ;;
     conn_commit)
    (fun e =>
       logging Logging.ERROR (Logging.SchemaFailed (Py.str e)) ;;
       raise e).

(** The tuple of lines 101-109. *)
Definition values (symbol : string) (row : Databento.row) : record :=
  {| rec_time := Databento.ts_event row;
     rec_symbol := symbol;
     rec_open := Databento.open row;
     rec_high := Databento.high row;
     rec_low := Databento.low row;
     rec_close := Databento.close row;
     rec_volume := Databento.volume row |}.

(** Lines 89-113: one statement per row, each in its own
    [try]/[except] that logs and goes on to the next row. *)
Fixpoint insert_loop (symbol : string) (rows : list Databento.row)
         (rows_inserted : nat) : session nat :=
  match rows with
  | [] => ret rows_inserted
  | row :: rest =>
      n <- try_except
             (cur_execute (InsertOnConflictDoUpdate [values symbol row]) ;;
              ret (S rows_inserted))
             (fun e =>
                logging Logging.ERROR (Logging.RowFailed row (Py.str e)) ;;
                ret rows_inserted) ;;
      insert_loop symbol rest n
  end.

Definition is_none_or_empty (df : option Databento.DataFrame) : bool :=
  match df with
  | None => true
  | Some [] => true
  | Some (_ :: _) => false
  end.

Definition frame_rows (df : option Databento.DataFrame) : list Databento.row :=
  match df with Some rows => rows | None => [] end.

(** Lines 63-116, the body of the outer [try] from the connection on;
    [reply] is what the call of line 70 comes back with.  It yields
    [true] when it reached the commit. *)
Definition load (reply : Py.exn + option Databento.DataFrame) (symbol : string)
  : session bool :=
  ensure_schema_exists ;;
  df <- try_except (lift reply)
          (fun e =>
             logging Logging.ERROR (Logging.FetchFailed (Py.str e)) ;;
             raise e) ;;
  if is_none_or_empty df then
    logging Logging.WARNING Logging.NoData ;; ret false
  else
    rows_inserted <- insert_loop symbol (frame_rows df) 0 ;;
    conn_commit ;;
    logging Logging.INFO (Logging.Loaded rows_inserted) ;;
    ret true.

(** Lines 57-126 around [load].  The outer handler rolls back and ends
    the process with status 1; [finally] closes the connection on every
    path. *)
Definition with_reply (reply : Py.exn + option Databento.DataFrame)
           (symbol : string) (db : database) : outcome :=
  let conn := get_db_connection db in
  match load reply symbol (conn, []) with
  | (inr _, (conn, lg)) =>
      {| result := Py.Returned Py.None_;
         store := close conn;
         log := lg ++ [(Logging.INFO, Logging.ConnectionClosed)] |}
  | (inl e, (conn, lg)) =>
      {| result := Py.SystemExit 1;
         store := close (rollback conn);
         log := lg ++ [(Logging.ERROR, Logging.RunFailed (Py.str e));
                       (Logging.INFO, Logging.ConnectionClosed)] |}
  end.

(** The arguments of the call of lines 70-76 ([interval] in the place
    of the schema). *)
Definition request (symbol start_date end_date : string) : Databento.request :=
  {| Databento.dataset := "CME";
     Databento.symbols := [symbol];
     Databento.start := start_date;
     Databento.end_ := end_date;
     Databento.schema := "1d";
     Databento.stype_in := None;
     Databento.stype_out := None |}.

(** Lines 55-126. *)
Definition fetch_and_load_data (api_key symbol start_date end_date : string)
           (db : database) : outcome :=
  let client := Historical api_key in
  with_reply
    (Databento.get_historical_ohlcv client (request symbol start_date end_date))
    symbol db.

End Script.

End FetchData.

(** ** [trade_ngin/scripts/ingest_data.py] *)

Module IngestData.

Import Postgres Psycopg2 Session.
Local Open Scope session_scope.

Section Script.

Variable Historical : string -> Databento.client.

(** Lines 15-23; the connection is taken to open. *)
Definition get_db_connection (db : database) : connection := connect db.

(** Lines 25-45. *)
Definition ensure_schema_exists : session unit :=
  cur_execute CreateSchemaIfNotExists ;;
  cur_execute CreateTableIfNotExists ;;
  conn_commit.

(** Lines 77-87: the records, one per row of the frame, each under the
    given symbol and with
    [pd.Timestamp(row['ts_event']).tz_localize(timezone.utc)] for its
    time.  The first timestamp that [tz_localize] refuses ends the loop
    with its exception. *)
Fixpoint prepare_records (symbol : string) (df : Databento.DataFrame)
  : Py.exn + list record :=
  match df with
  | [] => inr []
  | row :: rest =>
      match Py.tz_localize (Databento.ts_event row) Py.utc with
      | inl e => inl e
      | inr ts =>
          match prepare_records symbol rest with
          | inl e => inl e
          | inr records =>
              inr ({| rec_time := ts;
                      rec_symbol := symbol;
                      rec_open := Databento.open row;
                      rec_high := Databento.high row;
                      rec_low := Databento.low row;
                      rec_close := Databento.close row;
                      rec_volume := Databento.volume row |} :: records)
          end
      end
  end.

(** Lines 73-109, the body of the second [try]. *)
Definition load (symbol : string) (df : Databento.DataFrame) : session unit :=
  ensure_schema_exists ;;
  records <- lift (prepare_records symbol df) ;;
  logging Logging.INFO (Logging.Preparing (List.length records)) ;;
  Extras.execute_values records ;;
  conn_commit ;;
  logging Logging.INFO (Logging.Loaded (List.length records)).

(** Lines 63-116, from the reply of the call of line 54 on. *)
Definition with_reply (reply : Py.exn + Databento.DataFrame) (db : database)
  : outcome :=
  match reply with
  | inl e =>
      {| result := Py.Returned Py.None_;
         store := db;
         log := [(Logging.ERROR, Logging.FetchFailed (Py.str e))] |}
  | inr [] =>
      {| result := Py.Returned Py.None_;
         store := db;
         log := [(Logging.WARNING, Logging.NoData)] |}
  | inr df =>
      let '(_, (conn, lg)) :=
        try_except (load "ES" df)
          (fun e => logging Logging.ERROR (Logging.LoadFailed (Py.str e)))
          (get_db_connection db, []) in
      {| result := Py.Returned Py.None_;
         store := close conn;
         log := lg ++ [(Logging.INFO, Logging.ConnectionClosed)] |}
  end.

(** The arguments of the call of lines 54-60. *)
Definition request : Databento.request :=
  {| Databento.dataset := "GLBX.MDP3";
     Databento.symbols := ["ES"];
     Databento.start := "2024-01-01";
     Databento.end_ := "2024-01-31";
     Databento.schema := "ohlcv-1d";
     Databento.stype_in := None;
     Databento.stype_out := None |}.

(** Lines 47-116. *)
Definition fetch_and_load_data (api_key : string) (db : database) : outcome :=
  let client := Historical api_key in
  with_reply (Databento.get_range client request) db.

End Script.

End IngestData.

(** ** [scripts/ingest_data.py] *)

Module ScriptsIngestData.

Import Postgres Psycopg2 Session.
Local Open Scope session_scope.

Section Script.

Variable Historical : string -> Databento.client.

(** Lines 15-23; the connection is taken to open. *)
Definition get_db_connection (db : database) : connection := connect db.

(** Lines 25-45, the same text as in [trade_ngin/scripts]. *)
Definition ensure_schema_exists : session unit :=
  cur_execute CreateSchemaIfNotExists ;;
  cur_execute CreateTableIfNotExists ;;
  conn_commit.

(** Lines 88-98, the same loop as in [trade_ngin/scripts], under the
    local [symbol]. *)
Definition prepare_records : string -> Databento.DataFrame -> Py.exn + list record :=
  IngestData.prepare_records.

(** Lines 84-120, up to the commit and its log record. *)
Definition load (symbol : string) (df : Databento.DataFrame) : session unit :=
  ensure_schema_exists ;;
  records <- lift (prepare_records symbol df) ;;
  logging Logging.INFO (Logging.Preparing (List.length records)) ;;
  Extras.execute_values records ;;
  conn_commit ;;
  logging Logging.INFO (Logging.Loaded (List.length records)).

(** Lines 60-126, one turn of the loop over the datasets.  The flag
    says whether the function returned (line 122).  When an exception
    leaves the inner [try], the connection is dropped unclosed and what
    it had not committed is lost. *)
Definition attempt (client : Databento.client) (start_date end_date dataset : string)
           (db : database) : bool * database * list Logging.record :=
  match Databento.list_symbols client dataset with
  | inl e =>
      (false, db, [(Logging.ERROR, Logging.DatasetFailed dataset (Py.str e))])
  | inr [] => (false, db, [])
  | inr (symbol :: _) =>
      match Databento.get_range client
              {| Databento.dataset := dataset;
                 Databento.symbols := [symbol];
                 Databento.start := start_date;
                 Databento.end_ := end_date;
                 Databento.schema := "ohlcv";
                 Databento.stype_in := None;
                 Databento.stype_out := None |} with
      | inl e =>
          (false, db, [(Logging.ERROR, Logging.DatasetFailed dataset (Py.str e))])
      | inr [] => (false, db, [])
      | inr df =>
          match load symbol df (get_db_connection db, []) with
          | (inr _, (conn, lg)) => (true, close conn, lg)
          | (inl e, (conn, lg)) =>
              (false, close conn,
               lg ++ [(Logging.ERROR, Logging.DatasetFailed dataset (Py.str e))])
          end
      end
  end.

(** Lines 58-126: the datasets in turn, until one is loaded. *)
Fixpoint scan (client : Databento.client) (start_date end_date : string)
         (metadata : list string) (db : database) (lg : list Logging.record)
  : database * list Logging.record :=
  match metadata with
  | [] => (db, lg)
  | dataset :: rest =>
      match attempt client start_date end_date dataset db with
      | (true, db', lg') => (db', lg ++ lg')
      | (false, db', lg') => scan client start_date end_date rest db' (lg ++ lg')
      end
  end.

(** Lines 47-129. *)
Definition fetch_and_load_data (api_key start_date end_date : string)
           (db : database) : outcome :=
  let client := Historical api_key in
  match Databento.list_datasets client with
  | inl e =>
      {| result := Py.Returned Py.None_;
         store := db;
         log := [(Logging.ERROR, Logging.FetchFailed (Py.str e))] |}
  | inr metadata =>
      let (db', lg) := scan client start_date end_date metadata db [] in
      {| result := Py.Returned Py.None_; store := db'; log := lg |}
  end.

End Script.

End ScriptsIngestData.

(** ** [trade_ngin/adapters/databento.py] *)

Module Adapters.

(** The arguments of the call of lines 19-27. *)
Definition request (symbols : list string) (dataset start_date end_date : string)
  : Databento.request :=
  {| Databento.dataset := dataset;
     Databento.symbols := symbols;
     Databento.start := start_date;
     Databento.end_ := end_date;
     Databento.schema := "ohlcv-1d";
     Databento.stype_in := Some "continuous";
     Databento.stype_out := Some "instrument_id" |}.


End Adapters.

(** ** The entry points, with the calls that can fail before a run

    [Historical(api_key)] may raise, and so may [psycopg2.connect]; the
    modules above are the runs in which neither does. *)

Module Process.

Import Postgres.

(** What a run finds around it: [Historical] is what
    [databento.Historical(api_key)] does, and [psycopg2_connect] is what
    [psycopg2.connect(...)] raises, if it raises. *)
Record environment : Type := mkEnvironment {
  Historical : string -> Py.exn + Databento.client;
  psycopg2_connect : option Py.exn
}.

(** What reading [conn] raises in a function that has not bound it. *)
Definition conn_unbound : Py.exn :=
  Py.UnboundLocalError
    "cannot access local variable 'conn' where it is not associated with a value".

(** [scripts/fetch_data.py], lines 55-126.  The client is built at line
    61 and the connection opened at line 64, both inside the outer [try]
    and before the provider is called: an exception of either is logged
    by the handler of lines 118-122, which ends the process with status 1
    ([conn] is still [None], so nothing is rolled back or closed).
    [get_db_connection] logs the failed connection before it re-raises
    (lines 25-27). *)
Definition fetch_data (env : environment) (api_key symbol start_date end_date : string)
           (db : database) : outcome :=
  match Historical env api_key with
  | inl e =>
      {| result := Py.SystemExit 1;
         store := db;
         log := [(Logging.ERROR, Logging.RunFailed (Py.str e))] |}
  | inr client =>
      match psycopg2_connect env with
      | Some e =>
          {| result := Py.SystemExit 1;
             store := db;
             log := [(Logging.ERROR, Logging.ConnectFailed (Py.str e));
                     (Logging.ERROR, Logging.RunFailed (Py.str e))] |}
      | None =>
          FetchData.fetch_and_load_data (fun _ => client)
            api_key symbol start_date end_date db
      end
  end.

(** [trade_ngin/scripts/ingest_data.py], lines 47-116.  The client is
    built at line 50, outside every [try].  The connection is opened at
    line 73, inside the second [try] and only after a reply that is not
    empty: when [psycopg2.connect] raises, the handler of line 111 logs
    it, and [finally] then reads [conn], which was never bound. *)
Definition trade_ngin_ingest_data (env : environment) (api_key : string) (db : database)
  : outcome :=
  match Historical env api_key with
  | inl e => {| result := Py.Raised e; store := db; log := [] |}
  | inr client =>
      match Databento.get_range client IngestData.request, psycopg2_connect env with
      | inr (_ :: _), Some e =>
          {| result := Py.Raised conn_unbound;
             store := db;
             log := [(Logging.ERROR, Logging.LoadFailed (Py.str e))] |}
      | _, _ => IngestData.fetch_and_load_data (fun _ => client) api_key db
      end
  end.

(** One turn of the loop of [scripts/ingest_data.py] when the server
    cannot be reached: the exception of line 84 ends in the handler of
    lines 124-126, as those of the provider do. *)
Definition unreachable_turn (e : Py.exn) (client : Databento.client)
           (start_date end_date dataset : string) : list Logging.record :=
  match Databento.list_symbols client dataset with
  | inl e' => [(Logging.ERROR, Logging.DatasetFailed dataset (Py.str e'))]
  | inr [] => []
  | inr (symbol :: _) =>
      match Databento.get_range client
              {| Databento.dataset := dataset;
                 Databento.symbols := [symbol];
                 Databento.start := start_date;
                 Databento.end_ := end_date;
                 Databento.schema := "ohlcv";
                 Databento.stype_in := None;
                 Databento.stype_out := None |} with
      | inl e' => [(Logging.ERROR, Logging.DatasetFailed dataset (Py.str e'))]
      | inr [] => []
      | inr (_ :: _) => [(Logging.ERROR, Logging.DatasetFailed dataset (Py.str e))]
      end
  end.

(** [scripts/ingest_data.py], lines 47-129.  The client is built at line
    50, outside every [try]; the connection is opened at line 84, inside
    the [try] of the turn of a dataset. *)
Definition scripts_ingest_data (env : environment) (api_key start_date end_date : string)
           (db : database) : outcome :=
  match Historical env api_key with
  | inl e => {| result := Py.Raised e; store := db; log := [] |}
  | inr client =>
      match psycopg2_connect env with
      | None =>
          ScriptsIngestData.fetch_and_load_data (fun _ => client)
            api_key start_date end_date db
      | Some e =>
          match Databento.list_datasets client with
          | inl e' =>
              {| result := Py.Returned Py.None_;
                 store := db;
                 log := [(Logging.ERROR, Logging.FetchFailed (Py.str e'))] |}
          | inr metadata =>
              {| result := Py.Returned Py.None_;
                 store := db;
                 log := flat_map (unreachable_turn e client start_date end_date) metadata |}
          end
      end
  end.

End Process.

(** ** The generators that write to the same table

    [scripts/generate_simple_data.py] and
    [scripts/generate_synthetic_data.py] draw their rows at random; what
    they draw is a parameter here. *)

Module GenerateSimpleData.

Import Postgres Psycopg2 Session.
Local Open Scope session_scope.

Section Script.

(** What [generate_ohlcv_data()] returns (lines 45-86). *)
Variable generate_ohlcv_data : list record.

Definition get_db_connection (db : database) : connection := connect db.

(** Lines 24-43. *)
Definition ensure_schema_exists : session unit :=
  cur_execute CreateSchemaIfNotExists ;;
  cur_execute CreateTableIfNotExists ;;
  conn_commit.

(** Lines 88-130. *)
Definition load_synthetic_data (db : database) : outcome :=
  let '(_, (conn, lg)) :=
    try_except
      (ensure_schema_exists ;;
       let records := generate_ohlcv_data in
       Extras.execute_values records ;;
       conn_commit ;;
       logging Logging.INFO (Logging.Loaded (List.length records)))
      (fun e => logging Logging.ERROR (Logging.LoadFailed (Py.str e)))
      (get_db_connection db, []) in
  {| result := Py.Returned Py.None_;
     store := close conn;
     log := lg ++ [(Logging.INFO, Logging.ConnectionClosed)] |}.

End Script.

End GenerateSimpleData.

Module GenerateSyntheticData.

Import Postgres Psycopg2 Session.
Local Open Scope session_scope.

Section Script.

(** The records of the frame [generate_synthetic_data(symbol, base_price)]
    returns (lines 46-81 and 127-137). *)
Variable generate_synthetic_data : string -> Z -> list record.

Definition get_db_connection (db : database) : connection := connect db.

(** Lines 25-45. *)
Definition ensure_schema_exists : session unit :=
  cur_execute CreateSchemaIfNotExists ;;
  cur_execute CreateTableIfNotExists ;;
  conn_commit.

(** Lines 83-101. *)
Definition insert_batch (records : list record) : session unit :=
  Extras.execute_values records ;;
  conn_commit.

(** Lines 107-113. *)
Definition symbols : list (string * Z) :=
  [("ES", 4700); ("NQ", 16500); ("YM", 37500); ("RTY", 2100); ("CL", 72)].

(** Lines 120-145: a batch per symbol, each in its own [try]/[except]. *)
Fixpoint load_symbols (items : list (string * Z)) (total_records : nat) : session nat :=
  match items with
  | [] => ret total_records
  | (symbol, base_price) :: rest =>
      total <- try_except
                 (let records := generate_synthetic_data symbol base_price in
                  insert_batch records ;;
                  logging Logging.INFO (Logging.Loaded (List.length records)) ;;
                  ret (total_records + List.length records)%nat)
                 (fun e =>
                    logging Logging.ERROR (Logging.SymbolFailed symbol (Py.str e)) ;;
                    ret total_records) ;;
      load_symbols rest total
  end.

(** Lines 103-155. *)
Definition load_synthetic_data (db : database) : outcome :=
  let '(_, (conn, lg)) :=
    try_except
      (ensure_schema_exists ;;
       total_records <- load_symbols symbols 0 ;;
       logging Logging.INFO (Logging.Total total_records))
      (fun e => logging Logging.ERROR (Logging.LoadFailed (Py.str e)))
      (get_db_connection db, []) in
  {| result := Py.Returned Py.None_;
     store := close conn;
     log := lg ++ [(Logging.INFO, Logging.ConnectionClosed)] |}.

End Script.

End GenerateSyntheticData.

(** ** The vocabulary of the properties *)

Import Postgres.

Definition keys (t : list Row) : list key := map key_of t.

Definition has_key (k : key) (r : Row) : bool :=
  if key_eq_dec (key_of r) k then true else false.

(** The rows of a table stored under a key. *)
Definition rows_with (k : key) (t : list Row) : list Row := filter (has_key k) t.

(** The rows of a statement or of a loop, taken one after the other. *)
Definition upsert_all (rows t : list Row) : list Row :=
  fold_left (fun t r => upsert r t) rows t.

Definition table_rows (db : database) : list Row :=
  match ohlcv_1d db with
  | Some t => t
  | None => []
  end.

(** [PRIMARY KEY (time, symbol)] holds of the stored rows. *)
Definition key_unique (db : database) : Prop := NoDup (keys (table_rows db)).

(** The store once the schema bootstrapper has committed: the table
    exists, with the rows it had. *)
Definition bootstrapped (db : database) : database :=
  {| TimeZone := TimeZone db; ohlcv_1d := Some (table_rows db) |}.

Definition updated (db : database) (rows : list Row) : database :=
  {| TimeZone := TimeZone db; ohlcv_1d := Some (upsert_all rows (table_rows db)) |}.

(** What a run leaves of a batch: nothing, or every row. *)
Definition footprint (before after : database) (rows : list Row) : Prop :=
  table_rows after = table_rows before \/
  table_rows after = upsert_all rows (table_rows before).

(** The count a run reports: that of its [Loaded] record, and 0 when it
    logs none. *)
Fixpoint rows_reported (lg : list Logging.record) : nat :=
  match lg with
  | [] => O
  | (_, Logging.Loaded n) :: _ => n
  | _ :: rest => rows_reported rest
  end.

Definition row_failures (lg : list Logging.record) : list Logging.record :=
  filter (fun entry => match snd entry with Logging.RowFailed _ _ => true | _ => false end) lg.

(** A run writes under [s] only: what the store holds afterwards was there
    before or carries the symbol [s]. *)
Definition writes_only_under (s : string) (before after : database) : Prop :=
  forall r, In r (table_rows after) -> In r (table_rows before) \/ symbol r = s.

(** The stored row a frame row turns into: in [fetch_data.py] with the
    timestamp as it came, in the two [ingest_data.py] with the timestamp
    labelled UTC. *)
Definition fetched_row (tz : Z) (s : string) (row : Databento.row) : Row :=
  row_of tz (FetchData.values s row).

Definition ingested_row (s : string) (row : Databento.row) : Row :=
  {| time := Py.wall (Databento.ts_event row);
     symbol := s;
     open := Databento.open row;
     high := Databento.high row;
     low := Databento.low row;
     close := Databento.close row;
     volume := Databento.volume row |}.

Definition naive (row : Databento.row) : Prop :=
  Py.tzinfo (Databento.ts_event row) = None.

Definition fits (row : Databento.row) : Prop :=
  int4 (Databento.volume row) = true.

Definition walls (df : Databento.DataFrame) : list Z :=
  map (fun row => Py.wall (Databento.ts_event row)) df.

Definition reply_rows (reply : Py.exn + option Databento.DataFrame) : list Databento.row :=
  match reply with
  | inr (Some rows) => rows
  | _ => []
  end.

Definition reply_frame (reply : Py.exn + Databento.DataFrame) : Databento.DataFrame :=
  match reply with
  | inr df => df
  | inl _ => []
  end.

(** The arguments of the call of lines 70-76 of [scripts/ingest_data.py],
    for a dataset and the first symbol listed for it. *)
Definition scripts_request (dataset symbol start_date end_date : string)
  : Databento.request :=
  {| Databento.dataset := dataset;
     Databento.symbols := [symbol];
     Databento.start := start_date;
     Databento.end_ := end_date;
     Databento.schema := "ohlcv";
     Databento.stype_in := None;
     Databento.stype_out := None |}.

(** A sequence of runs of the scripts that write to the table, each with
    its own provider and arguments, or with its own random draw. *)
Inductive invocation : Type :=
| fetch_data (Historical : string -> Databento.client)
             (api_key symbol start_date end_date : string)
| trade_ngin_ingest_data (Historical : string -> Databento.client) (api_key : string)
| scripts_ingest_data (Historical : string -> Databento.client)
                      (api_key start_date end_date : string)
| generate_simple_data (generate_ohlcv_data : list record)
| generate_synthetic_data (generate : string -> Z -> list record).

Definition invoke (i : invocation) (db : database) : outcome :=
  match i with
  | fetch_data H api_key symbol start_date end_date =>
      FetchData.fetch_and_load_data H api_key symbol start_date end_date db
  | trade_ngin_ingest_data H api_key =>
      IngestData.fetch_and_load_data H api_key db
  | scripts_ingest_data H api_key start_date end_date =>
      ScriptsIngestData.fetch_and_load_data H api_key start_date end_date db
  | generate_simple_data records => GenerateSimpleData.load_synthetic_data records db
  | generate_synthetic_data generate => GenerateSyntheticData.load_synthetic_data generate db
  end.

Definition invoke_all (runs : list invocation) (db : database) : database :=
  fold_left (fun db i => store (invoke i db)) runs db.

(** ** Auxiliary notions of the proofs *)

(** What the rows of a batch do to one stored row [x]: each row of the
    same key updates it. *)
Definition absorb (x : Row) (rows : list Row) : Row :=
  fold_left (fun x r => if key_eq_dec (key_of x) (key_of r) then do_update x r else x)
            rows x.

Definition without_key (k : key) (rows : list Row) : list Row :=
  filter (fun r => negb (has_key k r)) rows.

Fixpoint latest (k : key) (rows : list Row) : option Row :=
  match rows with
  | [] => None
  | r :: rest =>
      match latest k rest with
      | Some r' => Some r'
      | None => if has_key k r then Some r else None
      end
  end.

(** What decides whether a statement raises: the volumes and the keys of
    its rows, not the table. *)
Fixpoint statement_error (tz : Z) (touched : list key) (rows : list record)
  : option Py.exn :=
  match rows with
  | [] => None
  | p :: rest =>
      if int4 (rec_volume p) then
        if mem_key (key_of (row_of tz p)) touched then Some Py.CardinalityViolation
        else statement_error tz (key_of (row_of tz p) :: touched) rest
      else Some Py.NumericValueOutOfRange
  end.

Fixpoint pages_error (tz : Z) (pages : list (list record)) : option Py.exn :=
  match pages with
  | [] => None
  | page :: rest =>
      match statement_error tz [] page with
      | Some e => Some e
      | None => pages_error tz rest
      end
  end.

(** What decides how a load of the two [ingest_data.py] ends: the frame
    and the server's [TimeZone]. *)
Definition load_error (tz : Z) (s : string) (df : Databento.DataFrame) : option Py.exn :=
  match IngestData.prepare_records s df with
  | inl e => Some e
  | inr records => pages_error tz (Extras.paginate records 100)
  end.

Ltac session_step :=
  unfold Session.bind, Session.ret, Session.lift, Session.raise, Session.try_except,
    Session.logging, Session.cur_execute, Session.conn_commit, Session.conn_rollback;
  cbn [fst snd].

(** The rows a connection sees in its transaction. *)
Definition work_rows (c : Psycopg2.connection) : list Row :=
  match Psycopg2.work c with
  | Some t => t
  | None => []
  end.

(** The keys are distinct in what is committed and in what the transaction
    sees. *)
Definition session_unique (st : Session.state) : Prop :=
  key_unique (Psycopg2.server (fst st)) /\ NoDup (keys (work_rows (fst st))).

Definition preserves_unique {A} (m : Session.session A) : Prop :=
  forall st, session_unique st -> session_unique (snd (m st)).

(** ** The properties as the specification states them *)

(** The property as the specification has it: a second [write] of the
    batch leaves the store as the first did, and reports as many rows as
    the batch has. *)
Definition write_again_same (write : database -> outcome) (size : nat) (db : database)
  : Prop :=
  store (write (store (write db))) = store (write db) /\
  rows_reported (log (write (store (write db)))) = size.

(** The numeric validation, in the words of the specification: a row is
    rejected when [high < low], [high < open], [high < close],
    [low > open], [low > close] or [volume < 0]. *)
Definition spec_numeric_validation (row : Databento.row) : bool :=
  Qle_bool (Databento.low row) (Databento.high row) &&
  Qle_bool (Databento.open row) (Databento.high row) &&
  Qle_bool (Databento.close row) (Databento.high row) &&
  Qle_bool (Databento.low row) (Databento.open row) &&
  Qle_bool (Databento.low row) (Databento.close row) &&
  (0 <=? Databento.volume row).

(** The outcome the specification asks of a batch: the run does not abort,
    the rows that pass are the ones counted, and no rejected row is in the
    store. *)
Definition validation_exclusion (stored : Databento.row -> Row) (B : Databento.DataFrame)
           (o : outcome) : Prop :=
  result o = Py.Returned Py.None_ /\
  rows_reported (log o) = List.length (filter spec_numeric_validation B) /\
  forall row, In row B -> spec_numeric_validation row = false ->
              ~ In (stored row) (table_rows (store o)).



(** The property as the specification has it: the batch is applied whole
    or not at all, and no row of it was handled on its own. *)
Definition atomic_batch (before : database) (rows : list Row) (o : outcome) : Prop :=
  footprint before (store o) rows /\ row_failures (log o) = [].

(** The conflict policy as the specification has it, of a batch taken as
    writes one after the other: a key that the store held before and that
    records of the batch fall on ends with exactly one row, the last of
    those records. *)
Definition overwritten (rows : list Row) (before after : database) : Prop :=
  forall k r,
    In k (keys (table_rows before)) -> latest k rows = Some r ->
    rows_with k (table_rows after) = [r].

(** The timestamp conversion as the specification has it: every row of
    the frame is stored, at the instant its timestamp denotes, read by its
    own offset or, when it has none, in the offset [source] documented for
    the provider. *)
Definition stored_as_utc (source : Z) (B : Databento.DataFrame) (after : database) : Prop :=
  forall row, In row B ->
    exists r, In r (table_rows after) /\
              time r = timestamptz source (Databento.ts_event row).





(** The return value the specification describes: a success flag with a
    count of rows. *)
Definition returns_status_and_count (o : outcome) : Prop :=
  exists ok n, result o = Py.Returned (Py.Tuple (Py.Bool ok) (Py.Int n)).

(** The property as stated: the rows a run writes all carry one of the
    strings [given] to it, by its caller or as a literal of the script. *)
Definition writes_under_given_symbol (given : list string) (before : database)
           (o : outcome) : Prop :=
  exists s, In s given /\ writes_only_under s before (store o).

(** ** Concrete inputs *)

Definition naive_ts (w : Z) : Py.Timestamp := {| Py.wall := w; Py.tzinfo := None |}.

(** 2024-01-02T00:00:00, and a day, in microseconds. *)
Definition jan02 : Z := 1704153600000000.
Definition day : Z := 86400000000.

Definition bar (w : Z) (o h l c : Q) (v : Z) : Databento.row :=
  {| Databento.ts_event := naive_ts w;
     Databento.instrument_id := 17077;
     Databento.symbol := "ESH4";
     Databento.open := o;
     Databento.high := h;
     Databento.low := l;
     Databento.close := c;
     Databento.volume := v |}.

(** A provider that answers every request with the frame [df] and lists
    one dataset, with the symbols NQ and ES. *)
Definition replying (df : Databento.DataFrame) : string -> Databento.client :=
  fun _ =>
    {| Databento.list_datasets := inr ["GLBX.MDP3"];
       Databento.list_symbols := fun _ => inr ["NQ"; "ES"];
       Databento.get_range := fun _ => inr df;
       Databento.get_historical_ohlcv := fun _ => inr (Some df);
       Databento.request_full_definitions := fun _ => inr [] |}.

Definition replying_client (df : Databento.DataFrame) : Databento.client :=
  replying df "key".

Definition failing (msg : string) : string -> Databento.client :=
  fun _ =>
    {| Databento.list_datasets := inl (Py.DatabentoError msg);
       Databento.list_symbols := fun _ => inl (Py.DatabentoError msg);
       Databento.get_range := fun _ => inl (Py.DatabentoError msg);
       Databento.get_historical_ohlcv := fun _ => inl (Py.DatabentoError msg);
       Databento.request_full_definitions := fun _ => inl (Py.DatabentoError msg) |}.

Definition no_table : database := {| TimeZone := 0; ohlcv_1d := None |}.


(** An environment in which the client is built and answers every request
    with [df], and in which the server cannot be reached. *)
Definition unreachable (df : Databento.DataFrame) : Process.environment :=
  {| Process.Historical := fun api_key => inr (replying_client df);
     Process.psycopg2_connect :=
       Some (Py.OperationalError "connection to server at 3.140.200.228, port 5432 failed") |}.

(** An environment in which the key is refused when the client is built. *)
Definition key_refused : Process.environment :=
  {| Process.Historical := fun api_key => inl (Py.ValueError "invalid API key");
     Process.psycopg2_connect := None |}.

Definition es_4700 : Databento.row := bar jan02 4690 4710 4680 4700 1500000.

(** The same bar with the timestamp the provider's frames carry when they
    are timezone-aware: 2024-01-02T00:00:00+00:00. *)
Definition es_4700_aware : Databento.row :=
  {| Databento.ts_event := {| Py.wall := jan02; Py.tzinfo := Some Py.utc |};
     Databento.instrument_id := 17077;
     Databento.symbol := "ESH4";
     Databento.open := 4690;
     Databento.high := 4710;
     Databento.low := 4680;
     Databento.close := 4700;
     Databento.volume := 1500000 |}.

(** A server that holds the ES bar of 2024-01-02 with close 4700. *)
Definition es_stored : database :=
  {| TimeZone := 0; ohlcv_1d := Some [ingested_row "ES" es_4700] |}.

(** A server without the table whose session [TimeZone] is an hour east of
    UTC. *)
Definition no_table_cet : database := {| TimeZone := 60; ohlcv_1d := None |}.
Definition es_4705 : Databento.row := bar jan02 4690 4710 4680 4705.25 1500000.

(** Nine sound daily bars from 2024-01-02 on, and a tenth with
    [high = 4600 < low = 4680]. *)
Definition ten_rows : Databento.DataFrame :=
  map (fun i => bar (jan02 + Z.of_nat i * day) 4690 4710 4680 4700 1500000) (seq 0 9)
  ++ [bar (jan02 + 9 * day) 4690 4600 4680 4650 1500000].


Definition es_jan03_too_big : Databento.row :=
  bar (jan02 + day) 4700 4720 4690 4710 3000000000.

(** ** The rest of the scripts

    The day loop of [scripts/generate_simple_data.py], and the vocabulary
    of the properties of the code around the entry points. *)

Module GenerateOhlcv.

Import Postgres.

(** Days are counted from 1970-01-01, a Thursday; [weekday] is
    [date.weekday()], Monday being 0. *)
Definition weekday (d : Z) : Z := (d + 3) mod 7.

(** Lines 56-60 of [generate_simple_data.py]: going back from
    [current_date], the days of the week are collected until there are
    ten.  [fuel] bounds the turns of the [while]. *)
Fixpoint business_days_back (fuel : nat) (dates : list Z) (current_date : Z)
  : option (list Z) :=
  match fuel with
  | O => if (List.length dates <? 10)%nat then None else Some dates
  | S fuel' =>
      if (List.length dates <? 10)%nat then
        business_days_back fuel'
          (if weekday current_date <? 5 then dates ++ [current_date] else dates)
          (current_date - 1)
      else Some dates
  end.

(** What the random draws and the float arithmetic of lines 66-83 make of
    a day: the four rounded prices and the volume. *)
Record drawn : Type := mkDrawn {
  d_open : Q;
  d_high : Q;
  d_low : Q;
  d_close : Q;
  d_volume : Z
}.

(** Midnight UTC of a day, as [datetime.now(timezone.utc).replace(hour=0,
    ...)] and [timedelta(days=1)] give it. *)
Definition midnight (d : Z) : Py.Timestamp :=
  {| Py.wall := d * 86400000000; Py.tzinfo := Some Py.utc |}.

(** Lines 45-86: one tuple under ['ES'] per collected day, oldest first
    ([dates[::-1]]). *)
Definition generate_ohlcv_data (fuel : nat) (today : Z) (draw : Z -> drawn)
  : option (list record) :=
  match business_days_back fuel [] today with
  | None => None
  | Some dates =>
      Some (map (fun date =>
                   {| rec_time := midnight date;
                      rec_symbol := "ES";
                      rec_open := d_open (draw date);
                      rec_high := d_high (draw date);
                      rec_low := d_low (draw date);
                      rec_close := d_close (draw date);
                      rec_volume := d_volume (draw date) |})
                (rev dates))
  end.

End GenerateOhlcv.

(** The rows at the head of a frame whose volume the column takes. *)
Fixpoint fitting_prefix (rows : list Databento.row) : nat :=
  match rows with
  | [] => O
  | row :: rest =>
      if int4 (Databento.volume row) then S (fitting_prefix rest) else O
  end.

(** A key is stored: in what is committed and in what the transaction
    sees. *)
Definition key_stored (k : key) (c : Psycopg2.connection) : Prop :=
  In k (keys (table_rows (Psycopg2.server c))) /\ In k (keys (work_rows c)).

Definition preserves_key (k : key) {A} (m : Session.session A) : Prop :=
  forall st, key_stored k (fst st) -> key_stored k (fst (snd (m st))).

(** The symbols on top of the listings of the provider's datasets. *)
Definition listed_first (client : Databento.client) (s : string) : Prop :=
  exists dataset rest, Databento.list_symbols client dataset = inr (s :: rest).

(** The batches of [generate_synthetic_data.py] that the store takes. *)
Definition batch_accepted (tz : Z) (records : list record) : Prop :=
  pages_error tz (Extras.paginate records 100) = None.

(** A provider whose data calls all raise. *)
Definition down (client : Databento.client) : Prop :=
  (forall req, exists e, Databento.get_range client req = inl e) /\
  (forall req, exists e, Databento.get_historical_ohlcv client req = inl e).

(** A dataset the scan of [scripts/ingest_data.py] passes over without
    opening a connection: its listing raises or is empty, or the request
    for its first symbol raises or comes back empty. *)
Definition offers_nothing (client : Databento.client) (start_date end_date dataset : string)
  : Prop :=
  match Databento.list_symbols client dataset with
  | inl _ => True
  | inr [] => True
  | inr (symbol :: _) =>
      match Databento.get_range client
              {| Databento.dataset := dataset;
                 Databento.symbols := [symbol];
                 Databento.start := start_date;
                 Databento.end_ := end_date;
                 Databento.schema := "ohlcv";
                 Databento.stype_in := None;
                 Databento.stype_out := None |} with
      | inl _ => True
      | inr [] => True
      | inr (_ :: _) => False
      end
  end.

(** Newest first, each day before the one ahead of it. *)
Fixpoint descending (l : list Z) : Prop :=
  match l with
  | a :: (b :: _) as rest => b < a /\ descending rest
  | _ => True
  end.

(** The records of the batches of [generate_synthetic_data.py], symbol
    after symbol. *)
Definition batches (generate : string -> Z -> list record) (items : list (string * Z))
  : list record :=
  flat_map (fun item => generate (fst item) (snd item)) items.

(** One record of a batch, at midnight UTC of 2024-01-02. *)
Definition synthetic_bar (symbol : string) (v : Z) : record :=
  {| rec_time := {| Py.wall := jan02; Py.tzinfo := Some Py.utc |};
     rec_symbol := symbol;
     rec_open := 4700;
     rec_high := 4710;
     rec_low := 4690;
     rec_close := 4705;
     rec_volume := v |}.

(** A generator whose NQ batch has a volume that no [INTEGER] holds. *)
Definition generate_nq_too_big (symbol : string) (base_price : Z) : list record :=
  [synthetic_bar symbol (if String.eqb symbol "NQ" then 3000000000 else 1200000)].

(** Draws of the simple generator. *)
Definition flat_draw (d : Z) : GenerateOhlcv.drawn :=
  {| GenerateOhlcv.d_open := 4700;
     GenerateOhlcv.d_high := 4710;
     GenerateOhlcv.d_low := 4690;
     GenerateOhlcv.d_close := 4705;
     GenerateOhlcv.d_volume := 250000 |}.

Definition es_jan03 : Databento.row := bar (jan02 + day) 4700 4720 4690 4710 1400000.

(** ** The table under [upsert] *)

Lemma do_update_same_key (x r : Row) :
  key_of x = key_of r -> do_update x r = r.
Proof.
  destruct x, r; unfold key_of, do_update; simpl.
  intros H; injection H as -> ->; reflexivity.
Qed.

Lemma key_of_do_update (x r : Row) : key_of (do_update x r) = key_of x.
Proof. reflexivity. Qed.

Lemma upsert_in_keys (r : Row) (t : list Row) :
  In (key_of r) (keys t) -> keys (upsert r t) = keys t.
Proof.
  induction t as [|x t IH]; simpl; [tauto|].
  intros Hin. destruct (key_eq_dec (key_of x) (key_of r)) as [E|N]; simpl.
  - reflexivity.
  - f_equal. apply IH. destruct Hin; [contradiction|assumption].
Qed.

Lemma upsert_new_key (r : Row) (t : list Row) :
  ~ In (key_of r) (keys t) -> upsert r t = t ++ [r].
Proof.
  induction t as [|x t IH]; simpl; [reflexivity|].
  intros Hnin. destruct (key_eq_dec (key_of x) (key_of r)) as [E|N].
  - exfalso; apply Hnin; left; assumption.
  - f_equal. apply IH. intros H; apply Hnin; right; assumption.
Qed.

Lemma keys_upsert (r : Row) (t : list Row) :
  keys (upsert r t) =
  if in_dec key_eq_dec (key_of r) (keys t) then keys t else keys t ++ [key_of r].
Proof.
  destruct (in_dec key_eq_dec (key_of r) (keys t)) as [Hin|Hnin].
  - apply upsert_in_keys; assumption.
  - rewrite upsert_new_key by assumption. unfold keys. rewrite map_app. reflexivity.
Qed.

Lemma in_keys_upsert (k : key) (r : Row) (t : list Row) :
  In k (keys (upsert r t)) <-> k = key_of r \/ In k (keys t).
Proof.
  rewrite keys_upsert.
  destruct (in_dec key_eq_dec (key_of r) (keys t)) as [Hin|Hnin].
  - split; [tauto|]. intros [->|H]; assumption.
  - rewrite in_app_iff. simpl. split.
    + intros [H|[H|[]]]; [right; assumption | left; symmetry; assumption].
    + intros [->|H]; [right; left; reflexivity | left; assumption].
Qed.

Lemma NoDup_keys_upsert (r : Row) (t : list Row) :
  NoDup (keys t) -> NoDup (keys (upsert r t)).
Proof.
  intros Hnd. rewrite keys_upsert.
  destruct (in_dec key_eq_dec (key_of r) (keys t)) as [Hin|Hnin]; [assumption|].
  apply NoDup_app; [assumption | repeat constructor; simpl; tauto |].
  intros k Hk [<-|[]]. contradiction.
Qed.

Lemma NoDup_keys_upsert_all (rows t : list Row) :
  NoDup (keys t) -> NoDup (keys (upsert_all rows t)).
Proof.
  revert t. induction rows as [|r rows IH]; simpl; intros t Hnd; [assumption|].
  apply IH, NoDup_keys_upsert, Hnd.
Qed.

Lemma has_key_true (k : key) (r : Row) : has_key k r = true <-> key_of r = k.
Proof. unfold has_key. destruct (key_eq_dec (key_of r) k); split; congruence. Qed.

Lemma has_key_false (k : key) (r : Row) : has_key k r = false <-> key_of r <> k.
Proof. unfold has_key. destruct (key_eq_dec (key_of r) k); split; congruence. Qed.

Lemma In_upsert_self (r : Row) (t : list Row) : In r (upsert r t).
Proof.
  induction t as [|x t IH]; simpl; [left; reflexivity|].
  destruct (key_eq_dec (key_of x) (key_of r)) as [E|N].
  - left. apply do_update_same_key, E.
  - right. exact IH.
Qed.

Lemma In_upsert_other (r r' : Row) (t : list Row) :
  In r' t -> key_of r' <> key_of r -> In r' (upsert r t).
Proof.
  induction t as [|x t IH]; simpl; [tauto|].
  intros [E0|Hin] Hne; destruct (key_eq_dec (key_of x) (key_of r)) as [E|N];
    simpl; auto; subst; contradiction.
Qed.

Lemma In_upsert_inv (r r' : Row) (t : list Row) :
  In r' (upsert r t) -> r' = r \/ In r' t.
Proof.
  induction t as [|x t IH]; simpl.
  - intros [<-|[]]; left; reflexivity.
  - destruct (key_eq_dec (key_of x) (key_of r)) as [E|N]; simpl.
    + rewrite (do_update_same_key _ _ E). intros [<-|H]; auto.
    + intros [<-|H]; auto. destruct (IH H); auto.
Qed.

Lemma In_upsert_all_inv (rows t : list Row) (r' : Row) :
  In r' (upsert_all rows t) -> In r' rows \/ In r' t.
Proof.
  revert t. induction rows as [|r rows IH]; simpl; intros t H; [right; exact H|].
  destruct (IH _ H) as [H'|H']; [left; right; exact H'|].
  destruct (In_upsert_inv _ _ _ H') as [->|H'']; auto.
Qed.

Lemma In_upsert_all_kept (rows t : list Row) (r' : Row) :
  In r' t -> ~ In (key_of r') (keys rows) -> In r' (upsert_all rows t).
Proof.
  revert t. induction rows as [|r rows IH]; simpl; intros t Hin Hk; [exact Hin|].
  apply IH; [|tauto].
  apply In_upsert_other; [exact Hin|]. intros E. apply Hk. left. symmetry. exact E.
Qed.

Lemma In_upsert_all_written (rows t : list Row) (r : Row) :
  NoDup (keys rows) -> In r rows -> In r (upsert_all rows t).
Proof.
  revert t. induction rows as [|r0 rows IH]; simpl; intros t Hnd Hin; [contradiction|].
  inversion Hnd as [|k ks Hk Hnd']; subst.
  destruct Hin as [->|Hin].
  - apply In_upsert_all_kept; [apply In_upsert_self | exact Hk].
  - apply IH; assumption.
Qed.

Lemma rows_with_absent (k : key) (t : list Row) :
  ~ In k (keys t) -> rows_with k t = [].
Proof.
  induction t as [|x t IH]; simpl; [reflexivity|]. intros Hk.
  destruct (has_key k x) eqn:E.
  - apply has_key_true in E. tauto.
  - apply IH. tauto.
Qed.

Lemma rows_with_upsert_self (r : Row) (t : list Row) :
  NoDup (keys t) -> rows_with (key_of r) (upsert r t) = [r].
Proof.
  induction t as [|x t IH]; simpl; intros Hnd.
  - replace (has_key (key_of r) r) with true; [reflexivity|].
    symmetry. apply has_key_true. reflexivity.
  - inversion Hnd as [|k ks Hk Hnd']; subst.
    destruct (key_eq_dec (key_of x) (key_of r)) as [E|N]; simpl.
    + rewrite (do_update_same_key _ _ E).
      replace (has_key (key_of r) r) with true
        by (symmetry; apply has_key_true; reflexivity).
      f_equal. apply rows_with_absent. rewrite <- E. exact Hk.
    + replace (has_key (key_of r) x) with false
        by (symmetry; apply has_key_false; exact N).
      apply IH, Hnd'.
Qed.

Lemma rows_with_upsert_other (k : key) (r : Row) (t : list Row) :
  key_of r <> k -> rows_with k (upsert r t) = rows_with k t.
Proof.
  intros Hne. induction t as [|x t IH]; simpl.
  - replace (has_key k r) with false by (symmetry; apply has_key_false; exact Hne).
    reflexivity.
  - destruct (key_eq_dec (key_of x) (key_of r)) as [E|N]; simpl.
    + replace (has_key k (do_update x r)) with false
        by (symmetry; apply has_key_false; rewrite key_of_do_update; congruence).
      replace (has_key k x) with false
        by (symmetry; apply has_key_false; congruence).
      reflexivity.
    + rewrite IH. reflexivity.
Qed.

Lemma rows_with_upsert_all_other (k : key) (rows t : list Row) :
  ~ In k (keys rows) -> rows_with k (upsert_all rows t) = rows_with k t.
Proof.
  revert t. induction rows as [|r rows IH]; simpl; intros t Hk; [reflexivity|].
  rewrite IH by tauto. apply rows_with_upsert_other. intros E. apply Hk. left. exact E.
Qed.

Lemma rows_with_upsert_all_written (rows t : list Row) (r : Row) :
  NoDup (keys t) -> NoDup (keys rows) -> In r rows ->
  rows_with (key_of r) (upsert_all rows t) = [r].
Proof.
  revert t. induction rows as [|r0 rows IH]; simpl; intros t Ht Hnd Hin; [contradiction|].
  inversion Hnd as [|k ks Hk Hnd']; subst.
  destruct Hin as [->|Hin].
  - rewrite rows_with_upsert_all_other by exact Hk.
    apply rows_with_upsert_self, Ht.
  - apply IH; [apply NoDup_keys_upsert, Ht | exact Hnd' | exact Hin].
Qed.

(** *** Writing a batch twice *)

Lemma key_of_absorb (x : Row) (rows : list Row) : key_of (absorb x rows) = key_of x.
Proof.
  revert x. induction rows as [|r rows IH]; intros x; simpl; [reflexivity|].
  unfold absorb in *. simpl. rewrite IH.
  destruct (key_eq_dec (key_of x) (key_of r)); reflexivity.
Qed.

Lemma absorb_latest (x : Row) (rows : list Row) :
  absorb x rows =
  match latest (key_of x) rows with
  | Some r => do_update x r
  | None => x
  end.
Proof.
  revert x. induction rows as [|r rows IH]; intros x; [reflexivity|].
  change (absorb x (r :: rows))
    with (absorb (if key_eq_dec (key_of x) (key_of r) then do_update x r else x) rows).
  rewrite IH. simpl.
  destruct (key_eq_dec (key_of x) (key_of r)) as [E|N].
  - rewrite key_of_do_update.
    destruct (latest (key_of x) rows); [reflexivity|].
    replace (has_key (key_of x) r) with true
      by (symmetry; apply has_key_true; congruence).
    reflexivity.
  - destruct (latest (key_of x) rows); [reflexivity|].
    replace (has_key (key_of x) r) with false
      by (symmetry; apply has_key_false; congruence).
    reflexivity.
Qed.

Lemma absorb_absorb (x : Row) (rows : list Row) :
  absorb (absorb x rows) rows = absorb x rows.
Proof.
  rewrite (absorb_latest (absorb x rows)), key_of_absorb, absorb_latest.
  destruct (latest (key_of x) rows); reflexivity.
Qed.

Lemma absorb_head (r : Row) (rows : list Row) :
  absorb (absorb r rows) (r :: rows) = absorb r rows.
Proof.
  rewrite (absorb_latest (absorb r rows)), key_of_absorb, absorb_latest. simpl.
  destruct (latest (key_of r) rows) as [r'|]; [reflexivity|].
  replace (has_key (key_of r) r) with true
    by (symmetry; apply has_key_true; reflexivity).
  apply do_update_same_key. reflexivity.
Qed.

Lemma upsert_all_cons (rows : list Row) (x : Row) (t : list Row) :
  upsert_all rows (x :: t) =
  absorb x rows :: upsert_all (without_key (key_of x) rows) t.
Proof.
  revert x t. induction rows as [|r rows IH]; intros x t; [reflexivity|].
  change (upsert_all (r :: rows) (x :: t)) with (upsert_all rows (upsert r (x :: t))).
  change (absorb x (r :: rows))
    with (absorb (if key_eq_dec (key_of x) (key_of r) then do_update x r else x) rows).
  simpl. destruct (key_eq_dec (key_of x) (key_of r)) as [E|N].
  - rewrite IH, key_of_do_update.
    replace (has_key (key_of x) r) with true
      by (symmetry; apply has_key_true; congruence).
    reflexivity.
  - rewrite IH.
    replace (has_key (key_of x) r) with false
      by (symmetry; apply has_key_false; congruence).
    reflexivity.
Qed.

Lemma length_without_key (k : key) (rows : list Row) :
  (List.length (without_key k rows) <= List.length rows)%nat.
Proof.
  induction rows as [|r rows IH]; simpl; [lia|].
  destruct (negb (has_key k r)); simpl; lia.
Qed.

Lemma upsert_all_twice (rows t : list Row) :
  upsert_all rows (upsert_all rows t) = upsert_all rows t.
Proof.
  remember (List.length rows + List.length t)%nat as n eqn:Hn.
  revert rows t Hn. induction n as [n IH] using lt_wf_ind. intros rows t Hn.
  destruct t as [|x t].
  - destruct rows as [|r rows]; [reflexivity|].
    change (upsert_all (r :: rows) []) with (upsert_all rows [r]).
    rewrite upsert_all_cons.
    rewrite (upsert_all_cons (r :: rows)), absorb_head, key_of_absorb.
    f_equal. simpl.
    replace (has_key (key_of r) r) with true
      by (symmetry; apply has_key_true; reflexivity).
    simpl. eapply IH; [|reflexivity].
    pose proof (length_without_key (key_of r) rows). simpl in Hn. simpl. lia.
  - rewrite upsert_all_cons.
    rewrite (upsert_all_cons rows (absorb x rows)), absorb_absorb, key_of_absorb.
    f_equal. eapply IH; [|reflexivity].
    pose proof (length_without_key (key_of x) rows). simpl in Hn. lia.
Qed.

(** ** Statements and pages *)

Import Psycopg2.

Lemma insert_rows_spec (tz : Z) (rows : list record) :
  forall touched t,
    insert_rows tz touched rows t =
    match statement_error tz touched rows with
    | Some e => inl e
    | None => inr (upsert_all (map (row_of tz) rows) t)
    end.
Proof.
  induction rows as [|p rows IH]; intros touched t; simpl; [reflexivity|].
  destruct (int4 (rec_volume p)); [|reflexivity].
  destruct (mem_key (key_of (row_of tz p)) touched); [reflexivity|].
  apply IH.
Qed.

Lemma mem_key_false (k : key) (ks : list key) : mem_key k ks = false <-> ~ In k ks.
Proof. unfold mem_key. destruct (in_dec key_eq_dec k ks); split; congruence || tauto. Qed.

(** A statement goes through exactly when its volumes fit and its keys
    are fresh and pairwise distinct. *)
Lemma statement_error_none (tz : Z) (rows : list record) :
  forall touched,
    statement_error tz touched rows = None <->
    Forall (fun p => int4 (rec_volume p) = true) rows /\
    NoDup (keys (map (row_of tz) rows)) /\
    (forall k, In k (keys (map (row_of tz) rows)) -> ~ In k touched).
Proof.
  induction rows as [|p rows IH]; intros touched; simpl.
  - split; [intros _; repeat split; [constructor | constructor | tauto] | reflexivity].
  - destruct (int4 (rec_volume p)) eqn:Hv.
    + destruct (mem_key (key_of (row_of tz p)) touched) eqn:Hm.
      * split; [discriminate|]. intros (_ & _ & Hfresh). exfalso.
        assert (Hn : mem_key (key_of (row_of tz p)) touched = false)
          by (apply mem_key_false, Hfresh; left; reflexivity).
        congruence.
      * apply mem_key_false in Hm. rewrite IH. split.
        -- intros (Hf & Hnd & Hfresh). repeat split.
           ++ constructor; assumption.
           ++ constructor; [|assumption]. intros Hin. apply (Hfresh _ Hin). left. reflexivity.
           ++ intros k [<-|Hin]; [exact Hm|]. intros Hk. apply (Hfresh _ Hin). right. exact Hk.
        -- intros (Hf & Hnd & Hfresh). inversion Hf; subst. inversion Hnd; subst.
           repeat split; [assumption | assumption |].
           intros k Hin [<-|Hk]; [contradiction|]. apply (Hfresh k); [right; exact Hin | exact Hk].
    + split; [discriminate|]. intros (Hf & _). inversion Hf; subst. congruence.
Qed.

Lemma concat_paginate_from {A} (page_size : nat) (seq : list A) :
  forall page room, List.concat (Extras.paginate_from page_size page room seq) = page ++ seq.
Proof.
  induction seq as [|x seq IH]; intros page room; simpl.
  - destruct page; simpl; [reflexivity|]. rewrite !app_nil_r. reflexivity.
  - destruct room; simpl; rewrite IH.
    + reflexivity.
    + rewrite <- app_assoc. reflexivity.
Qed.

Lemma concat_paginate {A} (seq : list A) (page_size : nat) :
  List.concat (Extras.paginate seq page_size) = seq.
Proof. unfold Extras.paginate. apply concat_paginate_from. Qed.

Lemma NoDup_app_l {A} (l1 l2 : list A) : NoDup (l1 ++ l2) -> NoDup l1.
Proof.
  induction l1 as [|x l1 IH]; simpl; intros H; [constructor|].
  inversion H; subst. constructor; [|apply IH; assumption].
  rewrite in_app_iff in *. tauto.
Qed.

Lemma NoDup_app_r {A} (l1 l2 : list A) : NoDup (l1 ++ l2) -> NoDup l2.
Proof.
  induction l1 as [|x l1 IH]; simpl; intros H; [assumption|].
  inversion H; subst. apply IH; assumption.
Qed.

(** Pages of rows that fit and whose keys are distinct overall all go
    through. *)
Lemma pages_error_none (tz : Z) (pages : list (list record)) :
  Forall (fun p => int4 (rec_volume p) = true) (List.concat pages) ->
  NoDup (keys (map (row_of tz) (List.concat pages))) ->
  pages_error tz pages = None.
Proof.
  induction pages as [|page pages IH]; simpl; intros Hf Hnd; [reflexivity|].
  apply Forall_app in Hf. destruct Hf as [Hf1 Hf2].
  unfold keys in Hnd. rewrite !map_app in Hnd.
  assert (H1 : statement_error tz [] page = None).
  { apply statement_error_none. repeat split;
      [exact Hf1 | exact (NoDup_app_l _ _ Hnd) | intros k _ []]. }
  rewrite H1. apply IH; [exact Hf2 | exact (NoDup_app_r _ _ Hnd)].
Qed.

Lemma execute_insert (db : database) (t : list Row) (rows : list record) :
  execute (InsertOnConflictDoUpdate rows)
          {| server := db; work := Some t; aborted := false |} =
  match statement_error (TimeZone db) [] rows with
  | Some e => (inl e, {| server := db; work := Some t; aborted := true |})
  | None =>
      (inr tt,
       {| server := db;
          work := Some (upsert_all (map (row_of (TimeZone db)) rows) t);
          aborted := false |})
  end.
Proof.
  unfold execute, fail. simpl. rewrite insert_rows_spec.
  destruct (statement_error (TimeZone db) [] rows); reflexivity.
Qed.

Lemma upsert_all_app (rows1 rows2 t : list Row) :
  upsert_all (rows1 ++ rows2) t = upsert_all rows2 (upsert_all rows1 t).
Proof. unfold upsert_all. apply fold_left_app. Qed.

(** The pages of an [execute_values] call in an open transaction: all go
    through and the rows are upserted in order, or a page raises and the
    server's committed state is as before. *)
Lemma execute_pages_run (db : database) (pages : list (list record)) :
  forall t lg,
    match pages_error (TimeZone db) pages with
    | None =>
        Extras.execute_pages pages
          ({| server := db; work := Some t; aborted := false |}, lg) =
        (inr tt,
         ({| server := db;
             work := Some (upsert_all (map (row_of (TimeZone db)) (List.concat pages)) t);
             aborted := false |}, lg))
    | Some e =>
        exists c',
          Extras.execute_pages pages
            ({| server := db; work := Some t; aborted := false |}, lg) =
          (inl e, (c', lg)) /\ server c' = db
    end.
Proof.
  induction pages as [|page pages IH]; intros t lg; simpl; [reflexivity|].
  unfold Session.bind, Session.cur_execute. simpl fst. simpl snd.
  rewrite execute_insert.
  destruct (statement_error (TimeZone db) [] page) as [e|] eqn:He.
  - eexists. split; reflexivity.
  - specialize (IH (upsert_all (map (row_of (TimeZone db)) page) t) lg).
    destruct (pages_error (TimeZone db) pages) as [e|].
    + exact IH.
    + rewrite IH, map_app, upsert_all_app. reflexivity.
Qed.

(** ** The entry points, run *)

Lemma ensure_schema_exists_run (db : database) (lg : list Logging.record) :
  IngestData.ensure_schema_exists (connect db, lg) =
  (inr tt, (connect (bootstrapped db), lg)).
Proof.
  unfold IngestData.ensure_schema_exists. session_step.
  unfold connect, bootstrapped, table_rows, execute, commit. simpl.
  destruct (ohlcv_1d db); reflexivity.
Qed.

Lemma fetch_data_ensure_schema_exists_run (db : database) (lg : list Logging.record) :
  FetchData.ensure_schema_exists (connect db, lg) =
  (inr tt, (connect (bootstrapped db), lg)).
Proof.
  unfold FetchData.ensure_schema_exists. session_step.
  unfold connect, bootstrapped, table_rows, execute, commit. simpl.
  destruct (ohlcv_1d db); reflexivity.
Qed.

Lemma timestamptz_utc (tz w : Z) :
  timestamptz tz {| Py.wall := w; Py.tzinfo := Some Py.utc |} = w.
Proof. unfold timestamptz, Py.utc. simpl. lia. Qed.

(** The records of a frame: every timestamp was naive and is now
    labelled UTC, or a timestamp was aware and the list is not built. *)
Lemma prepare_records_spec (s : string) (df : Databento.DataFrame) :
  match IngestData.prepare_records s df with
  | inr records =>
      Forall naive df /\
      records =
      map (fun row =>
             {| rec_time := {| Py.wall := Py.wall (Databento.ts_event row);
                               Py.tzinfo := Some Py.utc |};
                rec_symbol := s;
                rec_open := Databento.open row;
                rec_high := Databento.high row;
                rec_low := Databento.low row;
                rec_close := Databento.close row;
                rec_volume := Databento.volume row |}) df
  | inl _ => exists row, In row df /\ ~ naive row
  end.
Proof.
  induction df as [|row df IH]; simpl; [split; [constructor|reflexivity]|].
  unfold Py.tz_localize, naive in *.
  destruct (Py.tzinfo (Databento.ts_event row)) eqn:Htz.
  - exists row. split; [left; reflexivity|]. congruence.
  - destruct (IngestData.prepare_records s df) as [e|records].
    + destruct IH as (row' & Hin & Hn). exists row'. split; [right; exact Hin|exact Hn].
    + destruct IH as [Hf ->]. split; [constructor; assumption|reflexivity].
Qed.

Lemma prepare_records_naive (s : string) (df : Databento.DataFrame) :
  Forall naive df -> exists records,
    IngestData.prepare_records s df = inr records /\
    List.length records = List.length df /\
    (forall tz, map (row_of tz) records = map (ingested_row s) df) /\
    map rec_volume records = map Databento.volume df.
Proof.
  intros Hn. pose proof (prepare_records_spec s df) as H.
  destruct (IngestData.prepare_records s df) as [e|records].
  - destruct H as (row & Hin & Hnot). exfalso. apply Hnot.
    rewrite Forall_forall in Hn. apply Hn, Hin.
  - destruct H as [_ ->]. eexists. split; [reflexivity|].
    rewrite length_map. split; [reflexivity|]. split; [|rewrite map_map; reflexivity].
    intros tz. rewrite map_map. apply map_ext. intros row. unfold row_of, ingested_row. simpl.
    rewrite timestamptz_utc. reflexivity.
Qed.

Lemma prepare_records_rows (s : string) (df : Databento.DataFrame) (records : list record) :
  IngestData.prepare_records s df = inr records ->
  Forall naive df /\
  List.length records = List.length df /\
  (forall tz, map (row_of tz) records = map (ingested_row s) df) /\
  map rec_volume records = map Databento.volume df.
Proof.
  intros H. pose proof (prepare_records_spec s df) as Hs. rewrite H in Hs.
  destruct Hs as [Hn _]. split; [exact Hn|].
  destruct (prepare_records_naive s df Hn) as (records' & H' & Hrest).
  rewrite H in H'. injection H' as <-. exact Hrest.
Qed.

Lemma load_run (s : string) (df : Databento.DataFrame) (db : database) :
  match load_error (TimeZone db) s df with
  | None =>
      IngestData.load s df (connect db, []) =
      (inr tt,
       (connect (updated db (map (ingested_row s) df)),
        [(Logging.INFO, Logging.Preparing (List.length df));
         (Logging.INFO, Logging.Loaded (List.length df))]))
  | Some e =>
      exists c' lg,
        IngestData.load s df (connect db, []) = (inl e, (c', lg)) /\
        server c' = bootstrapped db /\ rows_reported lg = O /\ row_failures lg = []
  end.
Proof.
  unfold load_error, IngestData.load.
  session_step. rewrite ensure_schema_exists_run.
  destruct (IngestData.prepare_records s df) as [e|records] eqn:Hp.
  - eexists _, _. repeat split.
  - apply prepare_records_rows in Hp. destruct Hp as (_ & Hlen & Hrows & _).
    cbn [fst snd]. unfold Extras.execute_values.
    pose proof (execute_pages_run (bootstrapped db) (Extras.paginate records 100)
                  (table_rows db)
                  ([] ++ [(Logging.INFO, Logging.Preparing (List.length records))])) as Hx.
    change (TimeZone (bootstrapped db)) with (TimeZone db) in Hx.
    change (connect (bootstrapped db))
      with {| server := bootstrapped db; work := Some (table_rows db); aborted := false |}.
    destruct (pages_error (TimeZone db) (Extras.paginate records 100)) as [e|].
    + destruct Hx as (c' & Hx & Hs). eexists _, _. rewrite Hx.
      split; [reflexivity|]. split; [exact Hs|]. split; reflexivity.
    + rewrite Hx. cbn [fst snd]. rewrite concat_paginate, Hrows, Hlen.
      unfold commit, connect, updated. simpl. reflexivity.
Qed.

Lemma ingest_data_run (df : Databento.DataFrame) (db : database) :
  df <> [] ->
  result (IngestData.with_reply (inr df) db) = Py.Returned Py.None_ /\
  row_failures (log (IngestData.with_reply (inr df) db)) = [] /\
  match load_error (TimeZone db) "ES" df with
  | None =>
      store (IngestData.with_reply (inr df) db) = updated db (map (ingested_row "ES") df) /\
      rows_reported (log (IngestData.with_reply (inr df) db)) = List.length df
  | Some e =>
      store (IngestData.with_reply (inr df) db) = bootstrapped db /\
      rows_reported (log (IngestData.with_reply (inr df) db)) = O
  end.
Proof.
  intros Hne. destruct df as [|row df]; [congruence|].
  unfold IngestData.with_reply, IngestData.get_db_connection, Session.try_except.
  pose proof (load_run "ES" (row :: df) db) as H.
  destruct (load_error (TimeZone db) "ES" (row :: df)) as [e|].
  - destruct H as (c' & lg & -> & Hs & Hr & Hf). unfold Session.logging. cbn [fst snd].
    cbn [result store log]. unfold close. repeat split.
    + unfold row_failures in *. rewrite !filter_app, Hf. reflexivity.
    + exact Hs.
    + clear - Hr. induction lg as [|[l m] lg IH]; [reflexivity|].
      simpl in *. destruct m; auto; try discriminate; subst; reflexivity.
  - rewrite H. cbn [result store log]. repeat split.
Qed.

Lemma insert_loop_aborted (s : string) (rows : list Databento.row) :
  forall n c lg, aborted c = true ->
    exists lg', FetchData.insert_loop s rows n (c, lg) = (inr n, (c, lg')) /\ incl lg lg'.
Proof.
  induction rows as [|row rows IH]; intros n c lg Hc; simpl.
  - eexists. split; [reflexivity|apply incl_refl].
  - session_step. unfold execute. rewrite Hc. cbn [fst snd].
    destruct (IH n c (lg ++ [(Logging.ERROR,
                              Logging.RowFailed row (Py.str Py.InFailedSqlTransaction))]) Hc)
      as (lg' & -> & Hincl).
    eexists. split; [reflexivity|].
    intros x Hx. apply Hincl, in_or_app. left. exact Hx.
Qed.

Lemma statement_error_single (tz : Z) (p : record) :
  statement_error tz [] [p] =
  if int4 (rec_volume p) then None else Some Py.NumericValueOutOfRange.
Proof. simpl. destruct (int4 (rec_volume p)); reflexivity. Qed.

(** The loop of [fetch_data.py] in an open transaction: every statement
    goes through, or one raises and the transaction is left aborted. *)
Lemma insert_loop_run (s : string) (db : database) (rows : list Databento.row) :
  forall t n lg,
    (Forall fits rows /\
     FetchData.insert_loop s rows n
       ({| server := db; work := Some t; aborted := false |}, lg) =
     (inr (n + List.length rows)%nat,
      ({| server := db;
          work := Some (upsert_all (map (fetched_row (TimeZone db) s) rows) t);
          aborted := false |}, lg)))
    \/
    (~ Forall fits rows /\
     exists n' c' lg',
       FetchData.insert_loop s rows n
         ({| server := db; work := Some t; aborted := false |}, lg) =
       (inr n', (c', lg')) /\
       server c' = db /\ aborted c' = true /\
       exists row e, In (Logging.ERROR, Logging.RowFailed row e) lg').
Proof.
  induction rows as [|row rows IH]; intros t n lg.
  - left. split; [constructor|]. simpl. unfold Session.ret.
    rewrite Nat.add_0_r. reflexivity.
  - cbn [FetchData.insert_loop]. session_step. rewrite execute_insert, statement_error_single.
    change (rec_volume (FetchData.values s row)) with (Databento.volume row).
    destruct (int4 (Databento.volume row)) eqn:Hv.
    + cbn [fst snd].
      destruct (IH (upsert_all (map (row_of (TimeZone db)) [FetchData.values s row]) t)
                   (S n) lg) as [[Hf IH']|[Hf IH']].
      * left. split; [constructor; assumption|]. rewrite IH'.
        cbn [List.length map]. rewrite Nat.add_succ_r. reflexivity.
      * right. split; [intros H; inversion H; contradiction|]. exact IH'.
    + cbn [fst snd]. right. split.
      * intros H. inversion H as [|? ? Hfit]; subst. unfold fits in Hfit. congruence.
      * destruct (insert_loop_aborted s rows n
                    {| server := db; work := Some t; aborted := true |}
                    (lg ++ [(Logging.ERROR,
                             Logging.RowFailed row (Py.str Py.NumericValueOutOfRange))])
                    eq_refl) as (lg' & -> & Hincl).
        eexists _, _, _. split; [reflexivity|]. split; [reflexivity|].
        split; [reflexivity|]. eexists _, _. apply Hincl, in_or_app. right. left. reflexivity.
Qed.

Lemma fetch_data_run (s : string) (rows : list Databento.row) (db : database) :
  rows <> [] ->
  (Forall fits rows /\
   FetchData.with_reply (inr (Some rows)) s db =
   {| result := Py.Returned Py.None_;
      store := updated db (map (fetched_row (TimeZone db) s) rows);
      log := [(Logging.INFO, Logging.Loaded (List.length rows));
              (Logging.INFO, Logging.ConnectionClosed)] |})
  \/
  (~ Forall fits rows /\
   exists lg,
     FetchData.with_reply (inr (Some rows)) s db =
     {| result := Py.Returned Py.None_; store := bootstrapped db; log := lg |} /\
     row_failures lg <> []).
Proof.
  intros Hne. destruct rows as [|row rows]; [congruence|].
  pose proof (insert_loop_run s (bootstrapped db) (row :: rows) (table_rows db) O []) as H.
  destruct H as [[Hf H]|[Hf (n' & c' & lg' & H & Hs & Ha & row' & e & Hin)]]; [left|right];
    (split; [exact Hf|]).
  - unfold FetchData.with_reply, FetchData.get_db_connection, FetchData.load.
    session_step. rewrite fetch_data_ensure_schema_exists_run.
    cbn [FetchData.is_none_or_empty FetchData.frame_rows fst snd].
    change (connect (bootstrapped db))
      with {| server := bootstrapped db; work := Some (table_rows db); aborted := false |}.
    rewrite H. reflexivity.
  - eexists.
    unfold FetchData.with_reply, FetchData.get_db_connection, FetchData.load.
    session_step. rewrite fetch_data_ensure_schema_exists_run.
    cbn [FetchData.is_none_or_empty FetchData.frame_rows fst snd].
    change (connect (bootstrapped db))
      with {| server := bootstrapped db; work := Some (table_rows db); aborted := false |}.
    rewrite H. cbn [fst snd]. unfold commit, close, rollback. rewrite Ha. cbn [server].
    rewrite Hs. split; [reflexivity|].
    intros Hnil.
    assert (Hin' : In (Logging.ERROR, Logging.RowFailed row' e)
                      (row_failures ((lg' ++ [(Logging.INFO, Logging.Loaded n')]) ++
                                     [(Logging.INFO, Logging.ConnectionClosed)]))).
    { unfold row_failures. apply filter_In. split; [|reflexivity].
      apply in_or_app. left. apply in_or_app. left. exact Hin. }
    rewrite Hnil in Hin'. exact Hin'.
Qed.

Lemma fetch_data_failed (e : Py.exn) (s : string) (db : database) :
  FetchData.with_reply (inl e) s db =
  {| result := Py.SystemExit 1;
     store := bootstrapped db;
     log := [(Logging.ERROR, Logging.FetchFailed (Py.str e));
             (Logging.ERROR, Logging.RunFailed (Py.str e));
             (Logging.INFO, Logging.ConnectionClosed)] |}.
Proof.
  unfold FetchData.with_reply, FetchData.get_db_connection, FetchData.load.
  session_step. rewrite fetch_data_ensure_schema_exists_run. reflexivity.
Qed.

Lemma fetch_data_no_data (df : option Databento.DataFrame) (s : string) (db : database) :
  FetchData.is_none_or_empty df = true ->
  FetchData.with_reply (inr df) s db =
  {| result := Py.Returned Py.None_;
     store := bootstrapped db;
     log := [(Logging.WARNING, Logging.NoData);
             (Logging.INFO, Logging.ConnectionClosed)] |}.
Proof.
  intros He.
  unfold FetchData.with_reply, FetchData.get_db_connection, FetchData.load.
  session_step. rewrite fetch_data_ensure_schema_exists_run. rewrite He. reflexivity.
Qed.

Lemma fetch_data_cases (reply : Py.exn + option Databento.DataFrame) :
  (exists e, reply = inl e) \/
  (exists df, reply = inr df /\ FetchData.is_none_or_empty df = true) \/
  (exists rows, reply = inr (Some rows) /\ rows <> []).
Proof.
  destruct reply as [e|[[|row rows]|]].
  - left. eexists. reflexivity.
  - right. left. eexists. split; reflexivity.
  - right. right. eexists. split; [reflexivity|discriminate].
  - right. left. eexists. split; reflexivity.
Qed.

Lemma table_rows_bootstrapped (db : database) :
  table_rows (bootstrapped db) = table_rows db.
Proof. reflexivity. Qed.

Lemma table_rows_updated (db : database) (rows : list Row) :
  table_rows (updated db rows) = upsert_all rows (table_rows db).
Proof. reflexivity. Qed.

Lemma fetch_data_footprint (reply : Py.exn + option Databento.DataFrame)
      (s : string) (db : database) :
  footprint db (store (FetchData.with_reply reply s db))
            (map (fetched_row (TimeZone db) s) (reply_rows reply)).
Proof.
  destruct (fetch_data_cases reply) as [[e ->]|[(df & -> & He)|(rows & -> & Hne)]].
  - rewrite fetch_data_failed. left. reflexivity.
  - rewrite fetch_data_no_data by exact He. left. reflexivity.
  - destruct (fetch_data_run s rows db Hne) as [[_ ->]|[_ (lg & -> & _)]].
    + right. reflexivity.
    + left. reflexivity.
Qed.

Lemma ingest_data_footprint (reply : Py.exn + Databento.DataFrame) (db : database) :
  footprint db (store (IngestData.with_reply reply db))
            (map (ingested_row "ES") (reply_frame reply)).
Proof.
  destruct reply as [e|df]; [left; reflexivity|].
  destruct df as [|row df]; [left; reflexivity|].
  assert (Hne : row :: df <> []) by discriminate.
  destruct (ingest_data_run (row :: df) db Hne) as (_ & _ & H).
  destruct (load_error (TimeZone db) "ES" (row :: df)); destruct H as [-> _].
  - left. reflexivity.
  - right. reflexivity.
Qed.

(** One turn of the loop of [scripts/ingest_data.py]: it returns after a
    load under the first symbol listed, or it goes on and has written
    nothing. *)
Lemma attempt_run (client : Databento.client) (start_date end_date dataset : string)
      (db : database) :
  (exists lg, ScriptsIngestData.attempt client start_date end_date dataset db =
              (false, db, lg)) \/
  (exists lg, ScriptsIngestData.attempt client start_date end_date dataset db =
              (false, bootstrapped db, lg)) \/
  (exists s rest df lg,
      Databento.list_symbols client dataset = inr (s :: rest) /\
      ScriptsIngestData.attempt client start_date end_date dataset db =
      (true, updated db (map (ingested_row s) df), lg)).
Proof.
  unfold ScriptsIngestData.attempt.
  destruct (Databento.list_symbols client dataset) as [e|[|s rest]].
  - left. eexists. reflexivity.
  - left. eexists. reflexivity.
  - destruct (Databento.get_range client _) as [e|[|row df]].
    + left. eexists. reflexivity.
    + left. eexists. reflexivity.
    + change (ScriptsIngestData.load s (row :: df))
        with (IngestData.load s (row :: df)).
      unfold ScriptsIngestData.get_db_connection.
      pose proof (load_run s (row :: df) db) as H.
      destruct (load_error (TimeZone db) s (row :: df)) as [e|].
      * destruct H as (c' & lg & -> & Hs & _). right. left. unfold close. rewrite Hs.
        eexists. reflexivity.
      * rewrite H. right. right. eexists _, _, _, _. split; reflexivity.
Qed.

Lemma scan_run (client : Databento.client) (start_date end_date : string)
      (metadata : list string) :
  forall db lg,
    table_rows (fst (ScriptsIngestData.scan client start_date end_date metadata db lg)) =
    table_rows db \/
    exists dataset s rest df,
      In dataset metadata /\
      Databento.list_symbols client dataset = inr (s :: rest) /\
      table_rows (fst (ScriptsIngestData.scan client start_date end_date metadata db lg)) =
      upsert_all (map (ingested_row s) df) (table_rows db).
Proof.
  induction metadata as [|dataset metadata IH]; intros db lg; simpl; [left; reflexivity|].
  destruct (attempt_run client start_date end_date dataset db)
    as [[lg' ->]|[[lg' ->]|(s & rest & df & lg' & Hs & ->)]].
  - destruct (IH db (lg ++ lg')) as [H|(d & s & rest & df & Hin & Hs & H)].
    + left. exact H.
    + right. exists d, s, rest, df. auto.
  - destruct (IH (bootstrapped db) (lg ++ lg')) as [H|(d & s & rest & df & Hin & Hs & H)].
    + left. exact H.
    + right. exists d, s, rest, df. auto.
  - right. exists dataset, s, rest, df. auto.
Qed.

Lemma scripts_ingest_data_run (Historical : string -> Databento.client)
      (api_key start_date end_date : string) (db : database) :
  result (ScriptsIngestData.fetch_and_load_data Historical api_key start_date end_date db) =
  Py.Returned Py.None_ /\
  (table_rows (store (ScriptsIngestData.fetch_and_load_data
                        Historical api_key start_date end_date db)) = table_rows db \/
   exists metadata dataset s rest df,
     Databento.list_datasets (Historical api_key) = inr metadata /\
     In dataset metadata /\
     Databento.list_symbols (Historical api_key) dataset = inr (s :: rest) /\
     table_rows (store (ScriptsIngestData.fetch_and_load_data
                          Historical api_key start_date end_date db)) =
     upsert_all (map (ingested_row s) df) (table_rows db)).
Proof.
  unfold ScriptsIngestData.fetch_and_load_data.
  destruct (Databento.list_datasets (Historical api_key)) as [e|metadata].
  - split; [reflexivity|left; reflexivity].
  - pose proof (scan_run (Historical api_key) start_date end_date metadata db []) as H.
    destruct (ScriptsIngestData.scan (Historical api_key) start_date end_date metadata db [])
      as [db' lg]. cbn [fst] in H. cbn [result store]. split; [reflexivity|].
    destruct H as [H|(d & s & rest & df & Hin & Hs & H)]; [left; exact H|].
    right. exists metadata, d, s, rest, df. auto.
Qed.

Lemma footprint_key_unique (before after : database) (rows : list Row) :
  footprint before after rows -> key_unique before -> key_unique after.
Proof.
  unfold footprint, key_unique. intros [->| ->] H; [exact H|].
  apply NoDup_keys_upsert_all, H.
Qed.

(** *** Uniqueness along a session *)

Create HintDb unique discriminated.

Lemma preserves_ret {A} (a : A) : preserves_unique (Session.ret a).
Proof. intros st H. exact H. Qed.

Lemma preserves_raise {A} (e : Py.exn) : preserves_unique (@Session.raise A e).
Proof. intros st H. exact H. Qed.

Lemma preserves_lift {A} (r : Py.exn + A) : preserves_unique (Session.lift r).
Proof. intros st H. exact H. Qed.

Lemma preserves_logging (l : Logging.level) (m : Logging.message) :
  preserves_unique (Session.logging l m).
Proof. intros [c lg] H. exact H. Qed.

Lemma preserves_bind {A B} (m : Session.session A) (k : A -> Session.session B) :
  preserves_unique m -> (forall a, preserves_unique (k a)) ->
  preserves_unique (Session.bind m k).
Proof.
  intros Hm Hk st H. unfold Session.bind. specialize (Hm st H).
  destruct (m st) as [[e|a] st']; [exact Hm|]. apply Hk, Hm.
Qed.

Lemma preserves_try_except {A} (body : Session.session A)
      (handler : Py.exn -> Session.session A) :
  preserves_unique body -> (forall e, preserves_unique (handler e)) ->
  preserves_unique (Session.try_except body handler).
Proof.
  intros Hb Hh st H. unfold Session.try_except. specialize (Hb st H).
  destruct (body st) as [[e|a] st']; [apply Hh, Hb|exact Hb].
Qed.

Lemma preserves_conn_commit : preserves_unique Session.conn_commit.
Proof.
  intros [c lg] [Hs Hw]. unfold Session.conn_commit, session_unique, commit, rollback.
  cbn [fst snd] in *. destruct (aborted c); cbn [server work].
  - split; [exact Hs|]. exact Hs.
  - split; exact Hw.
Qed.

Lemma preserves_cur_execute (stmt : statement) : preserves_unique (Session.cur_execute stmt).
Proof.
  intros [c lg] [Hs Hw]. unfold Session.cur_execute, session_unique, execute, fail.
  cbn [fst snd] in *. destruct (aborted c); [split; assumption|].
  unfold work_rows in *.
  destruct stmt as [| |rows]; cbn [fst snd server work].
  - split; assumption.
  - split; [exact Hs|]. destruct (work c); [exact Hw|constructor].
  - destruct (work c) as [t|]; cbn [fst snd server work]; [|split; [exact Hs|constructor]].
    rewrite insert_rows_spec.
    destruct (statement_error (TimeZone (server c)) [] rows); cbn [fst snd server work].
    + split; assumption.
    + split; [exact Hs|]. apply NoDup_keys_upsert_all, Hw.
Qed.

#[export] Hint Resolve preserves_ret preserves_raise preserves_lift preserves_logging
  preserves_conn_commit preserves_cur_execute : unique.

Ltac preserves :=
  repeat first
    [ apply preserves_bind; [|intros ?]
    | apply preserves_try_except; [|intros ?]
    | solve [auto with unique] ].

Lemma preserves_execute_values (records : list record) :
  preserves_unique (Extras.execute_values records).
Proof.
  unfold Extras.execute_values.
  induction (Extras.paginate records 100) as [|page pages IH]; simpl; preserves.
Qed.

#[export] Hint Resolve preserves_execute_values : unique.

Lemma preserves_load_symbols (generate : string -> Z -> list record)
      (items : list (string * Z)) :
  forall total, preserves_unique (GenerateSyntheticData.load_symbols generate items total).
Proof.
  induction items as [|[symbol base_price] items IH]; intros total; simpl; [preserves|].
  apply preserves_bind; [|intros n; apply IH].
  unfold GenerateSyntheticData.insert_batch. preserves.
Qed.

Lemma session_unique_connect (db : database) (lg : list Logging.record) :
  key_unique db -> session_unique (connect db, lg).
Proof. intros H. split; exact H. Qed.

Lemma generate_simple_data_key_unique (records : list record) (db : database) :
  key_unique db -> key_unique (store (GenerateSimpleData.load_synthetic_data records db)).
Proof.
  intros H. unfold GenerateSimpleData.load_synthetic_data.
  match goal with
  | |- context [Session.try_except ?body ?handler ?st] =>
      assert (Hp : session_unique (snd (Session.try_except body handler st)));
      [|destruct (Session.try_except body handler st) as [r [conn lg]]; exact (proj1 Hp)]
  end.
  assert (P : preserves_unique
                (Session.try_except
                   (Session.bind GenerateSimpleData.ensure_schema_exists
                      (fun _ =>
                         Session.bind (Extras.execute_values records)
                           (fun _ =>
                              Session.bind Session.conn_commit
                                (fun _ => Session.logging Logging.INFO
                                            (Logging.Loaded (List.length records))))))
                   (fun e => Session.logging Logging.ERROR (Logging.LoadFailed (Py.str e))))).
  { unfold GenerateSimpleData.ensure_schema_exists. preserves. }
  apply P, session_unique_connect, H.
Qed.

Lemma generate_synthetic_data_key_unique (generate : string -> Z -> list record)
      (db : database) :
  key_unique db -> key_unique (store (GenerateSyntheticData.load_synthetic_data generate db)).
Proof.
  intros H. unfold GenerateSyntheticData.load_synthetic_data.
  match goal with
  | |- context [Session.try_except ?body ?handler ?st] =>
      assert (Hp : session_unique (snd (Session.try_except body handler st)));
      [|destruct (Session.try_except body handler st) as [r [conn lg]]; exact (proj1 Hp)]
  end.
  assert (P : preserves_unique
                (Session.try_except
                   (Session.bind GenerateSyntheticData.ensure_schema_exists
                      (fun _ =>
                         Session.bind
                           (GenerateSyntheticData.load_symbols generate
                              GenerateSyntheticData.symbols 0)
                           (fun total => Session.logging Logging.INFO (Logging.Total total))))
                   (fun e => Session.logging Logging.ERROR (Logging.LoadFailed (Py.str e))))).
  { unfold GenerateSyntheticData.ensure_schema_exists.
    apply preserves_try_except; [|intros e; preserves].
    apply preserves_bind; [preserves|intros _].
    apply preserves_bind; [apply preserves_load_symbols|intros total; preserves]. }
  apply P, session_unique_connect, H.
Qed.

Lemma invoke_key_unique (i : invocation) (db : database) :
  key_unique db -> key_unique (store (invoke i db)).
Proof.
  intros H. destruct i as [Hi k s a b|Hi k|Hi k a b|records|generate]; simpl.
  - eapply footprint_key_unique; [apply fetch_data_footprint|exact H].
  - eapply footprint_key_unique; [apply ingest_data_footprint|exact H].
  - destruct (scripts_ingest_data_run Hi k a b db) as [_ [E|(m & d & s & rest & df & _ & _ & _ & E)]];
      unfold key_unique; rewrite E; [exact H|apply NoDup_keys_upsert_all, H].
  - apply generate_simple_data_key_unique, H.
  - apply generate_synthetic_data_key_unique, H.
Qed.

(** ** Key uniqueness *)

Lemma invoke_all_key_unique (runs : list invocation) :
  forall db, key_unique db -> key_unique (invoke_all runs db).
Proof.
  induction runs as [|i runs IH]; intros db H; [exact H|].
  simpl. apply IH, invoke_key_unique, H.
Qed.

(** C3.  Key uniqueness: whatever runs of the scripts that write to the
    table follow one another on a server where the table does not exist
    yet (the three ingestion entry points and the two generators, with
    whatever providers, arguments and draws), no two rows of the table
    share their [(time, symbol)].  The first run that connects creates the
    table, empty, and every write goes through
    [ON CONFLICT (time, symbol) DO UPDATE]. *)
Theorem key_uniqueness :
  forall (tz : Z) (runs : list invocation),
    key_unique (invoke_all runs {| TimeZone := tz; ohlcv_1d := None |}).
Proof.
  intros tz runs. apply invoke_all_key_unique. unfold key_unique. simpl. constructor.
Qed.

(** ** Writing a batch again *)

Lemma NoDup_map_injective {A B} (f : A -> B) (l : list A) :
  (forall x y, f x = f y -> x = y) -> NoDup l -> NoDup (map f l).
Proof.
  intros Hinj. induction 1 as [|x l Hx Hnd IH]; simpl; constructor; [|exact IH].
  intros Hin. apply in_map_iff in Hin. destruct Hin as (y & E & Hy).
  apply Hinj in E. subst. contradiction.
Qed.

Lemma keys_ingested (s : string) (df : Databento.DataFrame) :
  keys (map (ingested_row s) df) = map (fun w => (w, s)) (walls df).
Proof. unfold keys, walls. rewrite !map_map. reflexivity. Qed.

Lemma NoDup_keys_ingested (s : string) (df : Databento.DataFrame) :
  NoDup (walls df) -> NoDup (keys (map (ingested_row s) df)).
Proof.
  intros H. rewrite keys_ingested. apply NoDup_map_injective; [|exact H].
  intros x y E. congruence.
Qed.

Lemma keys_fetched (tz : Z) (s : string) (df : Databento.DataFrame) :
  Forall naive df ->
  keys (map (fetched_row tz s) df) = map (fun w => (w - 60000000 * tz, s)) (walls df).
Proof.
  intros Hn. unfold keys, walls. rewrite !map_map. apply map_ext_in.
  intros row Hin. rewrite Forall_forall in Hn. specialize (Hn row Hin).
  unfold fetched_row, row_of, key_of, timestamptz, FetchData.values, naive in *. simpl.
  rewrite Hn. reflexivity.
Qed.

Lemma NoDup_keys_fetched (tz : Z) (s : string) (df : Databento.DataFrame) :
  Forall naive df -> NoDup (walls df) -> NoDup (keys (map (fetched_row tz s) df)).
Proof.
  intros Hn H. rewrite keys_fetched by exact Hn.
  apply NoDup_map_injective; [|exact H].
  intros x y E. injection E as E. lia.
Qed.

Lemma load_error_none (tz : Z) (s : string) (df : Databento.DataFrame) :
  Forall fits df -> Forall naive df -> NoDup (walls df) -> load_error tz s df = None.
Proof.
  intros Hf Hn Hnd. unfold load_error.
  destruct (prepare_records_naive s df Hn) as (records & -> & _ & Hrows & Hvol).
  apply pages_error_none; rewrite concat_paginate.
  - rewrite Forall_forall in *. intros p Hp.
    assert (Hin : In (rec_volume p) (map Databento.volume df))
      by (rewrite <- Hvol; apply in_map, Hp).
    apply in_map_iff in Hin. destruct Hin as (row & <- & Hrow). apply Hf, Hrow.
  - rewrite Hrows. apply NoDup_keys_ingested, Hnd.
Qed.

Lemma updated_twice (db : database) (rows : list Row) :
  updated (updated db rows) rows = updated db rows.
Proof. unfold updated. cbn [TimeZone table_rows ohlcv_1d]. rewrite upsert_all_twice. reflexivity. Qed.

(** Whatever the batch, a second write leaves the store as the first
    did. *)
Lemma fetch_data_store_again (reply : Py.exn + option Databento.DataFrame)
      (s : string) (db : database) :
  store (FetchData.with_reply reply s (store (FetchData.with_reply reply s db))) =
  store (FetchData.with_reply reply s db).
Proof.
  destruct (fetch_data_cases reply) as [[e ->]|[(df & -> & He)|(rows & -> & Hne)]].
  - rewrite !fetch_data_failed. reflexivity.
  - rewrite !fetch_data_no_data by exact He. reflexivity.
  - destruct (fetch_data_run s rows db Hne) as [[Hf ->]|[Hf (lg & -> & _)]]; cbn [store].
    + destruct (fetch_data_run s rows (updated db (map (fetched_row (TimeZone db) s) rows)) Hne)
        as [[_ ->]|[Hf' _]]; [|contradiction].
      cbn [store]. apply updated_twice.
    + destruct (fetch_data_run s rows (bootstrapped db) Hne)
        as [[Hf' _]|[_ (lg' & -> & _)]]; [contradiction|]. reflexivity.
Qed.

Lemma ingest_data_store_again (reply : Py.exn + Databento.DataFrame) (db : database) :
  store (IngestData.with_reply reply (store (IngestData.with_reply reply db))) =
  store (IngestData.with_reply reply db).
Proof.
  destruct reply as [e|df]; [reflexivity|].
  destruct df as [|row df]; [reflexivity|].
  assert (Hne : row :: df <> []) by discriminate.
  destruct (ingest_data_run (row :: df) db Hne) as (_ & _ & H).
  destruct (load_error (TimeZone db) "ES" (row :: df)) eqn:He; destruct H as [-> _].
  - destruct (ingest_data_run (row :: df) (bootstrapped db) Hne) as (_ & _ & H).
    change (TimeZone (bootstrapped db)) with (TimeZone db) in H. rewrite He in H.
    destruct H as [-> _]. reflexivity.
  - destruct (ingest_data_run (row :: df) (updated db (map (ingested_row "ES") (row :: df))) Hne)
      as (_ & _ & H).
    change (TimeZone (updated db (map (ingested_row "ES") (row :: df))))
      with (TimeZone db) in H. rewrite He in H.
    destruct H as [-> _]. apply updated_twice.
Qed.

(** C1, as amended.  Idempotence: for every batch whose rows the table
    accepts (each volume within the [INTEGER] column), writing it through
    the loop of [fetch_data.py] and writing it again leaves the store as
    the first write did, and the second write reports as many rows as the
    batch has; the same holds of the [execute_values] write of
    [trade_ngin/scripts/ingest_data.py] when, besides, the timestamps are
    naive and no two rows of the batch share theirs. *)
Theorem write_again_same_batch :
  forall (s : string) (B : Databento.DataFrame) (db : database),
    Forall fits B ->
    write_again_same (FetchData.with_reply (inr (Some B)) s) (List.length B) db /\
    (Forall naive B -> NoDup (walls B) ->
     write_again_same (IngestData.with_reply (inr B)) (List.length B) db).
Proof.
  intros s B db Hf. unfold write_again_same. split.
  - split; [apply fetch_data_store_again|].
    destruct B as [|row B]; [reflexivity|].
    assert (Hne : row :: B <> []) by discriminate.
    destruct (fetch_data_run s (row :: B)
                (store (FetchData.with_reply (inr (Some (row :: B))) s db)) Hne)
      as [[_ ->]|[Hf' _]]; [reflexivity|contradiction].
  - intros Hn Hnd. split; [apply ingest_data_store_again|].
    destruct B as [|row B]; [reflexivity|].
    assert (Hne : row :: B <> []) by discriminate.
    destruct (ingest_data_run (row :: B)
                (store (IngestData.with_reply (inr (row :: B)) db)) Hne) as (_ & _ & H).
    rewrite load_error_none in H by assumption.
    destruct H as [_ ->]. reflexivity.
Qed.

Lemma write_again_same_batch_witness :
  write_again_same (FetchData.with_reply (inr (Some [es_4700])) "ES") 1 no_table /\
  write_again_same (IngestData.with_reply (inr [es_4700])) 1 no_table.
Proof.
  destruct (write_again_same_batch "ES" [es_4700] no_table) as [H1 H2].
  - repeat constructor.
  - split; [exact H1|]. apply H2.
    + repeat constructor.
    + repeat constructor. simpl. tauto.
Defined.

(** Against C1 as stated: a batch of one row whose volume does not fit the
    column is logged and skipped by [fetch_data.py], which reports 0 rows;
    a batch of two rows with one key makes the single statement of
    [execute_values] raise, and no count is reported. *)
Lemma write_again_same_refuted :
  ~ write_again_same
      (FetchData.with_reply (inr (Some [bar jan02 4690 4710 4680 4700 3000000000])) "ES")
      1 no_table /\
  ~ write_again_same (IngestData.with_reply (inr [es_4700; es_4705])) 2 no_table.
Proof.
  split; intros [_ H]; vm_compute in H; discriminate.
Qed.

(** ** What is stored of a batch *)

Lemma fetch_data_stores_batch (s : string) (B : Databento.DataFrame) (db : database) :
  Forall fits B -> Forall naive B -> NoDup (walls B) ->
  result (FetchData.with_reply (inr (Some B)) s db) = Py.Returned Py.None_ /\
  rows_reported (log (FetchData.with_reply (inr (Some B)) s db)) = List.length B /\
  forall row, In row B ->
    In (fetched_row (TimeZone db) s row)
       (table_rows (store (FetchData.with_reply (inr (Some B)) s db))).
Proof.
  intros Hf Hn Hnd. destruct B as [|row0 B].
  - rewrite fetch_data_no_data by reflexivity. repeat split. intros row [].
  - assert (Hne : row0 :: B <> []) by discriminate.
    destruct (fetch_data_run s (row0 :: B) db Hne) as [[_ ->]|[Hf' _]]; [|contradiction].
    cbn [result store log]. repeat split.
    intros row Hin. rewrite table_rows_updated.
    apply In_upsert_all_written; [apply NoDup_keys_fetched; assumption|].
    apply in_map, Hin.
Qed.

Lemma ingest_data_stores_batch (B : Databento.DataFrame) (db : database) :
  Forall fits B -> Forall naive B -> NoDup (walls B) ->
  result (IngestData.with_reply (inr B) db) = Py.Returned Py.None_ /\
  rows_reported (log (IngestData.with_reply (inr B) db)) = List.length B /\
  forall row, In row B ->
    In (ingested_row "ES" row) (table_rows (store (IngestData.with_reply (inr B) db))).
Proof.
  intros Hf Hn Hnd. destruct B as [|row0 B].
  - repeat split. intros row [].
  - assert (Hne : row0 :: B <> []) by discriminate.
    destruct (ingest_data_run (row0 :: B) db Hne) as (Hr & _ & H).
    rewrite load_error_none in H by assumption. destruct H as [Hs Hc].
    split; [exact Hr|]. split; [exact Hc|].
    intros row Hin. rewrite Hs, table_rows_updated.
    apply In_upsert_all_written; [apply NoDup_keys_ingested; assumption|].
    apply in_map, Hin.
Qed.

(** *** Validation *)

(** C4, as amended.  The scripts validate nothing: every row of a batch
    that the table accepts is stored as it came, whatever the order of its
    open, high, low and close and the sign of its volume, the count
    reported is the size of the batch, and the run returns.  (A batch of
    ten rows with one [high < low] gives ten stored rows.) *)
Theorem no_numeric_validation :
  forall (s : string) (B : Databento.DataFrame) (db : database),
    Forall fits B -> Forall naive B -> NoDup (walls B) ->
    (result (FetchData.with_reply (inr (Some B)) s db) = Py.Returned Py.None_ /\
     rows_reported (log (FetchData.with_reply (inr (Some B)) s db)) = List.length B /\
     forall row, In row B ->
       In (fetched_row (TimeZone db) s row)
          (table_rows (store (FetchData.with_reply (inr (Some B)) s db)))) /\
    (result (IngestData.with_reply (inr B) db) = Py.Returned Py.None_ /\
     rows_reported (log (IngestData.with_reply (inr B) db)) = List.length B /\
     forall row, In row B ->
       In (ingested_row "ES" row) (table_rows (store (IngestData.with_reply (inr B) db)))).
Proof.
  intros s B db Hf Hn Hnd. split.
  - apply fetch_data_stores_batch; assumption.
  - apply ingest_data_stores_batch; assumption.
Qed.

Lemma ten_rows_accepted :
  Forall fits ten_rows /\ Forall naive ten_rows /\ NoDup (walls ten_rows).
Proof.
  split; [|split].
  - repeat constructor.
  - repeat constructor.
  - vm_compute. repeat constructor; simpl; intuition discriminate.
Qed.

Lemma no_numeric_validation_witness :
  rows_reported (log (FetchData.with_reply (inr (Some ten_rows)) "ES" no_table)) = 10%nat /\
  rows_reported (log (IngestData.with_reply (inr ten_rows) no_table)) = 10%nat /\
  In (ingested_row "ES" (bar (jan02 + 9 * day) 4690 4600 4680 4650 1500000))
     (table_rows (store (IngestData.with_reply (inr ten_rows) no_table))).
Proof.
  destruct ten_rows_accepted as (Hf & Hn & Hnd).
  destruct (no_numeric_validation "ES" ten_rows no_table Hf Hn Hnd)
    as [(_ & H1 & _) (_ & H2 & H3)].
  split; [exact H1|]. split; [exact H2|].
  apply H3. unfold ten_rows. apply in_or_app. right. left. reflexivity.
Defined.

(** Against C4 as stated: of the ten rows, the one with [high < low] is
    stored with the other nine, and ten rows are reported. *)
Lemma validation_exclusion_refuted :
  ~ validation_exclusion (ingested_row "ES") ten_rows
      (IngestData.with_reply (inr ten_rows) no_table) /\
  ~ validation_exclusion (fetched_row 0 "ES") ten_rows
      (FetchData.with_reply (inr (Some ten_rows)) "ES" no_table).
Proof.
  split; intros (_ & H & _); vm_compute in H; discriminate.
Qed.

(** *** Rounding *)




(** ** All or nothing *)

(** C5, as amended.  Every batch write applies all the records of the
    batch or none: the store afterwards holds the rows it held, or those
    with every row of the batch upserted.  The [execute_values] write of
    [trade_ngin/scripts/ingest_data.py] handles no row on its own.  The
    loop of [fetch_data.py] does: a row whose statement raises is logged,
    the loop goes on, and the run returns. *)
Theorem batch_all_or_nothing :
  forall (s : string) (B : Databento.DataFrame) (db : database),
    footprint db (store (FetchData.with_reply (inr (Some B)) s db))
              (map (fetched_row (TimeZone db) s) B) /\
    atomic_batch db (map (ingested_row "ES") B) (IngestData.with_reply (inr B) db) /\
    (~ Forall fits B ->
     result (FetchData.with_reply (inr (Some B)) s db) = Py.Returned Py.None_ /\
     row_failures (log (FetchData.with_reply (inr (Some B)) s db)) <> []).
Proof.
  intros s B db. split; [|split].
  - apply (fetch_data_footprint (inr (Some B))).
  - split; [apply (ingest_data_footprint (inr B))|].
    destruct B as [|row B]; [reflexivity|].
    apply ingest_data_run. discriminate.
  - intros Hnf. destruct B as [|row B]; [exfalso; apply Hnf; constructor|].
    assert (Hne : row :: B <> []) by discriminate.
    destruct (fetch_data_run s (row :: B) db Hne) as [[Hf _]|[_ (lg & -> & Hl)]];
      [contradiction|].
    split; [reflexivity|exact Hl].
Qed.

Lemma batch_all_or_nothing_witness :
  result (FetchData.with_reply (inr (Some [es_4700; es_jan03_too_big])) "ES" no_table) =
  Py.Returned Py.None_ /\
  row_failures
    (log (FetchData.with_reply (inr (Some [es_4700; es_jan03_too_big])) "ES" no_table)) <> [].
Proof.
  destruct (batch_all_or_nothing "ES" [es_4700; es_jan03_too_big] no_table) as (_ & _ & H).
  apply H. intros Hf. inversion Hf as [|? ? _ Hf']; subst.
  inversion Hf' as [|? ? Hbig _]; subst. vm_compute in Hbig. discriminate.
Defined.

(** Against C5 as stated: in [fetch_data.py] the second row of this batch
    is refused by the table, the failure is caught and logged for that row
    alone, and the run goes on to commit and to report one row. *)
Lemma atomic_batch_refuted :
  ~ atomic_batch no_table
      (map (fetched_row 0 "ES") [es_4700; es_jan03_too_big])
      (FetchData.with_reply (inr (Some [es_4700; es_jan03_too_big])) "ES" no_table) /\
  rows_reported
    (log (FetchData.with_reply (inr (Some [es_4700; es_jan03_too_big])) "ES" no_table)) = 1%nat.
Proof.
  split; [|reflexivity].
  intros [_ H]. vm_compute in H. discriminate.
Qed.

(** ** What the entry points return *)

(** With the client built and the server reached, each entry point
    returns [None], and [fetch_data.py] ends the process with status 1
    instead, exactly when the provider's call raised. *)
Lemma entry_points_return_reachable :
  forall (Historical : string -> Databento.client)
         (api_key symbol start_date end_date : string) (db : database),
    (result (FetchData.fetch_and_load_data Historical api_key symbol start_date end_date db) =
     match Databento.get_historical_ohlcv (Historical api_key)
             (FetchData.request symbol start_date end_date) with
     | inl _ => Py.SystemExit 1
     | inr _ => Py.Returned Py.None_
     end) /\
    result (IngestData.fetch_and_load_data Historical api_key db) = Py.Returned Py.None_ /\
    result (ScriptsIngestData.fetch_and_load_data Historical api_key start_date end_date db) =
    Py.Returned Py.None_.
Proof.
  intros Historical api_key symbol start_date end_date db. split; [|split].
  - unfold FetchData.fetch_and_load_data.
    destruct (fetch_data_cases (Databento.get_historical_ohlcv (Historical api_key)
                                  (FetchData.request symbol start_date end_date)))
      as [[e ->]|[(df & -> & He)|(rows & -> & Hne)]].
    + rewrite fetch_data_failed. reflexivity.
    + rewrite fetch_data_no_data by exact He. reflexivity.
    + destruct (fetch_data_run symbol rows db Hne) as [[_ ->]|[_ (lg & -> & _)]]; reflexivity.
  - unfold IngestData.fetch_and_load_data.
    destruct (Databento.get_range (Historical api_key) IngestData.request) as [e|[|row df]];
      [reflexivity|reflexivity|].
    apply ingest_data_run. discriminate.
  - apply scripts_ingest_data_run.
Qed.

(** Against C9 as stated: a run of each entry point that loads one row
    returns [None]. *)
Lemma returns_status_and_count_refuted :
  ~ returns_status_and_count
      (FetchData.fetch_and_load_data (replying [es_4700]) "key" "ES"
         "2023-01-01" "2024-01-09" no_table) /\
  ~ returns_status_and_count
      (IngestData.fetch_and_load_data (replying [es_4700]) "key" no_table) /\
  ~ returns_status_and_count
      (ScriptsIngestData.fetch_and_load_data (replying [es_4700]) "key"
         "2024-01-01" "2024-01-31" no_table).
Proof.
  repeat split; intros (ok & n & H); vm_compute in H; discriminate.
Qed.

(** ** One symbol per run *)

Lemma footprint_writes_only_under (s : string) (before after : database) (rows : list Row) :
  Forall (fun r => symbol r = s) rows ->
  footprint before after rows -> writes_only_under s before after.
Proof.
  intros Hs [E|E] r Hin; rewrite E in Hin; [left; exact Hin|].
  destruct (In_upsert_all_inv _ _ _ Hin) as [H|H]; [right|left; exact H].
  rewrite Forall_forall in Hs. apply Hs, H.
Qed.

Lemma symbol_of_fetched (tz : Z) (s : string) (df : Databento.DataFrame) :
  Forall (fun r => symbol r = s) (map (fetched_row tz s) df).
Proof. apply Forall_forall. intros r Hin. apply in_map_iff in Hin. destruct Hin as (row & <- & _). reflexivity. Qed.

Lemma symbol_of_ingested (s : string) (df : Databento.DataFrame) :
  Forall (fun r => symbol r = s) (map (ingested_row s) df).
Proof. apply Forall_forall. intros r Hin. apply in_map_iff in Hin. destruct Hin as (row & <- & _). reflexivity. Qed.

(** C10, as amended.  Whatever the frames the provider returns, and
    whatever per-row symbol and instrument identifier they carry, a run
    writes under one symbol only: [fetch_data.py] under its [symbol]
    argument, [trade_ngin/scripts/ingest_data.py] under the literal ["ES"],
    and [scripts/ingest_data.py], when it writes at all, under the first
    symbol the provider lists for one of its datasets. *)
Theorem one_symbol_per_run :
  forall (Historical : string -> Databento.client)
         (api_key symbol start_date end_date : string) (db : database),
    writes_only_under symbol db
      (store (FetchData.fetch_and_load_data Historical api_key symbol start_date end_date db)) /\
    writes_only_under "ES" db (store (IngestData.fetch_and_load_data Historical api_key db)) /\
    (table_rows (store (ScriptsIngestData.fetch_and_load_data
                          Historical api_key start_date end_date db)) = table_rows db \/
     exists metadata dataset s rest,
       Databento.list_datasets (Historical api_key) = inr metadata /\
       In dataset metadata /\
       Databento.list_symbols (Historical api_key) dataset = inr (s :: rest) /\
       writes_only_under s db
         (store (ScriptsIngestData.fetch_and_load_data
                   Historical api_key start_date end_date db))).
Proof.
  intros Historical api_key symbol start_date end_date db. split; [|split].
  - eapply footprint_writes_only_under;
      [apply symbol_of_fetched | apply fetch_data_footprint].
  - eapply footprint_writes_only_under;
      [apply symbol_of_ingested | apply ingest_data_footprint].
  - destruct (scripts_ingest_data_run Historical api_key start_date end_date db)
      as [_ [E|(m & d & s & rest & df & Hm & Hd & Hs & E)]]; [left; exact E|].
    right. exists m, d, s, rest. repeat split; try assumption.
    eapply footprint_writes_only_under; [apply (symbol_of_ingested s df)|].
    right. exact E.
Qed.

(** Against C10 as stated: the caller of [scripts/ingest_data.py] gives an
    API key and two dates, the script names no symbol, and the run writes
    under NQ, the first symbol the provider listed. *)
Lemma writes_under_given_symbol_refuted :
  ~ writes_under_given_symbol ["key"; "2024-01-01"; "2024-01-31"] no_table
      (ScriptsIngestData.fetch_and_load_data (replying [es_4700]) "key"
         "2024-01-01" "2024-01-31" no_table).
Proof.
  intros (s & Hin & H).
  destruct (H (ingested_row "NQ" es_4700)) as [[]|Hs]; [left; reflexivity|].
  simpl in Hs. subst s. simpl in Hin.
  destruct Hin as [E|[E|[E|[]]]]; discriminate E.
Qed.


(** ** The schema bootstrapper *)

(** X1.  [ensure_schema_exists] on a fresh connection never raises,
    creates the table when it is missing, leaves every stored row as it
    is, and commits; called again on the same connection it changes
    nothing. *)
Theorem ensure_schema_exists_idempotent :
  forall (db : database) (lg : list Logging.record),
    let c := {| server := {| TimeZone := TimeZone db; ohlcv_1d := Some (table_rows db) |};
                work := Some (table_rows db);
                aborted := false |} in
    IngestData.ensure_schema_exists (connect db, lg) = (inr tt, (c, lg)) /\
    FetchData.ensure_schema_exists (connect db, lg) = (inr tt, (c, lg)) /\
    IngestData.ensure_schema_exists (c, lg) = (inr tt, (c, lg)) /\
    FetchData.ensure_schema_exists (c, lg) = (inr tt, (c, lg)).
Proof.
  intros db lg c. split; [|split; [|split]].
  - apply ensure_schema_exists_run.
  - apply fetch_data_ensure_schema_exists_run.
  - apply (ensure_schema_exists_run (bootstrapped db)).
  - apply (fetch_data_ensure_schema_exists_run (bootstrapped db)).
Qed.

(** ** When the provider is down *)

Lemma attempt_down (client : Databento.client) (start_date end_date dataset : string)
      (db : database) :
  down client ->
  exists lg, ScriptsIngestData.attempt client start_date end_date dataset db = (false, db, lg).
Proof.
  intros [Hd _]. unfold ScriptsIngestData.attempt.
  destruct (Databento.list_symbols client dataset) as [e|[|s rest]];
    try (eexists; reflexivity).
  match goal with
  | |- context [Databento.get_range client ?req] => destruct (Hd req) as [e ->]
  end.
  eexists. reflexivity.
Qed.

Lemma scan_down (client : Databento.client) (start_date end_date : string)
      (metadata : list string) :
  down client ->
  forall db lg,
    fst (ScriptsIngestData.scan client start_date end_date metadata db lg) = db.
Proof.
  intros Hd. induction metadata as [|dataset metadata IH]; intros db lg; simpl; [reflexivity|].
  destruct (attempt_down client start_date end_date dataset db Hd) as [lg' ->]. apply IH.
Qed.

(** X2.  When every data call of the provider raises, no entry point
    changes a stored row: [fetch_data.py] has created the table by then,
    logs the failure and ends the process with status 1; the two
    [ingest_data.py] return [None] and leave the server exactly as it
    was. *)
Theorem provider_down_changes_nothing :
  forall (Historical : string -> Databento.client)
         (api_key symbol start_date end_date : string) (db : database),
    down (Historical api_key) ->
    (result (FetchData.fetch_and_load_data Historical api_key symbol start_date end_date db)
     = Py.SystemExit 1 /\
     store (FetchData.fetch_and_load_data Historical api_key symbol start_date end_date db)
     = {| TimeZone := TimeZone db; ohlcv_1d := Some (table_rows db) |}) /\
    (result (IngestData.fetch_and_load_data Historical api_key db) = Py.Returned Py.None_ /\
     store (IngestData.fetch_and_load_data Historical api_key db) = db) /\
    (result (ScriptsIngestData.fetch_and_load_data Historical api_key start_date end_date db)
     = Py.Returned Py.None_ /\
     store (ScriptsIngestData.fetch_and_load_data Historical api_key start_date end_date db)
     = db).
Proof.
  intros Historical api_key symbol start_date end_date db Hd.
  pose proof Hd as [Hr Hh]. split; [|split].
  - unfold FetchData.fetch_and_load_data.
    destruct (Hh (FetchData.request symbol start_date end_date)) as [e ->].
    rewrite fetch_data_failed. split; reflexivity.
  - unfold IngestData.fetch_and_load_data.
    destruct (Hr IngestData.request) as [e ->]. split; reflexivity.
  - split; [apply scripts_ingest_data_run|].
    unfold ScriptsIngestData.fetch_and_load_data.
    destruct (Databento.list_datasets (Historical api_key)) as [e|metadata]; [reflexivity|].
    pose proof (scan_down (Historical api_key) start_date end_date metadata Hd db []) as H.
    destruct (ScriptsIngestData.scan (Historical api_key) start_date end_date metadata db [])
      as [db' lg]. exact H.
Qed.

Lemma provider_down_changes_nothing_witness :
  store (FetchData.fetch_and_load_data (failing "503") "key" "ES" "2023-01-01" "2024-01-09"
           no_table) = {| TimeZone := 0; ohlcv_1d := Some [] |} /\
  store (ScriptsIngestData.fetch_and_load_data (failing "503") "key" "2024-01-01" "2024-01-31"
           no_table) = no_table.
Proof.
  destruct (provider_down_changes_nothing (failing "503") "key" "ES" "2023-01-01" "2024-01-09"
              no_table) as ((_ & H1) & _ & (_ & H3)).
  - split; intros req; eexists; reflexivity.
  - split; [exact H1|].
    destruct (provider_down_changes_nothing (failing "503") "key" "ES" "2024-01-01"
                "2024-01-31" no_table) as (_ & _ & (_ & H)).
    + split; intros req; eexists; reflexivity.
    + exact H.
Defined.

(** ** Rows of other symbols *)

Lemma other_symbol_not_in_keys (s : string) (rows : list Row) (r : Row) :
  Forall (fun x => symbol x = s) rows -> symbol r <> s -> ~ In (key_of r) (keys rows).
Proof.
  intros Hs Hne Hin. unfold keys in Hin. apply in_map_iff in Hin.
  destruct Hin as (x & E & Hx). rewrite Forall_forall in Hs. specialize (Hs x Hx).
  unfold key_of in E. injection E as _ E. congruence.
Qed.

Lemma footprint_keeps_other_symbols (s : string) (before after : database)
      (rows : list Row) (r : Row) :
  Forall (fun x => symbol x = s) rows -> footprint before after rows ->
  In r (table_rows before) -> symbol r <> s -> In r (table_rows after).
Proof.
  intros Hs [E|E] Hin Hne; rewrite E; [exact Hin|].
  apply In_upsert_all_kept; [exact Hin|]. eapply other_symbol_not_in_keys; eassumption.
Qed.

(** X3.  A run never touches the rows of another symbol: every row stored
    under a symbol other than the [symbol] argument is still there,
    unchanged, after [fetch_data.py]; every row not under ["ES"] after
    [trade_ngin/scripts/ingest_data.py]; and after [scripts/ingest_data.py]
    every row whose symbol is not the first of a listing of the provider. *)
Theorem other_symbols_untouched :
  forall (Historical : string -> Databento.client)
         (api_key symbol start_date end_date : string) (db : database) (r : Row),
    In r (table_rows db) ->
    (Postgres.symbol r <> symbol ->
     In r (table_rows (store (FetchData.fetch_and_load_data
                                Historical api_key symbol start_date end_date db)))) /\
    (Postgres.symbol r <> "ES" ->
     In r (table_rows (store (IngestData.fetch_and_load_data Historical api_key db)))) /\
    (~ listed_first (Historical api_key) (Postgres.symbol r) ->
     In r (table_rows (store (ScriptsIngestData.fetch_and_load_data
                                Historical api_key start_date end_date db)))).
Proof.
  intros Historical api_key symbol start_date end_date db r Hin. split; [|split].
  - intros Hne. eapply footprint_keeps_other_symbols;
      [apply symbol_of_fetched | apply fetch_data_footprint | exact Hin | exact Hne].
  - intros Hne. eapply footprint_keeps_other_symbols;
      [apply symbol_of_ingested | apply ingest_data_footprint | exact Hin | exact Hne].
  - intros Hnl.
    destruct (scripts_ingest_data_run Historical api_key start_date end_date db)
      as [_ [E|(m & d & s & rest & df & _ & _ & Hs & E)]]; rewrite E; [exact Hin|].
    apply In_upsert_all_kept; [exact Hin|].
    eapply other_symbol_not_in_keys; [apply (symbol_of_ingested s df)|].
    intros Heq. apply Hnl. exists d, rest. rewrite Heq. exact Hs.
Qed.

Lemma other_symbols_untouched_witness :
  In (ingested_row "CL" es_4700)
     (table_rows (store (FetchData.fetch_and_load_data (replying [es_4705]) "key" "ES"
                           "2023-01-01" "2024-01-09"
                           {| TimeZone := 0; ohlcv_1d := Some [ingested_row "CL" es_4700] |}))).
Proof.
  destruct (other_symbols_untouched (replying [es_4705]) "key" "ES" "2023-01-01" "2024-01-09"
              {| TimeZone := 0; ohlcv_1d := Some [ingested_row "CL" es_4700] |}
              (ingested_row "CL" es_4700)) as (H & _).
  - left. reflexivity.
  - apply H. discriminate.
Defined.

(** ** Nothing is deleted *)

Lemma in_keys_upsert_all (k : key) (rows t : list Row) :
  In k (keys t) -> In k (keys (upsert_all rows t)).
Proof.
  revert t. induction rows as [|r rows IH]; simpl; intros t H; [exact H|].
  apply IH, in_keys_upsert. right. exact H.
Qed.

Lemma preserves_key_ret (k : key) {A} (a : A) : preserves_key k (Session.ret a).
Proof. intros st H. exact H. Qed.

Lemma preserves_key_logging (k : key) (l : Logging.level) (m : Logging.message) :
  preserves_key k (Session.logging l m).
Proof. intros [c lg] H. exact H. Qed.

Lemma preserves_key_bind (k : key) {A B} (m : Session.session A)
      (f : A -> Session.session B) :
  preserves_key k m -> (forall a, preserves_key k (f a)) ->
  preserves_key k (Session.bind m f).
Proof.
  intros Hm Hf st H. unfold Session.bind. specialize (Hm st H).
  destruct (m st) as [[e|a] st']; [exact Hm|]. apply Hf, Hm.
Qed.

Lemma preserves_key_try_except (k : key) {A} (body : Session.session A)
      (handler : Py.exn -> Session.session A) :
  preserves_key k body -> (forall e, preserves_key k (handler e)) ->
  preserves_key k (Session.try_except body handler).
Proof.
  intros Hb Hh st H. unfold Session.try_except. specialize (Hb st H).
  destruct (body st) as [[e|a] st']; [apply Hh, Hb|exact Hb].
Qed.

Lemma preserves_key_conn_commit (k : key) : preserves_key k Session.conn_commit.
Proof.
  intros [c lg] [Hs Hw]. unfold Session.conn_commit, key_stored, commit, rollback.
  cbn [fst snd] in *. destruct (aborted c); cbn [server work].
  - split; exact Hs.
  - split; exact Hw.
Qed.

Lemma preserves_key_cur_execute (k : key) (stmt : statement) :
  preserves_key k (Session.cur_execute stmt).
Proof.
  intros [c lg] [Hs Hw]. unfold Session.cur_execute, key_stored, execute, fail.
  cbn [fst snd] in *. destruct (aborted c); [split; assumption|].
  unfold work_rows in *.
  destruct stmt as [| |rows]; cbn [fst snd server work].
  - split; assumption.
  - split; [exact Hs|]. destruct (work c); [exact Hw|destruct Hw].
  - destruct (work c) as [t|]; cbn [fst snd server work]; [|destruct Hw].
    rewrite insert_rows_spec.
    destruct (statement_error (TimeZone (server c)) [] rows); cbn [fst snd server work].
    + split; assumption.
    + split; [exact Hs|]. apply in_keys_upsert_all, Hw.
Qed.

Ltac preserves_key :=
  repeat first
    [ apply preserves_key_bind; [|intros ?]
    | apply preserves_key_try_except; [|intros ?]
    | apply preserves_key_ret
    | apply preserves_key_logging
    | apply preserves_key_conn_commit
    | apply preserves_key_cur_execute ].

Lemma preserves_key_execute_values (k : key) (records : list record) :
  preserves_key k (Extras.execute_values records).
Proof.
  unfold Extras.execute_values.
  induction (Extras.paginate records 100) as [|page pages IH]; simpl.
  - preserves_key.
  - apply preserves_key_bind; [preserves_key|intros _; exact IH].
Qed.

Lemma preserves_key_load_symbols (k : key) (generate : string -> Z -> list record)
      (items : list (string * Z)) :
  forall total, preserves_key k (GenerateSyntheticData.load_symbols generate items total).
Proof.
  induction items as [|[symbol base_price] items IH]; intros total; simpl; [preserves_key|].
  apply preserves_key_bind; [|intros n; apply IH].
  apply preserves_key_try_except; [|intros e; preserves_key].
  unfold GenerateSyntheticData.insert_batch.
  apply preserves_key_bind; [|intros _; preserves_key].
  apply preserves_key_bind; [apply preserves_key_execute_values|intros _; preserves_key].
Qed.

Lemma key_stored_connect (k : key) (db : database) :
  In k (keys (table_rows db)) -> key_stored k (connect db).
Proof. intros H. split; exact H. Qed.

Lemma generate_simple_data_keeps_key (k : key) (records : list record) (db : database) :
  In k (keys (table_rows db)) ->
  In k (keys (table_rows (store (GenerateSimpleData.load_synthetic_data records db)))).
Proof.
  intros H. unfold GenerateSimpleData.load_synthetic_data.
  match goal with
  | |- context [Session.try_except ?body ?handler ?st] =>
      assert (P : preserves_key k (Session.try_except body handler));
      [|specialize (P st (key_stored_connect k db H));
        destruct (Session.try_except body handler st) as [r [conn lg]]; exact (proj1 P)]
  end.
  apply preserves_key_try_except; [|intros e; preserves_key].
  unfold GenerateSimpleData.ensure_schema_exists.
  apply preserves_key_bind; [preserves_key|intros _].
  apply preserves_key_bind; [apply preserves_key_execute_values|intros _; preserves_key].
Qed.

Lemma generate_synthetic_data_keeps_key (k : key) (generate : string -> Z -> list record)
      (db : database) :
  In k (keys (table_rows db)) ->
  In k (keys (table_rows (store (GenerateSyntheticData.load_synthetic_data generate db)))).
Proof.
  intros H. unfold GenerateSyntheticData.load_synthetic_data.
  match goal with
  | |- context [Session.try_except ?body ?handler ?st] =>
      assert (P : preserves_key k (Session.try_except body handler));
      [|specialize (P st (key_stored_connect k db H));
        destruct (Session.try_except body handler st) as [r [conn lg]]; exact (proj1 P)]
  end.
  apply preserves_key_try_except; [|intros e; preserves_key].
  unfold GenerateSyntheticData.ensure_schema_exists.
  apply preserves_key_bind; [preserves_key|intros _].
  apply preserves_key_bind; [apply preserves_key_load_symbols|intros total; preserves_key].
Qed.

Lemma footprint_keeps_key (k : key) (before after : database) (rows : list Row) :
  footprint before after rows ->
  In k (keys (table_rows before)) -> In k (keys (table_rows after)).
Proof. intros [E|E] H; rewrite E; [exact H|apply in_keys_upsert_all, H]. Qed.

Lemma invoke_keeps_key (k : key) (i : invocation) (db : database) :
  In k (keys (table_rows db)) -> In k (keys (table_rows (store (invoke i db)))).
Proof.
  intros H. destruct i as [Hi a s b c|Hi a|Hi a b c|records|generate]; simpl.
  - eapply footprint_keeps_key; [apply fetch_data_footprint|exact H].
  - eapply footprint_keeps_key; [apply ingest_data_footprint|exact H].
  - destruct (scripts_ingest_data_run Hi a b c db)
      as [_ [E|(m & d & s & rest & df & _ & _ & _ & E)]];
      rewrite E; [exact H|apply in_keys_upsert_all, H].
  - apply generate_simple_data_keeps_key, H.
  - apply generate_synthetic_data_keeps_key, H.
Qed.

(** X4.  No script ever deletes a row: a [(time, symbol)] that is stored
    is still stored after any sequence of runs of the three ingestion
    entry points and the two generators, whatever the providers return and
    whatever fails on the way. *)
Theorem stored_keys_stay :
  forall (runs : list invocation) (db : database) (k : key),
    In k (keys (table_rows db)) -> In k (keys (table_rows (invoke_all runs db))).
Proof.
  induction runs as [|i runs IH]; intros db k H; [exact H|].
  simpl. apply IH, invoke_keeps_key, H.
Qed.

Lemma stored_keys_stay_witness :
  In (jan02, "CL")
     (keys (table_rows
              (invoke_all
                 [fetch_data (replying [es_4705]) "key" "ES" "2023-01-01" "2024-01-09";
                  trade_ngin_ingest_data (failing "503") "key";
                  generate_simple_data [FetchData.values "CL" es_jan03_too_big]]
                 {| TimeZone := 0; ohlcv_1d := Some [ingested_row "CL" es_4700] |}))).
Proof.
  apply stored_keys_stay. left. reflexivity.
Defined.

(** ** The count [fetch_data.py] reports *)

Lemma insert_loop_aborted_log (s : string) (rows : list Databento.row) :
  forall n c lg, aborted c = true ->
    exists lf,
      FetchData.insert_loop s rows n (c, lg) = (inr n, (c, lg ++ lf)) /\
      Forall (fun entry => exists row e, snd entry = Logging.RowFailed row e) lf.
Proof.
  induction rows as [|row rows IH]; intros n c lg Hc; simpl.
  - exists []. rewrite app_nil_r. split; [reflexivity|constructor].
  - session_step. unfold execute. rewrite Hc. cbn [fst snd].
    destruct (IH n c (lg ++ [(Logging.ERROR,
                              Logging.RowFailed row (Py.str Py.InFailedSqlTransaction))]) Hc)
      as (lf & -> & Hr).
    eexists. rewrite <- app_assoc. split; [reflexivity|].
    constructor; [eexists _, _; reflexivity|exact Hr].
Qed.

Lemma insert_loop_count (s : string) (db : database) (rows : list Databento.row) :
  forall t n lg,
    exists c' lf,
      FetchData.insert_loop s rows n
        ({| server := db; work := Some t; aborted := false |}, lg) =
      (inr (n + fitting_prefix rows)%nat, (c', lg ++ lf)) /\
      Forall (fun entry => exists row e, snd entry = Logging.RowFailed row e) lf.
Proof.
  induction rows as [|row rows IH]; intros t n lg.
  - exists {| server := db; work := Some t; aborted := false |}, [].
    simpl. unfold Session.ret. rewrite Nat.add_0_r, app_nil_r. split; [reflexivity|constructor].
  - cbn [FetchData.insert_loop fitting_prefix]. session_step.
    rewrite execute_insert, statement_error_single.
    change (rec_volume (FetchData.values s row)) with (Databento.volume row).
    destruct (int4 (Databento.volume row)); cbn [fst snd].
    + destruct (IH (upsert_all (map (row_of (TimeZone db)) [FetchData.values s row]) t)
                   (S n) lg) as (c' & lf & -> & Hr).
      exists c', lf. rewrite Nat.add_succ_r. split; [reflexivity|exact Hr].
    + destruct (insert_loop_aborted_log s rows n
                  {| server := db; work := Some t; aborted := true |}
                  (lg ++ [(Logging.ERROR,
                           Logging.RowFailed row (Py.str Py.NumericValueOutOfRange))])
                  eq_refl) as (lf & -> & Hr).
      eexists _, _. rewrite <- app_assoc, Nat.add_0_r. split; [reflexivity|].
      constructor; [eexists _, _; reflexivity|exact Hr].
Qed.

Lemma rows_reported_after (lf rest : list Logging.record) :
  Forall (fun entry => exists row e, snd entry = Logging.RowFailed row e) lf ->
  rows_reported (lf ++ rest) = rows_reported rest.
Proof.
  induction 1 as [|[l m] lf (row & e & Hm) Hf IH]; [reflexivity|].
  simpl in *. subst m. exact IH.
Qed.

Lemma fitting_prefix_short (rows : list Databento.row) :
  ~ Forall fits rows -> (fitting_prefix rows < List.length rows)%nat.
Proof.
  induction rows as [|row rows IH]; intros Hn; [exfalso; apply Hn; constructor|].
  simpl. destruct (int4 (Databento.volume row)) eqn:Hv; [|lia].
  apply -> Nat.succ_lt_mono. apply IH. intros Hf. apply Hn. constructor; assumption.
Qed.

(** X5.  When the table refuses a row of the frame, [fetch_data.py] still
    returns normally and logs a count, but the count is only that of the
    rows ahead of the first refused one, and nothing of the frame is
    stored: the stored rows are those from before the run. *)
Theorem fetch_data_count_after_refusal :
  forall (s : string) (B : Databento.DataFrame) (db : database),
    ~ Forall fits B ->
    result (FetchData.with_reply (inr (Some B)) s db) = Py.Returned Py.None_ /\
    table_rows (store (FetchData.with_reply (inr (Some B)) s db)) = table_rows db /\
    rows_reported (log (FetchData.with_reply (inr (Some B)) s db)) = fitting_prefix B /\
    (fitting_prefix B < List.length B)%nat.
Proof.
  intros s B db Hnf.
  assert (Hne : B <> []) by (intros ->; apply Hnf; constructor).
  destruct (fetch_data_run s B db Hne) as [[Hf _]|[_ (lg & E & _)]]; [contradiction|].
  split; [rewrite E; reflexivity|]. split; [rewrite E; reflexivity|].
  split; [|apply fitting_prefix_short, Hnf].
  clear E lg. destruct B as [|row B]; [congruence|].
  unfold FetchData.with_reply, FetchData.get_db_connection, FetchData.load.
  session_step. rewrite fetch_data_ensure_schema_exists_run.
  cbn [FetchData.is_none_or_empty FetchData.frame_rows fst snd].
  change (connect (bootstrapped db))
    with {| server := bootstrapped db; work := Some (table_rows db); aborted := false |}.
  destruct (insert_loop_count s (bootstrapped db) (row :: B) (table_rows db) O [])
    as (c' & lf & -> & Hlf).
  cbn [fst snd log]. rewrite <- !app_assoc. cbn [app].
  rewrite rows_reported_after by exact Hlf. reflexivity.
Qed.

Lemma fetch_data_count_after_refusal_witness :
  rows_reported
    (log (FetchData.with_reply (inr (Some [es_4700; es_jan03_too_big; es_jan03])) "ES" no_table))
  = 1%nat /\
  table_rows
    (store (FetchData.with_reply (inr (Some [es_4700; es_jan03_too_big; es_jan03])) "ES" no_table))
  = [].
Proof.
  destruct (fetch_data_count_after_refusal "ES" [es_4700; es_jan03_too_big; es_jan03] no_table)
    as (_ & H1 & H2 & _).
  - intros Hf. inversion Hf as [|? ? _ Hf']; subst.
    inversion Hf' as [|? ? Hbig _]; subst. vm_compute in Hbig. discriminate.
  - split; [exact H2|exact H1].
Defined.

(** ** Rows of one key in a frame *)

Lemma latest_none (k : key) (rows : list Row) :
  latest k rows = None -> ~ In k (keys rows).
Proof.
  induction rows as [|r rows IH]; simpl; [tauto|].
  destruct (latest k rows); [discriminate|].
  destruct (has_key k r) eqn:E; [discriminate|]. apply has_key_false in E.
  intros _ [H|H]; [contradiction|]. apply IH; [reflexivity|exact H].
Qed.

Lemma latest_key (k : key) (rows : list Row) (r : Row) :
  latest k rows = Some r -> key_of r = k /\ In r rows.
Proof.
  induction rows as [|r0 rows IH]; simpl; [discriminate|].
  destruct (latest k rows) as [r'|].
  - intros H. injection H as ->. destruct (IH eq_refl). auto.
  - destruct (has_key k r0) eqn:E; [|discriminate].
    intros H. injection H as ->. apply has_key_true in E. auto.
Qed.

Lemma rows_with_upsert_all_latest (k : key) (rows : list Row) (r : Row) :
  forall t, NoDup (keys t) -> latest k rows = Some r ->
            rows_with k (upsert_all rows t) = [r].
Proof.
  induction rows as [|r0 rows IH]; intros t Hnd H; [discriminate|].
  simpl in H. change (upsert_all (r0 :: rows) t) with (upsert_all rows (upsert r0 t)).
  destruct (latest k rows) as [r'|] eqn:El.
  - injection H as ->. apply IH; [apply NoDup_keys_upsert, Hnd|reflexivity].
  - destruct (has_key k r0) eqn:E; [|discriminate]. injection H as ->.
    apply has_key_true in E. subst k.
    rewrite rows_with_upsert_all_other by (apply latest_none, El).
    apply rows_with_upsert_self, Hnd.
Qed.

(** X6.  Within a frame [fetch_data.py] lets the last row of a key win:
    when several rows of the frame fall on one [(time, symbol)], the table
    ends with exactly one row under it, the one the last of them gave. *)
Theorem fetch_data_last_row_wins :
  forall (s : string) (B : Databento.DataFrame) (db : database) (k : key) (r : Row),
    key_unique db ->
    Forall fits B ->
    latest k (map (fetched_row (TimeZone db) s) B) = Some r ->
    rows_with k (table_rows (store (FetchData.with_reply (inr (Some B)) s db))) = [r].
Proof.
  intros s B db k r Hu Hf Hl.
  assert (Hne : B <> []) by (intros ->; discriminate Hl).
  destruct (fetch_data_run s B db Hne) as [[_ ->]|[Hnf _]]; [|contradiction].
  cbn [store]. rewrite table_rows_updated.
  apply rows_with_upsert_all_latest; assumption.
Qed.

Lemma fetch_data_last_row_wins_witness :
  rows_with (jan02, "ES")
    (table_rows (store (FetchData.with_reply (inr (Some [es_4700; es_jan03; es_4705])) "ES"
                          no_table)))
  = [ingested_row "ES" es_4705].
Proof.
  apply (fetch_data_last_row_wins "ES" [es_4700; es_jan03; es_4705] no_table).
  - constructor.
  - repeat constructor.
  - reflexivity.
Defined.

(** ** The order of a frame *)

Lemma rows_with_upsert_all_cases (k : key) (rows t : list Row) :
  NoDup (keys t) -> NoDup (keys rows) ->
  (exists r, In r rows /\ key_of r = k /\ rows_with k (upsert_all rows t) = [r]) \/
  (~ In k (keys rows) /\ rows_with k (upsert_all rows t) = rows_with k t).
Proof.
  intros Ht Hr. destruct (in_dec key_eq_dec k (keys rows)) as [Hin|Hnin].
  - left. unfold keys in Hin. apply in_map_iff in Hin. destruct Hin as (r & E & Hin).
    exists r. split; [exact Hin|]. split; [exact E|]. subst k.
    apply rows_with_upsert_all_written; assumption.
  - right. split; [exact Hnin|]. apply rows_with_upsert_all_other, Hnin.
Qed.

Lemma NoDup_keys_unique_row (rows : list Row) (r1 r2 : Row) :
  NoDup (keys rows) -> In r1 rows -> In r2 rows -> key_of r1 = key_of r2 -> r1 = r2.
Proof.
  induction rows as [|x rows IH]; simpl; intros Hnd H1 H2 E; [contradiction|].
  inversion Hnd as [|? ? Hx Hnd']; subst.
  destruct H1 as [->|H1], H2 as [->|H2]; auto.
  - exfalso. apply Hx. rewrite E. apply in_map, H2.
  - exfalso. apply Hx. rewrite <- E. apply in_map, H1.
Qed.

(** X7.  The order of the rows of a frame does not matter to what
    [trade_ngin/scripts/ingest_data.py] stores: two frames with the same
    rows, naive and pairwise distinct timestamps and volumes the column
    takes leave, under every key, the same row. *)
Theorem ingest_data_order_irrelevant :
  forall (B B' : Databento.DataFrame) (db : database) (k : key),
    key_unique db ->
    Forall fits B -> Forall naive B -> NoDup (walls B) -> NoDup (walls B') ->
    (forall row, In row B <-> In row B') ->
    rows_with k (table_rows (store (IngestData.with_reply (inr B) db))) =
    rows_with k (table_rows (store (IngestData.with_reply (inr B') db))).
Proof.
  intros B B' db k Hu Hf Hn Hnd Hnd' Hiff.
  assert (Hf' : Forall fits B')
    by (rewrite Forall_forall in *; intros row Hin; apply Hf, Hiff, Hin).
  assert (Hn' : Forall naive B')
    by (rewrite Forall_forall in *; intros row Hin; apply Hn, Hiff, Hin).
  assert (S : forall D, Forall fits D -> Forall naive D -> NoDup (walls D) -> D <> [] ->
              table_rows (store (IngestData.with_reply (inr D) db)) =
              upsert_all (map (ingested_row "ES") D) (table_rows db)).
  { intros D HfD HnD HndD HneD.
    destruct (ingest_data_run D db HneD) as (_ & _ & H).
    rewrite load_error_none in H by assumption. destruct H as [-> _]. reflexivity. }
  destruct B as [|row B].
  - destruct B' as [|row' B']; [reflexivity|].
    exfalso. apply (proj2 (Hiff row')). left. reflexivity.
  - assert (HneB' : B' <> []).
    { intros ->. apply (proj1 (Hiff row)). left. reflexivity. }
    rewrite (S (row :: B)), (S B') by (assumption || discriminate).
    pose proof (NoDup_keys_ingested "ES" _ Hnd) as K.
    pose proof (NoDup_keys_ingested "ES" _ Hnd') as K'.
    destruct (rows_with_upsert_all_cases k _ _ Hu K) as [(r & Hin & Hk & ->)|(Hnin & ->)];
      destruct (rows_with_upsert_all_cases k _ _ Hu K') as [(r' & Hin' & Hk' & ->)|(Hnin' & ->)].
    + f_equal. apply (NoDup_keys_unique_row _ r r' K); [exact Hin| |congruence].
      apply in_map_iff in Hin'. destruct Hin' as (x & <- & Hx).
      apply in_map, Hiff, Hx.
    + exfalso. apply Hnin'. subst k.
      apply in_map_iff in Hin. destruct Hin as (x & <- & Hx).
      apply in_map, in_map, Hiff, Hx.
    + exfalso. apply Hnin. subst k.
      apply in_map_iff in Hin'. destruct Hin' as (x & <- & Hx).
      apply in_map, in_map, Hiff, Hx.
    + reflexivity.
Qed.

Lemma ingest_data_order_irrelevant_witness :
  rows_with (jan02, "ES")
    (table_rows (store (IngestData.with_reply (inr [es_4700; es_jan03]) no_table))) =
  rows_with (jan02, "ES")
    (table_rows (store (IngestData.with_reply (inr [es_jan03; es_4700]) no_table))).
Proof.
  apply ingest_data_order_irrelevant.
  - constructor.
  - repeat constructor.
  - repeat constructor.
  - vm_compute. repeat constructor; simpl; intuition discriminate.
  - vm_compute. repeat constructor; simpl; intuition discriminate.
  - intros row. simpl. tauto.
Defined.

(** ** Runs one after the other *)

Lemma fetch_data_accepted (s : string) (B : Databento.DataFrame) (db : database) :
  Forall fits B ->
  table_rows (store (FetchData.with_reply (inr (Some B)) s db)) =
  upsert_all (map (fetched_row (TimeZone db) s) B) (table_rows db) /\
  TimeZone (store (FetchData.with_reply (inr (Some B)) s db)) = TimeZone db /\
  ohlcv_1d (store (FetchData.with_reply (inr (Some B)) s db)) <> None.
Proof.
  intros Hf. destruct B as [|row B].
  - rewrite fetch_data_no_data by reflexivity. repeat split. discriminate.
  - assert (Hne : row :: B <> []) by discriminate.
    destruct (fetch_data_run s (row :: B) db Hne) as [[_ ->]|[Hnf _]]; [|contradiction].
    repeat split. discriminate.
Qed.

Lemma database_eq (db1 db2 : database) :
  TimeZone db1 = TimeZone db2 -> ohlcv_1d db1 <> None -> ohlcv_1d db2 <> None ->
  table_rows db1 = table_rows db2 -> db1 = db2.
Proof.
  destruct db1 as [tz1 [t1|]], db2 as [tz2 [t2|]]; unfold table_rows; simpl;
    intros -> H1 H2 E; try congruence.
Qed.

(** X8.  Two runs of [fetch_data.py] one after the other leave the store
    as a single run on the two frames put end to end, as long as the table
    takes every volume: a window can be fetched in pieces, overlapping or
    not. *)
Theorem fetch_data_runs_compose :
  forall (s : string) (B1 B2 : Databento.DataFrame) (db : database),
    Forall fits B1 -> Forall fits B2 ->
    store (FetchData.with_reply (inr (Some B2)) s
             (store (FetchData.with_reply (inr (Some B1)) s db))) =
    store (FetchData.with_reply (inr (Some (B1 ++ B2))) s db).
Proof.
  intros s B1 B2 db H1 H2.
  destruct (fetch_data_accepted s B1 db H1) as (R1 & T1 & N1).
  destruct (fetch_data_accepted s B2 (store (FetchData.with_reply (inr (Some B1)) s db)) H2)
    as (R2 & T2 & N2).
  destruct (fetch_data_accepted s (B1 ++ B2) db (proj2 (Forall_app _ _ _) (conj H1 H2)))
    as (R & T & N).
  apply database_eq; [congruence|exact N2|exact N|].
  rewrite R2, R, R1, T1, map_app, upsert_all_app. reflexivity.
Qed.

Lemma fetch_data_runs_compose_witness :
  store (FetchData.with_reply (inr (Some [es_jan03; es_4705])) "ES"
           (store (FetchData.with_reply (inr (Some [es_4700])) "ES" no_table))) =
  store (FetchData.with_reply (inr (Some [es_4700; es_jan03; es_4705])) "ES" no_table).
Proof.
  apply (fetch_data_runs_compose "ES" [es_4700] [es_jan03; es_4705] no_table);
    repeat constructor.
Defined.

(** ** Timestamps that repeat in a frame *)

Lemma paginate_from_fits {A} (page_size : nat) (seq : list A) :
  forall page room,
    (List.length seq <= room)%nat -> page ++ seq <> [] ->
    Extras.paginate_from page_size page room seq = [page ++ seq].
Proof.
  induction seq as [|x seq IH]; intros page room Hl Hne; simpl.
  - rewrite app_nil_r in *. destruct page; [congruence|reflexivity].
  - destruct room as [|room]; [simpl in Hl; lia|].
    rewrite IH; [rewrite <- app_assoc; reflexivity|simpl in Hl; lia|].
    destruct page; discriminate.
Qed.

Lemma NoDup_map_back {A B} (f : A -> B) (l : list A) : NoDup (map f l) -> NoDup l.
Proof.
  induction l as [|x l IH]; simpl; intros H; [constructor|].
  inversion H as [|y l' Hx Hnd]; subst. constructor; [|apply IH; assumption].
  intros Hin. apply Hx. apply in_map, Hin.
Qed.

(** X9.  A frame of at most a hundred rows in which a timestamp repeats
    is lost whole by [trade_ngin/scripts/ingest_data.py]: its rows all get
    the key of their timestamp under ["ES"], the one [INSERT] that
    [execute_values] sends raises, and the run returns having stored and
    reported nothing. *)
Theorem ingest_data_repeated_timestamp :
  forall (B : Databento.DataFrame) (db : database),
    Forall naive B -> (List.length B <= 100)%nat -> ~ NoDup (walls B) ->
    result (IngestData.with_reply (inr B) db) = Py.Returned Py.None_ /\
    table_rows (store (IngestData.with_reply (inr B) db)) = table_rows db /\
    rows_reported (log (IngestData.with_reply (inr B) db)) = O.
Proof.
  intros B db Hn Hl Hd.
  assert (Hne : B <> []) by (intros ->; apply Hd; constructor).
  destruct (ingest_data_run B db Hne) as (Hr & _ & H). split; [exact Hr|].
  destruct (load_error (TimeZone db) "ES" B) as [e|] eqn:He.
  - destruct H as [-> ->]. split; reflexivity.
  - exfalso. apply Hd. unfold load_error in He.
    destruct (prepare_records_naive "ES" B Hn) as (records & Hp & Hlen & Hrows & _).
    rewrite Hp in He. unfold Extras.paginate in He.
    rewrite paginate_from_fits in He;
      [|rewrite Hlen; exact Hl
       |simpl; intros ->; destruct B; [congruence|discriminate Hlen]].
    simpl in He. destruct (statement_error (TimeZone db) [] records) eqn:Hs; [discriminate|].
    apply statement_error_none in Hs. destruct Hs as (_ & Hk & _).
    rewrite Hrows, keys_ingested in Hk. apply NoDup_map_back in Hk. exact Hk.
Qed.

Lemma ingest_data_repeated_timestamp_witness :
  table_rows (store (IngestData.with_reply (inr [es_4700; es_jan03; es_4705]) no_table)) = [] /\
  rows_reported (log (IngestData.with_reply (inr [es_4700; es_jan03; es_4705]) no_table)) = O.
Proof.
  destruct (ingest_data_repeated_timestamp [es_4700; es_jan03; es_4705] no_table)
    as (_ & H1 & H2).
  - repeat constructor.
  - simpl. lia.
  - intros H. vm_compute in H. inversion H as [|? ? Hin _]; subst. apply Hin.
    right. left. reflexivity.
  - split; assumption.
Defined.

(** ** The two entry points on a UTC server *)

Lemma fetched_row_utc (s : string) (row : Databento.row) :
  naive row -> fetched_row 0 s row = ingested_row s row.
Proof.
  intros Hn. unfold fetched_row, row_of, ingested_row, timestamptz, FetchData.values, naive in *.
  simpl. rewrite Hn. f_equal. lia.
Qed.

(** X10.  On a server whose [TimeZone] is UTC, [fetch_data.py] called for
    ["ES"] and [trade_ngin/scripts/ingest_data.py] store the same: for a
    frame of naive, pairwise distinct timestamps and volumes the column
    takes, the two runs leave the same store and report the same count. *)
Theorem entry_points_agree_on_utc :
  forall (B : Databento.DataFrame) (db : database),
    TimeZone db = 0 -> B <> [] ->
    Forall fits B -> Forall naive B -> NoDup (walls B) ->
    store (FetchData.with_reply (inr (Some B)) "ES" db) =
    store (IngestData.with_reply (inr B) db) /\
    rows_reported (log (FetchData.with_reply (inr (Some B)) "ES" db)) =
    rows_reported (log (IngestData.with_reply (inr B) db)).
Proof.
  intros B db Htz Hne Hf Hn Hnd.
  destruct (fetch_data_run "ES" B db Hne) as [[_ ->]|[Hnf _]]; [|contradiction].
  destruct (ingest_data_run B db Hne) as (_ & _ & H).
  rewrite load_error_none in H by assumption. destruct H as [-> ->].
  cbn [store log]. split; [|reflexivity].
  rewrite Htz. f_equal. apply map_ext_in. intros row Hin.
  apply fetched_row_utc. rewrite Forall_forall in Hn. apply Hn, Hin.
Qed.

Lemma entry_points_agree_on_utc_witness :
  store (FetchData.with_reply (inr (Some [es_4700; es_jan03])) "ES" no_table) =
  store (IngestData.with_reply (inr [es_4700; es_jan03]) no_table).
Proof.
  apply (entry_points_agree_on_utc [es_4700; es_jan03] no_table).
  - reflexivity.
  - discriminate.
  - repeat constructor.
  - repeat constructor.
  - vm_compute. repeat constructor; simpl; intuition discriminate.
Defined.

(** ** A window that is stored already *)

Lemma keys_upsert_all_known (rows t : list Row) :
  (forall r, In r rows -> In (key_of r) (keys t)) -> keys (upsert_all rows t) = keys t.
Proof.
  revert t. induction rows as [|r rows IH]; simpl; intros t H; [reflexivity|].
  rewrite IH.
  - apply upsert_in_keys, H. left. reflexivity.
  - intros r' Hin. rewrite upsert_in_keys by (apply H; left; reflexivity).
    apply H. right. exact Hin.
Qed.

(** X11.  Fetching again a window whose timestamps are all stored adds no
    row and drops none: after [fetch_data.py] the table holds a row under
    exactly the keys it held rows under, and as many rows as before. *)
Theorem fetch_data_known_window :
  forall (s : string) (B : Databento.DataFrame) (db : database),
    (forall row, In row B ->
                 In (key_of (fetched_row (TimeZone db) s row)) (keys (table_rows db))) ->
    (forall k,
        In k (keys (table_rows (store (FetchData.with_reply (inr (Some B)) s db)))) <->
        In k (keys (table_rows db))) /\
    List.length (table_rows (store (FetchData.with_reply (inr (Some B)) s db))) =
    List.length (table_rows db).
Proof.
  intros s B db Hk.
  assert (E : keys (table_rows (store (FetchData.with_reply (inr (Some B)) s db))) =
              keys (table_rows db)).
  { pose proof (fetch_data_footprint (inr (Some B)) s db) as [E|E]; rewrite E; [reflexivity|].
    apply keys_upsert_all_known. intros r Hin. simpl in Hin.
    apply in_map_iff in Hin. destruct Hin as (row & <- & Hrow). apply Hk, Hrow. }
  split.
  - intros k. rewrite E. tauto.
  - apply (f_equal (@List.length key)) in E. unfold keys in E.
    rewrite !length_map in E. exact E.
Qed.

Lemma fetch_data_known_window_witness :
  let db := {| TimeZone := 0;
               ohlcv_1d := Some [ingested_row "ES" es_jan03; ingested_row "ES" es_4700] |} in
  (forall k,
      In k (keys (table_rows (store (FetchData.with_reply (inr (Some [es_4705])) "ES" db)))) <->
      In k (keys (table_rows db))) /\
  List.length (table_rows (store (FetchData.with_reply (inr (Some [es_4705])) "ES" db))) =
  2%nat.
Proof.
  intros db. apply (fetch_data_known_window "ES" [es_4705] db).
  intros row [<-|[]]. right. left. reflexivity.
Defined.

(** ** The scan over the datasets *)

Lemma offers_nothing_attempt (client : Databento.client) (start_date end_date dataset : string)
      (db : database) :
  offers_nothing client start_date end_date dataset ->
  exists lg, ScriptsIngestData.attempt client start_date end_date dataset db = (false, db, lg).
Proof.
  unfold offers_nothing, ScriptsIngestData.attempt.
  destruct (Databento.list_symbols client dataset) as [e|[|s rest]];
    try (intros _; eexists; reflexivity).
  destruct (Databento.get_range client _) as [e|[|row df]];
    try (intros _; eexists; reflexivity).
  intros [].
Qed.

(** X12.  [scripts/ingest_data.py] loads the first dataset that has
    something to load and stops there: the datasets listed ahead of it
    that offer nothing are passed over without touching the server, and
    the ones listed after it are never looked at, so that the store is
    what the turn of that dataset left. *)
Theorem scan_stops_at_first_load :
  forall (Historical : string -> Databento.client) (api_key start_date end_date : string)
         (before after : list string) (dataset : string)
         (db db' : database) (lg' : list Logging.record),
    Databento.list_datasets (Historical api_key) = inr (before ++ dataset :: after) ->
    (forall d, In d before -> offers_nothing (Historical api_key) start_date end_date d) ->
    ScriptsIngestData.attempt (Historical api_key) start_date end_date dataset db
    = (true, db', lg') ->
    store (ScriptsIngestData.fetch_and_load_data Historical api_key start_date end_date db)
    = db'.
Proof.
  intros Historical api_key start_date end_date before after dataset db db' lg' Hm Hb Ha.
  unfold ScriptsIngestData.fetch_and_load_data. rewrite Hm. clear Hm.
  assert (S : forall lg,
             fst (ScriptsIngestData.scan (Historical api_key) start_date end_date
                    (before ++ dataset :: after) db lg) = db').
  { revert Hb. induction before as [|d before IH]; intros Hb lg; simpl.
    - rewrite Ha. reflexivity.
    - destruct (offers_nothing_attempt _ _ _ d db (Hb d (or_introl eq_refl))) as [l ->].
      apply IH. intros d' Hin. apply Hb. right. exact Hin. }
  specialize (S []).
  destruct (ScriptsIngestData.scan (Historical api_key) start_date end_date
              (before ++ dataset :: after) db []) as [db'' lg'']. exact S.
Qed.

Lemma scan_stops_at_first_load_witness :
  store (ScriptsIngestData.fetch_and_load_data
           (fun _ =>
              {| Databento.list_datasets := inr ["XNAS.ITCH"; "GLBX.MDP3"; "OPRA.PILLAR"];
                 Databento.list_symbols :=
                   fun d => if String.eqb d "XNAS.ITCH" then inr [] else inr ["NQ"; "ES"];
                 Databento.get_range := fun _ => inr [es_4700];
                 Databento.get_historical_ohlcv := fun _ => inr None;
                 Databento.request_full_definitions := fun _ => inr [] |})
           "key" "2024-01-01" "2024-01-31" no_table) =
  {| TimeZone := 0; ohlcv_1d := Some [ingested_row "NQ" es_4700] |}.
Proof.
  eapply (scan_stops_at_first_load _ "key" "2024-01-01" "2024-01-31"
            ["XNAS.ITCH"] ["OPRA.PILLAR"] "GLBX.MDP3" no_table).
  - reflexivity.
  - intros d [<-|[]]. exact I.
  - reflexivity.
Defined.

(** ** The ten business days of the generator *)

Lemma weekday_shift (q d : Z) :
  GenerateOhlcv.weekday (7 * q + d) = GenerateOhlcv.weekday d.
Proof.
  unfold GenerateOhlcv.weekday.
  replace (7 * q + d + 3) with (d + 3 + q * 7) by lia.
  apply Z_mod_plus_full.
Qed.

Lemma business_days_back_shift (q : Z) :
  forall (fuel : nat) (dates : list Z) (current_date : Z),
    GenerateOhlcv.business_days_back fuel (map (Z.add (7 * q)) dates) (7 * q + current_date)
    = option_map (map (Z.add (7 * q))) (GenerateOhlcv.business_days_back fuel dates current_date).
Proof.
  induction fuel as [|fuel IH]; intros dates current_date;
    cbn [GenerateOhlcv.business_days_back];
    rewrite length_map; destruct (List.length dates <? 10)%nat; try reflexivity.
  rewrite weekday_shift.
  replace (7 * q + current_date - 1) with (7 * q + (current_date - 1)) by lia.
  destruct (GenerateOhlcv.weekday current_date <? 5).
  - rewrite <- IH. rewrite map_app. reflexivity.
  - apply IH.
Qed.

Lemma business_days_back_more_fuel :
  forall (fuel : nat) (dates : list Z) (current_date : Z) (found : list Z),
    GenerateOhlcv.business_days_back fuel dates current_date = Some found ->
    forall extra : nat,
      GenerateOhlcv.business_days_back (extra + fuel) dates current_date = Some found.
Proof.
  induction fuel as [|fuel IH]; intros dates current_date found H extra.
  - simpl in H. destruct (List.length dates <? 10)%nat eqn:E; [discriminate|].
    destruct extra as [|extra]; simpl; rewrite E; exact H.
  - rewrite Nat.add_succ_r. cbn [GenerateOhlcv.business_days_back] in *.
    destruct (List.length dates <? 10)%nat; [|exact H].
    apply IH. exact H.
Qed.

Lemma descending_shift (q : Z) (l : list Z) :
  descending l -> descending (map (Z.add (7 * q)) l).
Proof.
  induction l as [|a [|b rest] IH]; simpl; try tauto.
  intros [H1 H2]. split; [lia|]. apply IH. exact H2.
Qed.

Lemma NoDup_shift (q : Z) (l : list Z) :
  NoDup l -> NoDup (map (Z.add (7 * q)) l).
Proof.
  induction 1 as [|a l Hn Hd IH]; simpl; constructor; [|exact IH].
  rewrite in_map_iff. intros [b [E Hb]].
  assert (b = a) by lia. subst b. exact (Hn Hb).
Qed.

(** The seven days a week can start the loop on. *)
Lemma business_days_back_week (r : Z) :
  0 <= r < 7 ->
  exists found,
    GenerateOhlcv.business_days_back 14 [] r = Some found /\
    List.length found = 10%nat /\
    Forall (fun d => GenerateOhlcv.weekday d < 5 /\ r - 13 <= d <= r) found /\
    descending found /\
    NoDup found.
Proof.
  intros Hr.
  assert (C : r = 0 \/ r = 1 \/ r = 2 \/ r = 3 \/ r = 4 \/ r = 5 \/ r = 6) by lia.
  destruct C as [-> | [-> | [-> | [-> | [-> | [-> | ->]]]]]];
    (eexists; split; [vm_compute; reflexivity|];
     split; [reflexivity|];
     split; [repeat constructor; cbv [GenerateOhlcv.weekday]; lia|];
     split; [simpl; lia|];
     repeat constructor; simpl; lia).
Qed.

Lemma business_days_back_ten (today : Z) (fuel : nat) :
  (14 <= fuel)%nat ->
  exists dates,
    GenerateOhlcv.business_days_back fuel [] today = Some dates /\
    List.length dates = 10%nat /\
    Forall (fun d => GenerateOhlcv.weekday d < 5 /\ today - 13 <= d <= today) dates /\
    descending dates /\
    NoDup dates.
Proof.
  intros Hfuel.
  destruct (business_days_back_week (today mod 7)) as (found & H1 & H2 & H3 & H4 & H5).
  { apply Z.mod_pos_bound. lia. }
  pose proof (Z.div_mod today 7 ltac:(lia)) as Hd.
  exists (map (Z.add (7 * (today / 7))) found).
  split; [|split; [|split; [|split]]].
  - replace fuel with ((fuel - 14) + 14)%nat by lia.
    apply business_days_back_more_fuel.
    pose proof (business_days_back_shift (today / 7) 14 [] (today mod 7)) as Hs.
    cbn [map] in Hs. rewrite <- Hd in Hs. rewrite Hs, H1. reflexivity.
  - rewrite length_map. exact H2.
  - rewrite Forall_map. revert H3. apply Forall_impl.
    intros d [Hw Hb]. rewrite weekday_shift. split; [exact Hw|lia].
  - apply descending_shift. exact H4.
  - apply NoDup_shift. exact H5.
Qed.

(** X14.  The [while] loop of [generate_ohlcv_data] ends on every day it
    can be started: fourteen turns are enough, and it leaves ten days,
    each a Monday to Friday, none repeated, the newest first, none older
    than thirteen days. *)
Theorem ten_business_days :
  forall (today : Z) (fuel : nat),
    (14 <= fuel)%nat ->
    exists dates,
      GenerateOhlcv.business_days_back fuel [] today = Some dates /\
      List.length dates = 10%nat /\
      Forall (fun d => GenerateOhlcv.weekday d < 5 /\ today - 13 <= d <= today) dates /\
      descending dates /\
      NoDup dates.
Proof. intros today fuel. apply business_days_back_ten. Qed.

Lemma ten_business_days_witness :
  exists dates,
    GenerateOhlcv.business_days_back 14 [] 19727 = Some dates /\
    List.length dates = 10%nat /\
    Forall (fun d => GenerateOhlcv.weekday d < 5 /\ 19727 - 13 <= d <= 19727) dates /\
    descending dates /\
    NoDup dates.
Proof. apply (ten_business_days 19727 14). lia. Defined.

(** ** The generators' batches *)

Lemma execute_pages_refused (db : database) (pages : list (list record)) (e : Py.exn) :
  forall t lg,
    pages_error (TimeZone db) pages = Some e ->
    exists t',
      Extras.execute_pages pages
        ({| server := db; work := Some t; aborted := false |}, lg) =
      (inl e, ({| server := db; work := Some t'; aborted := true |}, lg)).
Proof.
  induction pages as [|page pages IH]; intros t lg H; simpl in H; [discriminate|].
  simpl. unfold Session.bind, Session.cur_execute. cbn [fst snd].
  rewrite execute_insert.
  destruct (statement_error (TimeZone db) [] page) as [e'|] eqn:He.
  - inversion H; subst. eexists. reflexivity.
  - apply IH. exact H.
Qed.

Lemma paginate_nonempty {A} (seq : list A) (page_size : nat) :
  seq <> [] -> Extras.paginate seq page_size <> [].
Proof.
  intros Hne Hp. apply Hne. rewrite <- (concat_paginate seq page_size), Hp. reflexivity.
Qed.

Lemma execute_values_aborted (records : list record) (c : connection)
      (lg : list Logging.record) :
  aborted c = true -> records <> [] ->
  Extras.execute_values records (c, lg) = (inl Py.InFailedSqlTransaction, (c, lg)).
Proof.
  intros Ha Hne. unfold Extras.execute_values.
  destruct (Extras.paginate records 100) as [|page pages] eqn:Hp.
  - exfalso. exact (paginate_nonempty records 100 Hne Hp).
  - simpl. unfold Session.bind, Session.cur_execute, execute. cbn [fst snd].
    rewrite Ha. reflexivity.
Qed.

(** A batch that the server accepts is committed. *)
Lemma insert_batch_accepted (tz : Z) (t : list Row) (records : list record) (lg : list Logging.record) :
  batch_accepted tz records ->
  GenerateSyntheticData.insert_batch records
    (connect {| TimeZone := tz; ohlcv_1d := Some t |}, lg) =
  (inr tt,
   (connect {| TimeZone := tz;
               ohlcv_1d := Some (upsert_all (map (row_of tz) records) t) |}, lg)).
Proof.
  unfold batch_accepted, GenerateSyntheticData.insert_batch, Extras.execute_values.
  intros Hacc. session_step.
  pose proof (execute_pages_run {| TimeZone := tz; ohlcv_1d := Some t |}
                (Extras.paginate records 100) t lg) as Hx.
  cbn [TimeZone] in Hx. rewrite Hacc in Hx.
  change (connect {| TimeZone := tz; ohlcv_1d := Some t |})
    with {| server := {| TimeZone := tz; ohlcv_1d := Some t |};
            work := Some t; aborted := false |}.
  rewrite Hx. cbn [fst snd]. rewrite concat_paginate. reflexivity.
Qed.

Lemma batches_app (generate : string -> Z -> list record) (l1 l2 : list (string * Z)) :
  batches generate (l1 ++ l2) = batches generate l1 ++ batches generate l2.
Proof. unfold batches. apply flat_map_app. Qed.

(** While the batches are accepted, each is committed on top of the one
    before and counted. *)
Lemma load_symbols_accepted (generate : string -> Z -> list record) (tz : Z) :
  forall (items : list (string * Z)) (t : list Row) (total : nat) (lg : list Logging.record),
    Forall (fun item => batch_accepted tz (generate (fst item) (snd item))) items ->
    exists lg',
      GenerateSyntheticData.load_symbols generate items total
        (connect {| TimeZone := tz; ohlcv_1d := Some t |}, lg) =
      (inr (total + List.length (batches generate items))%nat,
       (connect {| TimeZone := tz;
                   ohlcv_1d := Some (upsert_all (map (row_of tz) (batches generate items)) t) |},
        lg')).
Proof.
  induction items as [|[symbol base_price] items IH]; intros t total lg Hacc.
  - exists lg. simpl. rewrite Nat.add_0_r. reflexivity.
  - inversion Hacc as [|item items' Hhead Htail]; subst. cbn [fst snd] in Hhead.
    cbn [GenerateSyntheticData.load_symbols].
    unfold Session.bind at 1. unfold Session.try_except.
    unfold Session.bind at 1.
    rewrite (insert_batch_accepted tz t _ lg Hhead).
    unfold Session.bind at 1. unfold Session.logging, Session.ret. cbn [fst snd].
    destruct (IH (upsert_all (map (row_of tz) (generate symbol base_price)) t)
                 (total + List.length (generate symbol base_price))%nat
                 (lg ++ [(Logging.INFO,
                          Logging.Loaded (List.length (generate symbol base_price)))])
                 Htail) as [lg' ->].
    exists lg'. unfold batches. cbn [flat_map fst snd]. fold (batches generate items).
    rewrite map_app, upsert_all_app, length_app, Nat.add_assoc. reflexivity.
Qed.

(** In a transaction that a refused batch has aborted, every batch that
    has a record fails in turn, and nothing is counted. *)
Lemma load_symbols_aborted (generate : string -> Z -> list record) :
  forall (items : list (string * Z)) (total : nat) (c : connection)
         (lg : list Logging.record),
    aborted c = true ->
    Forall (fun item => generate (fst item) (snd item) <> []) items ->
    exists lg',
      GenerateSyntheticData.load_symbols generate items total (c, lg) =
      (inr total, (c, lg')).
Proof.
  induction items as [|[symbol base_price] items IH]; intros total c lg Ha Hne.
  - exists lg. reflexivity.
  - inversion Hne as [|item items' Hhead Htail]; subst. cbn [fst snd] in Hhead.
    cbn [GenerateSyntheticData.load_symbols].
    unfold Session.bind at 1. unfold Session.try_except.
    unfold Session.bind at 1. unfold GenerateSyntheticData.insert_batch.
    unfold Session.bind at 1.
    rewrite (execute_values_aborted _ c lg Ha Hhead).
    unfold Session.bind at 1. unfold Session.logging, Session.ret. cbn [fst snd].
    apply IH; assumption.
Qed.

Lemma load_symbols_refusal (generate : string -> Z -> list record) (tz : Z)
      (bad : string * Z) (rest : list (string * Z)) :
  ~ batch_accepted tz (generate (fst bad) (snd bad)) ->
  Forall (fun item => generate (fst item) (snd item) <> []) rest ->
  forall (good : list (string * Z)) (t : list Row) (total : nat) (lg : list Logging.record),
    Forall (fun item => batch_accepted tz (generate (fst item) (snd item))) good ->
    exists c' lg',
      GenerateSyntheticData.load_symbols generate (good ++ bad :: rest) total
        (connect {| TimeZone := tz; ohlcv_1d := Some t |}, lg) =
      (inr (total + List.length (batches generate good))%nat, (c', lg')) /\
      server c' =
      {| TimeZone := tz;
         ohlcv_1d := Some (upsert_all (map (row_of tz) (batches generate good)) t) |}.
Proof.
  intros Hbad Hrest.
  induction good as [|[symbol base_price] good IH]; intros t total lg Hacc.
  - destruct bad as [symbol base_price]. cbn [fst snd] in Hbad.
    unfold batch_accepted in Hbad.
    destruct (pages_error tz (Extras.paginate (generate symbol base_price) 100))
      as [e|] eqn:He; [|congruence].
    cbn [app GenerateSyntheticData.load_symbols].
    unfold Session.bind at 1. unfold Session.try_except.
    unfold Session.bind at 1. unfold GenerateSyntheticData.insert_batch.
    unfold Session.bind at 1. unfold Extras.execute_values.
    destruct (execute_pages_refused {| TimeZone := tz; ohlcv_1d := Some t |}
                (Extras.paginate (generate symbol base_price) 100) e t lg He) as [t' Hx].
    change (connect {| TimeZone := tz; ohlcv_1d := Some t |})
      with {| server := {| TimeZone := tz; ohlcv_1d := Some t |};
              work := Some t; aborted := false |}.
    rewrite Hx.
    unfold Session.bind at 1. unfold Session.logging, Session.ret. cbn [fst snd].
    match goal with
    | |- context [GenerateSyntheticData.load_symbols generate rest total (?c, ?l)] =>
        destruct (load_symbols_aborted generate rest total c l eq_refl Hrest) as [lg' ->]
    end.
    eexists _, lg'. split.
    + unfold batches. cbn [flat_map List.length]. rewrite Nat.add_0_r. reflexivity.
    + reflexivity.
  - inversion Hacc as [|item good' Hhead Htail]; subst. cbn [fst snd] in Hhead.
    rewrite <- app_comm_cons. cbn [GenerateSyntheticData.load_symbols].
    unfold Session.bind at 1. unfold Session.try_except.
    unfold Session.bind at 1.
    rewrite (insert_batch_accepted tz t _ lg Hhead).
    unfold Session.bind at 1. unfold Session.logging, Session.ret. cbn [fst snd].
    destruct (IH (upsert_all (map (row_of tz) (generate symbol base_price)) t)
                 (total + List.length (generate symbol base_price))%nat
                 (lg ++ [(Logging.INFO,
                          Logging.Loaded (List.length (generate symbol base_price)))])
                 Htail) as (c' & lg' & -> & Hs).
    exists c', lg'. unfold batches. cbn [flat_map fst snd]. fold (batches generate good).
    rewrite map_app, upsert_all_app, length_app, Nat.add_assoc.
    split; [reflexivity|exact Hs].
Qed.

Lemma generate_synthetic_data_ensure_schema_exists_run (db : database)
      (lg : list Logging.record) :
  GenerateSyntheticData.ensure_schema_exists (connect db, lg) =
  (inr tt, (connect (bootstrapped db), lg)).
Proof.
  unfold GenerateSyntheticData.ensure_schema_exists. session_step.
  unfold connect, bootstrapped, table_rows, execute, commit. simpl.
  destruct (ohlcv_1d db); reflexivity.
Qed.

Lemma generate_simple_data_ensure_schema_exists_run (db : database)
      (lg : list Logging.record) :
  GenerateSimpleData.ensure_schema_exists (connect db, lg) =
  (inr tt, (connect (bootstrapped db), lg)).
Proof.
  unfold GenerateSimpleData.ensure_schema_exists. session_step.
  unfold connect, bootstrapped, table_rows, execute, commit. simpl.
  destruct (ohlcv_1d db); reflexivity.
Qed.

Lemma synthetic_run_accepted (generate : string -> Z -> list record) (db : database) :
  Forall (fun item => batch_accepted (TimeZone db) (generate (fst item) (snd item)))
         GenerateSyntheticData.symbols ->
  exists lg',
    GenerateSyntheticData.load_synthetic_data generate db =
    {| result := Py.Returned Py.None_;
       store := updated db (map (row_of (TimeZone db))
                                (batches generate GenerateSyntheticData.symbols));
       log := (lg' ++ [(Logging.INFO,
                        Logging.Total
                          (List.length (batches generate GenerateSyntheticData.symbols)))])
                ++ [(Logging.INFO, Logging.ConnectionClosed)] |}.
Proof.
  intros Hacc.
  unfold GenerateSyntheticData.load_synthetic_data, GenerateSyntheticData.get_db_connection.
  unfold Session.try_except. unfold Session.bind at 1.
  rewrite generate_synthetic_data_ensure_schema_exists_run.
  unfold Session.bind at 1.
  destruct (load_symbols_accepted generate (TimeZone db) GenerateSyntheticData.symbols
              (table_rows db) 0 [] Hacc) as [lg' Hrun].
  change (connect (bootstrapped db))
    with (connect {| TimeZone := TimeZone db; ohlcv_1d := Some (table_rows db) |}).
  rewrite Hrun. unfold Session.logging. cbn [fst snd].
  exists lg'. reflexivity.
Qed.

Lemma synthetic_run_refusal (generate : string -> Z -> list record) (db : database)
      (good rest : list (string * Z)) (bad : string * Z) :
  GenerateSyntheticData.symbols = good ++ bad :: rest ->
  Forall (fun item => batch_accepted (TimeZone db) (generate (fst item) (snd item))) good ->
  ~ batch_accepted (TimeZone db) (generate (fst bad) (snd bad)) ->
  Forall (fun item => generate (fst item) (snd item) <> []) rest ->
  exists lg',
    GenerateSyntheticData.load_synthetic_data generate db =
    {| result := Py.Returned Py.None_;
       store := updated db (map (row_of (TimeZone db)) (batches generate good));
       log := (lg' ++ [(Logging.INFO,
                        Logging.Total (List.length (batches generate good)))])
                ++ [(Logging.INFO, Logging.ConnectionClosed)] |}.
Proof.
  intros Hsplit Hacc Hbad Hrest.
  unfold GenerateSyntheticData.load_synthetic_data, GenerateSyntheticData.get_db_connection.
  rewrite Hsplit.
  unfold Session.try_except. unfold Session.bind at 1.
  rewrite generate_synthetic_data_ensure_schema_exists_run.
  unfold Session.bind at 1.
  destruct (load_symbols_refusal generate (TimeZone db) bad rest Hbad Hrest good
              (table_rows db) 0 [] Hacc) as (c' & lg' & Hrun & Hs).
  change (connect (bootstrapped db))
    with (connect {| TimeZone := TimeZone db; ohlcv_1d := Some (table_rows db) |}).
  rewrite Hrun. unfold Session.logging. cbn [fst snd].
  exists lg'. unfold close. rewrite Hs. reflexivity.
Qed.

(** X15.  When the server accepts each of the five batches of
    [generate_synthetic_data.py], the run commits them one after the
    other, ES first and CL last: the table ends as the upsert of all their
    records in that order, and the total the run logs is their number. *)
Theorem synthetic_batches_all_accepted :
  forall (generate : string -> Z -> list record) (db : database),
    Forall (fun item => batch_accepted (TimeZone db) (generate (fst item) (snd item)))
           GenerateSyntheticData.symbols ->
    store (GenerateSyntheticData.load_synthetic_data generate db) =
    updated db (map (row_of (TimeZone db))
                    (batches generate GenerateSyntheticData.symbols)) /\
    In (Logging.INFO,
        Logging.Total (List.length (batches generate GenerateSyntheticData.symbols)))
       (log (GenerateSyntheticData.load_synthetic_data generate db)).
Proof.
  intros generate db Hacc.
  destruct (synthetic_run_accepted generate db Hacc) as [lg' ->]. cbn [store log].
  split; [reflexivity|].
  rewrite !in_app_iff. left. right. left. reflexivity.
Qed.

(** X16.  [generate_synthetic_data.py] goes on after a batch that the
    server refuses, without a rollback.  When each of the batches after
    the refused one has a record, none of them gets in: the batches
    committed before stay, the refused batch leaves nothing, and the
    table and the logged total are those of the batches ahead of the
    refused one.  (A batch without a record sends no statement, and its
    [commit] would end the aborted transaction; hence the condition on the
    later batches.) *)
Theorem synthetic_batches_after_refusal :
  forall (generate : string -> Z -> list record) (db : database)
         (good rest : list (string * Z)) (bad : string * Z),
    GenerateSyntheticData.symbols = good ++ bad :: rest ->
    Forall (fun item => batch_accepted (TimeZone db) (generate (fst item) (snd item))) good ->
    ~ batch_accepted (TimeZone db) (generate (fst bad) (snd bad)) ->
    Forall (fun item => generate (fst item) (snd item) <> []) rest ->
    store (GenerateSyntheticData.load_synthetic_data generate db) =
    updated db (map (row_of (TimeZone db)) (batches generate good)) /\
    In (Logging.INFO, Logging.Total (List.length (batches generate good)))
       (log (GenerateSyntheticData.load_synthetic_data generate db)).
Proof.
  intros generate db good rest bad Hsplit Hacc Hbad Hrest.
  destruct (synthetic_run_refusal generate db good rest bad Hsplit Hacc Hbad Hrest)
    as [lg' ->]. cbn [store log].
  split; [reflexivity|].
  rewrite !in_app_iff. left. right. left. reflexivity.
Qed.

Lemma synthetic_batches_all_accepted_witness :
  store (GenerateSyntheticData.load_synthetic_data
           (fun symbol _ => [synthetic_bar symbol 1200000]) no_table) =
  updated no_table
    (map (row_of 0)
         (batches (fun symbol _ => [synthetic_bar symbol 1200000])
                  GenerateSyntheticData.symbols)) /\
  In (Logging.INFO,
      Logging.Total
        (List.length (batches (fun symbol _ => [synthetic_bar symbol 1200000])
                              GenerateSyntheticData.symbols)))
     (log (GenerateSyntheticData.load_synthetic_data
             (fun symbol _ => [synthetic_bar symbol 1200000]) no_table)).
Proof.
  apply (synthetic_batches_all_accepted
           (fun symbol _ => [synthetic_bar symbol 1200000]) no_table).
  repeat constructor.
Defined.

Lemma synthetic_batches_after_refusal_witness :
  store (GenerateSyntheticData.load_synthetic_data generate_nq_too_big no_table) =
  updated no_table (map (row_of 0) (batches generate_nq_too_big [("ES", 4700)])) /\
  In (Logging.INFO,
      Logging.Total (List.length (batches generate_nq_too_big [("ES", 4700)])))
     (log (GenerateSyntheticData.load_synthetic_data generate_nq_too_big no_table)).
Proof.
  apply (synthetic_batches_after_refusal generate_nq_too_big no_table
           [("ES", 4700)] [("YM", 37500); ("RTY", 2100); ("CL", 72)] ("NQ", 16500)).
  - reflexivity.
  - repeat constructor.
  - intros H. vm_compute in H. discriminate.
  - repeat constructor; discriminate.
Defined.

(** ** The simple generator, from the dates to the table *)

Lemma generate_simple_data_run (records : list record) (db : database) :
  batch_accepted (TimeZone db) records ->
  GenerateSimpleData.load_synthetic_data records db =
  {| result := Py.Returned Py.None_;
     store := updated db (map (row_of (TimeZone db)) records);
     log := [(Logging.INFO, Logging.Loaded (List.length records));
             (Logging.INFO, Logging.ConnectionClosed)] |}.
Proof.
  unfold batch_accepted. intros Hacc.
  unfold GenerateSimpleData.load_synthetic_data, GenerateSimpleData.get_db_connection.
  unfold Session.try_except. unfold Session.bind at 1.
  rewrite generate_simple_data_ensure_schema_exists_run.
  unfold Session.bind at 1. unfold Extras.execute_values.
  pose proof (execute_pages_run (bootstrapped db) (Extras.paginate records 100)
                (table_rows db) []) as Hx.
  change (TimeZone (bootstrapped db)) with (TimeZone db) in Hx. rewrite Hacc in Hx.
  change (connect (bootstrapped db))
    with {| server := bootstrapped db; work := Some (table_rows db); aborted := false |}.
  rewrite Hx. session_step. rewrite concat_paginate. reflexivity.
Qed.

Lemma int4_randint (v : Z) : 100000 <= v <= 500000 -> int4 v = true.
Proof.
  intros H. unfold int4. apply andb_true_intro. split; apply Z.leb_le; lia.
Qed.

(** X17.  What [generate_simple_data.py] generates always loads: started
    on any day, with volumes drawn as [random.randint(100000, 500000)]
    draws them, the generator returns ten records under ['ES'] whose keys
    are pairwise distinct on every server, and the load upserts all ten,
    commits, and reports ten. *)
Theorem generated_days_all_load :
  forall (today : Z) (fuel : nat) (draw : Z -> GenerateOhlcv.drawn) (db : database),
    (14 <= fuel)%nat ->
    (forall d, 100000 <= GenerateOhlcv.d_volume (draw d) <= 500000) ->
    exists records,
      GenerateOhlcv.generate_ohlcv_data fuel today draw = Some records /\
      List.length records = 10%nat /\
      Forall (fun p => rec_symbol p = "ES") records /\
      NoDup (keys (map (row_of (TimeZone db)) records)) /\
      GenerateSimpleData.load_synthetic_data records db =
      {| result := Py.Returned Py.None_;
         store := updated db (map (row_of (TimeZone db)) records);
         log := [(Logging.INFO, Logging.Loaded 10);
                 (Logging.INFO, Logging.ConnectionClosed)] |}.
Proof.
  intros today fuel draw db Hfuel Hvol.
  destruct (business_days_back_ten today fuel Hfuel) as (dates & Hb & Hlen & _ & _ & Hnd).
  unfold GenerateOhlcv.generate_ohlcv_data. rewrite Hb.
  eexists. split; [reflexivity|].
  assert (Hl : List.length
                 (map (fun date =>
                         {| rec_time := GenerateOhlcv.midnight date;
                            rec_symbol := "ES";
                            rec_open := GenerateOhlcv.d_open (draw date);
                            rec_high := GenerateOhlcv.d_high (draw date);
                            rec_low := GenerateOhlcv.d_low (draw date);
                            rec_close := GenerateOhlcv.d_close (draw date);
                            rec_volume := GenerateOhlcv.d_volume (draw date) |})
                      (rev dates)) = 10%nat)
    by (rewrite length_map, length_rev; exact Hlen).
  assert (Hk : NoDup (keys (map (row_of (TimeZone db))
                 (map (fun date =>
                         {| rec_time := GenerateOhlcv.midnight date;
                            rec_symbol := "ES";
                            rec_open := GenerateOhlcv.d_open (draw date);
                            rec_high := GenerateOhlcv.d_high (draw date);
                            rec_low := GenerateOhlcv.d_low (draw date);
                            rec_close := GenerateOhlcv.d_close (draw date);
                            rec_volume := GenerateOhlcv.d_volume (draw date) |})
                      (rev dates))))).
  { unfold keys. rewrite !map_map. apply NoDup_map_injective; [|apply NoDup_rev, Hnd].
    intros x y E. unfold key_of, row_of, timestamptz, GenerateOhlcv.midnight, Py.utc in E.
    cbn [time symbol rec_time rec_symbol Py.wall Py.tzinfo] in E.
    inversion E. lia. }
  split; [exact Hl|]. split; [|split; [exact Hk|]].
  - rewrite Forall_map. apply Forall_forall. intros d _. reflexivity.
  - rewrite generate_simple_data_run; [rewrite Hl; reflexivity|].
    apply pages_error_none; rewrite concat_paginate; [|exact Hk].
    rewrite Forall_map. apply Forall_forall. intros d _. apply int4_randint, Hvol.
Qed.

Lemma generated_days_all_load_witness :
  exists records,
    GenerateOhlcv.generate_ohlcv_data 14 19727 flat_draw = Some records /\
    List.length records = 10%nat /\
    Forall (fun p => rec_symbol p = "ES") records /\
    NoDup (keys (map (row_of 0) records)) /\
    GenerateSimpleData.load_synthetic_data records no_table =
    {| result := Py.Returned Py.None_;
       store := updated no_table (map (row_of 0) records);
       log := [(Logging.INFO, Logging.Loaded 10);
               (Logging.INFO, Logging.ConnectionClosed)] |}.
Proof.
  apply (generated_days_all_load 19727 14 flat_draw no_table).
  - lia.
  - intros d. simpl. lia.
Defined.

(** ** Upsert overwrite *)

(** One turn of the loop of [scripts/ingest_data.py] for a dataset that
    has a symbol and a frame to offer. *)
Lemma attempt_offered (client : Databento.client) (start_date end_date dataset s : string)
      (rest : list string) (B : Databento.DataFrame) (db : database) :
  Databento.list_symbols client dataset = inr (s :: rest) ->
  Databento.get_range client (scripts_request dataset s start_date end_date) = inr B ->
  B <> [] ->
  match load_error (TimeZone db) s B with
  | None =>
      ScriptsIngestData.attempt client start_date end_date dataset db =
      (true, updated db (map (ingested_row s) B),
       [(Logging.INFO, Logging.Preparing (List.length B));
        (Logging.INFO, Logging.Loaded (List.length B))])
  | Some e =>
      exists lg,
        ScriptsIngestData.attempt client start_date end_date dataset db =
        (false, bootstrapped db, lg)
  end.
Proof.
  intros Hs Hr Hne. unfold ScriptsIngestData.attempt. rewrite Hs.
  unfold scripts_request in Hr. rewrite Hr.
  destruct B as [|row B]; [congruence|].
  change (ScriptsIngestData.load s (row :: B)) with (IngestData.load s (row :: B)).
  unfold ScriptsIngestData.get_db_connection.
  pose proof (load_run s (row :: B) db) as H.
  destruct (load_error (TimeZone db) s (row :: B)) as [e|].
  - destruct H as (c' & lg & -> & Hc & _). unfold close. rewrite Hc.
    eexists. reflexivity.
  - rewrite H. reflexivity.
Qed.

(** [scripts/ingest_data.py] when the dataset listed first has a frame
    that the table accepts. *)
Lemma scripts_ingest_data_first (Historical : string -> Databento.client)
      (api_key start_date end_date dataset s : string) (others rest : list string)
      (B : Databento.DataFrame) (db : database) :
  Databento.list_datasets (Historical api_key) = inr (dataset :: others) ->
  Databento.list_symbols (Historical api_key) dataset = inr (s :: rest) ->
  Databento.get_range (Historical api_key) (scripts_request dataset s start_date end_date)
  = inr B ->
  B <> [] -> Forall fits B -> Forall naive B -> NoDup (walls B) ->
  ScriptsIngestData.fetch_and_load_data Historical api_key start_date end_date db =
  {| result := Py.Returned Py.None_;
     store := updated db (map (ingested_row s) B);
     log := [(Logging.INFO, Logging.Preparing (List.length B));
             (Logging.INFO, Logging.Loaded (List.length B))] |}.
Proof.
  intros Hm Hs Hr Hne Hf Hn Hnd.
  unfold ScriptsIngestData.fetch_and_load_data. rewrite Hm.
  cbn [ScriptsIngestData.scan].
  pose proof (attempt_offered (Historical api_key) start_date end_date dataset s rest B db
                Hs Hr Hne) as H.
  rewrite (load_error_none (TimeZone db) s B Hf Hn Hnd) in H. rewrite H. reflexivity.
Qed.

(** C2, as amended.  Upsert overwrite, of what a run leaves in the store:
    when the keys of the table are distinct and the table accepts the
    frame, every key that the store held and that rows of the frame fall
    on ends with exactly one row, which carries the open, high, low, close
    and volume of the last of those rows.  This holds of the loop of
    [fetch_data.py], of the [execute_values] write of
    [trade_ngin/scripts/ingest_data.py], and of that of
    [scripts/ingest_data.py] for the frame of the dataset listed first. *)
Theorem upsert_overwrites :
  forall (Historical : string -> Databento.client)
         (api_key symbol start_date end_date dataset s : string)
         (others rest : list string) (B : Databento.DataFrame) (db : database),
    key_unique db ->
    (Forall fits B ->
     overwritten (map (fetched_row (TimeZone db) symbol) B) db
       (store (FetchData.with_reply (inr (Some B)) symbol db))) /\
    (Forall fits B -> Forall naive B -> NoDup (walls B) ->
     overwritten (map (ingested_row "ES") B) db
       (store (IngestData.with_reply (inr B) db))) /\
    (Forall fits B -> Forall naive B -> NoDup (walls B) -> B <> [] ->
     Databento.list_datasets (Historical api_key) = inr (dataset :: others) ->
     Databento.list_symbols (Historical api_key) dataset = inr (s :: rest) ->
     Databento.get_range (Historical api_key)
       (scripts_request dataset s start_date end_date) = inr B ->
     overwritten (map (ingested_row s) B) db
       (store (ScriptsIngestData.fetch_and_load_data
                 Historical api_key start_date end_date db))).
Proof.
  intros Historical api_key symbol start_date end_date dataset s others rest B db Hu.
  split; [|split].
  - intros Hf k r _ Hl.
    destruct (fetch_data_accepted symbol B db Hf) as (-> & _ & _).
    apply rows_with_upsert_all_latest; assumption.
  - intros Hf Hn Hnd k r _ Hl. destruct B as [|row B]; [discriminate Hl|].
    assert (Hne : row :: B <> []) by discriminate.
    destruct (ingest_data_run (row :: B) db Hne) as (_ & _ & H).
    rewrite load_error_none in H by assumption. destruct H as [-> _].
    rewrite table_rows_updated. apply rows_with_upsert_all_latest; assumption.
  - intros Hf Hn Hnd Hne Hm Hs Hr k r _ Hl.
    rewrite (scripts_ingest_data_first Historical api_key start_date end_date dataset s
               others rest B db Hm Hs Hr Hne Hf Hn Hnd).
    cbn [store]. rewrite table_rows_updated.
    apply rows_with_upsert_all_latest; assumption.
Qed.

(** The scenario of the specification: the store holds ES for 2024-01-02
    with close 4700.00, and the bar comes again with close 4705.25. *)
Lemma upsert_overwrites_witness :
  rows_with (jan02, "ES")
    (table_rows (store (FetchData.with_reply (inr (Some [es_4705])) "ES" es_stored))) =
  [ingested_row "ES" es_4705] /\
  rows_with (jan02, "ES")
    (table_rows (store (IngestData.with_reply (inr [es_4705]) es_stored))) =
  [ingested_row "ES" es_4705] /\
  rows_with (jan02, "NQ")
    (table_rows (store (ScriptsIngestData.fetch_and_load_data (replying [es_4705]) "key"
                          "2024-01-01" "2024-01-31"
                          {| TimeZone := 0;
                             ohlcv_1d := Some [ingested_row "NQ" es_4700] |}))) =
  [ingested_row "NQ" es_4705].
Proof.
  assert (Hf : Forall fits [es_4705]) by (repeat constructor).
  assert (Hn : Forall naive [es_4705]) by (repeat constructor).
  assert (Hnd : NoDup (walls [es_4705])) by (repeat constructor; simpl; tauto).
  split; [|split].
  - destruct (upsert_overwrites (replying [es_4705]) "key" "ES" "2024-01-01" "2024-01-31"
                "GLBX.MDP3" "NQ" [] ["ES"] [es_4705] es_stored) as (H & _ & _).
    + repeat constructor. simpl. tauto.
    + apply (H Hf (jan02, "ES") (ingested_row "ES" es_4705)); [left|]; reflexivity.
  - destruct (upsert_overwrites (replying [es_4705]) "key" "ES" "2024-01-01" "2024-01-31"
                "GLBX.MDP3" "NQ" [] ["ES"] [es_4705] es_stored) as (_ & H & _).
    + repeat constructor. simpl. tauto.
    + apply (H Hf Hn Hnd (jan02, "ES") (ingested_row "ES" es_4705)); [left|]; reflexivity.
  - destruct (upsert_overwrites (replying [es_4705]) "key" "ES" "2024-01-01" "2024-01-31"
                "GLBX.MDP3" "NQ" [] ["ES"] [es_4705]
                {| TimeZone := 0; ohlcv_1d := Some [ingested_row "NQ" es_4700] |})
      as (_ & _ & H).
    + repeat constructor. simpl. tauto.
    + apply (H Hf Hn Hnd ltac:(discriminate) eq_refl eq_refl eq_refl
               (jan02, "NQ") (ingested_row "NQ" es_4705)); [left|]; reflexivity.
Defined.

(** Against C2 as stated: the store holds ES for 2024-01-02 with close
    4700.00, and the bar comes again with close 4705.25 in a frame whose
    other row has a volume that the [INTEGER] column refuses.  The key is
    not overwritten on either path: the refused row aborts the transaction,
    the commit of [fetch_data.py] rolls the first row back with it, the
    statement of [execute_values] raises as a whole, and the stored close
    is still 4700.00. *)
Lemma overwritten_refuted :
  ~ overwritten (map (fetched_row 0 "ES") [es_4705; es_jan03_too_big]) es_stored
      (store (FetchData.with_reply (inr (Some [es_4705; es_jan03_too_big])) "ES" es_stored)) /\
  ~ overwritten (map (ingested_row "ES") [es_4705; es_jan03_too_big]) es_stored
      (store (IngestData.with_reply (inr [es_4705; es_jan03_too_big]) es_stored)) /\
  table_rows
    (store (FetchData.with_reply (inr (Some [es_4705; es_jan03_too_big])) "ES" es_stored)) =
  [ingested_row "ES" es_4700] /\
  table_rows (store (IngestData.with_reply (inr [es_4705; es_jan03_too_big]) es_stored)) =
  [ingested_row "ES" es_4700].
Proof.
  split; [|split; [|split]]; try reflexivity.
  - intros H.
    specialize (H (jan02, "ES") (ingested_row "ES" es_4705)
                  (or_introl eq_refl) eq_refl).
    vm_compute in H. discriminate H.
  - intros H.
    specialize (H (jan02, "ES") (ingested_row "ES" es_4705)
                  (or_introl eq_refl) eq_refl).
    vm_compute in H. discriminate H.
Qed.

(** The scenario of the specification, run through the entry points: ES
    for 2024-01-02 with close 4700.00, then again with close 4705.25. *)
Example upsert_overwrite_fetch_data :
  table_rows
    (store (FetchData.fetch_and_load_data (replying [es_4705]) "key" "ES" "2023-01-01" "2024-01-09"
              (store (FetchData.fetch_and_load_data (replying [es_4700]) "key" "ES"
                        "2023-01-01" "2024-01-09" no_table)))) =
  [ingested_row "ES" es_4705].
Proof. reflexivity. Qed.

Example upsert_overwrite_scripts_ingest_data :
  table_rows
    (store (ScriptsIngestData.fetch_and_load_data (replying [es_4705]) "key"
              "2024-01-01" "2024-01-31"
              (store (ScriptsIngestData.fetch_and_load_data (replying [es_4700]) "key"
                        "2024-01-01" "2024-01-31" no_table)))) =
  [ingested_row "NQ" es_4705].
Proof. reflexivity. Qed.

(** ** Timestamps *)

Lemma in_keys_upsert_all_written (rows : list Row) (r : Row) :
  forall t, In r rows -> In (key_of r) (keys (upsert_all rows t)).
Proof.
  induction rows as [|r' rows IH]; intros t Hin; [destruct Hin|].
  simpl. destruct Hin as [->|Hin].
  - apply in_keys_upsert_all. apply in_keys_upsert. left. reflexivity.
  - apply IH, Hin.
Qed.

Lemma stored_under_key (k : key) (t : list Row) :
  In k (keys t) -> exists r, In r t /\ key_of r = k.
Proof.
  unfold keys. rewrite in_map_iff. intros (r & E & Hin). exists r. split; assumption.
Qed.

Lemma upsert_all_stored_at (rows t : list Row) (r : Row) :
  In r rows -> exists r', In r' (upsert_all rows t) /\ time r' = time r.
Proof.
  intros Hin.
  destruct (stored_under_key _ _ (in_keys_upsert_all_written rows r t Hin)) as (r' & Hr & E).
  exists r'. split; [exact Hr|]. unfold key_of in E. congruence.
Qed.

(** A frame that holds a timestamp that is not naive never gets past
    [tz_localize]. *)
Lemma load_error_aware (tz : Z) (s : string) (B : Databento.DataFrame) :
  ~ Forall naive B -> exists e, load_error tz s B = Some e.
Proof.
  intros Hn. unfold load_error. pose proof (prepare_records_spec s B) as H.
  destruct (IngestData.prepare_records s B) as [e|records].
  - exists e. reflexivity.
  - destruct H as [H _]. contradiction.
Qed.

(** C8, as amended.  The two [ingest_data.py] label the provider's
    timestamps UTC and convert nothing.  A frame of naive timestamps that
    the table accepts is stored whole, each row at the instant its clock
    reading denotes in UTC, whatever the [TimeZone] of the session.  A
    frame that holds a timezone-aware timestamp is not converted:
    [tz_localize] raises, and nothing of the frame is stored.
    [fetch_data.py] hands [row.timestamp] on as it came, so that a naive
    timestamp is stored at the instant the session's [TimeZone] gives
    it. *)
Theorem timestamps_labelled_utc :
  forall (client : Databento.client) (start_date end_date dataset s : string)
         (rest : list string) (B : Databento.DataFrame) (db : database),
    (Forall fits B -> Forall naive B -> NoDup (walls B) ->
     stored_as_utc Py.utc B (store (IngestData.with_reply (inr B) db))) /\
    (~ Forall naive B ->
     result (IngestData.with_reply (inr B) db) = Py.Returned Py.None_ /\
     table_rows (store (IngestData.with_reply (inr B) db)) = table_rows db /\
     rows_reported (log (IngestData.with_reply (inr B) db)) = O) /\
    (Databento.list_symbols client dataset = inr (s :: rest) ->
     Databento.get_range client (scripts_request dataset s start_date end_date) = inr B ->
     B <> [] ->
     (Forall fits B -> Forall naive B -> NoDup (walls B) ->
      exists after lg,
        ScriptsIngestData.attempt client start_date end_date dataset db = (true, after, lg) /\
        stored_as_utc Py.utc B after) /\
     (~ Forall naive B ->
      exists after lg,
        ScriptsIngestData.attempt client start_date end_date dataset db = (false, after, lg) /\
        table_rows after = table_rows db)) /\
    (Forall fits B ->
     stored_as_utc (TimeZone db) B (store (FetchData.with_reply (inr (Some B)) s db))).
Proof.
  intros client start_date end_date dataset s rest B db.
  assert (Hstored : forall s' after,
             table_rows after = upsert_all (map (ingested_row s') B) (table_rows db) ->
             Forall naive B -> stored_as_utc Py.utc B after).
  { intros s' after E Hn row Hin.
    destruct (upsert_all_stored_at (map (ingested_row s') B) (table_rows db)
                (ingested_row s' row) (in_map _ _ _ Hin)) as (r & Hr & Ht).
    exists r. rewrite E. split; [exact Hr|]. rewrite Ht.
    rewrite Forall_forall in Hn. specialize (Hn row Hin).
    unfold timestamptz, naive, Py.utc in *. rewrite Hn. simpl. lia. }
  split; [|split; [|split]].
  - intros Hf Hn Hnd. destruct B as [|row B]; [intros row []|].
    assert (Hne : row :: B <> []) by discriminate.
    destruct (ingest_data_run (row :: B) db Hne) as (_ & _ & H).
    rewrite load_error_none in H by assumption. destruct H as [E _].
    apply (Hstored "ES"); [rewrite E; reflexivity|exact Hn].
  - intros Hn.
    assert (Hne : B <> []) by (intros ->; apply Hn; constructor).
    destruct (ingest_data_run B db Hne) as (Hr & _ & H).
    destruct (load_error_aware (TimeZone db) "ES" B Hn) as [e He].
    rewrite He in H. destruct H as [E Hc].
    split; [exact Hr|]. split; [rewrite E; reflexivity|exact Hc].
  - intros Hs Hr Hne.
    pose proof (attempt_offered client start_date end_date dataset s rest B db Hs Hr Hne) as H.
    split.
    + intros Hf Hn Hnd. rewrite load_error_none in H by assumption.
      eexists _, _. split; [exact H|].
      apply (Hstored s); [reflexivity|exact Hn].
    + intros Hn. destruct (load_error_aware (TimeZone db) s B Hn) as [e He].
      rewrite He in H. destruct H as [lg H].
      eexists _, lg. split; [exact H|reflexivity].
  - intros Hf row Hin.
    destruct (fetch_data_accepted s B db Hf) as (E & _ & _).
    destruct (upsert_all_stored_at (map (fetched_row (TimeZone db) s) B) (table_rows db)
                (fetched_row (TimeZone db) s row) (in_map _ _ _ Hin)) as (r & Hr & Ht).
    exists r. rewrite E. split; [exact Hr|]. rewrite Ht. reflexivity.
Qed.

Lemma timestamps_labelled_utc_witness :
  stored_as_utc Py.utc [es_4700] (store (IngestData.with_reply (inr [es_4700]) no_table_cet)) /\
  table_rows (store (IngestData.with_reply (inr [es_4700_aware]) no_table_cet)) = [] /\
  stored_as_utc 60 [es_4700]
    (store (FetchData.with_reply (inr (Some [es_4700])) "ES" no_table_cet)).
Proof.
  destruct (timestamps_labelled_utc (replying_client [es_4700]) "2024-01-01" "2024-01-31"
              "GLBX.MDP3" "ES" [] [es_4700] no_table_cet) as (H1 & _ & _ & H4).
  destruct (timestamps_labelled_utc (replying_client [es_4700]) "2024-01-01" "2024-01-31"
              "GLBX.MDP3" "ES" [] [es_4700_aware] no_table_cet) as (_ & H2 & _ & _).
  split; [|split].
  - apply H1; repeat constructor. simpl. tauto.
  - apply H2. intros Hn. inversion Hn as [|? ? Hrow _]; subst. discriminate Hrow.
  - apply H4. repeat constructor.
Defined.

(** Against C8 as stated, with UTC for the documented timezone of the
    provider: a frame whose timestamp is timezone-aware, 2024-01-02T00:00
    at offset +00:00, is not converted and stored by either
    [ingest_data.py], it is dropped; and [fetch_data.py] on a session an
    hour east of UTC stores the naive 2024-01-02T00:00 at
    2024-01-01T23:00 UTC. *)
Lemma stored_as_utc_refuted :
  ~ stored_as_utc Py.utc [es_4700_aware]
      (store (IngestData.with_reply (inr [es_4700_aware]) no_table)) /\
  ~ stored_as_utc Py.utc [es_4700_aware]
      (store (ScriptsIngestData.fetch_and_load_data (replying [es_4700_aware]) "key"
                "2024-01-01" "2024-01-31" no_table)) /\
  ~ stored_as_utc Py.utc [es_4700]
      (store (FetchData.with_reply (inr (Some [es_4700])) "ES" no_table_cet)) /\
  map time (table_rows (store (FetchData.with_reply (inr (Some [es_4700])) "ES" no_table_cet)))
  = [jan02 - 3600000000].
Proof.
  split; [|split; [|split]]; try reflexivity.
  - intros H. destruct (H es_4700_aware (or_introl eq_refl)) as (r & Hin & _).
    vm_compute in Hin. exact Hin.
  - intros H. destruct (H es_4700_aware (or_introl eq_refl)) as (r & Hin & _).
    vm_compute in Hin. exact Hin.
  - intros H. destruct (H es_4700 (or_introl eq_refl)) as (r & Hin & Ht).
    vm_compute in Hin. destruct Hin as [<-|[]]. vm_compute in Ht. discriminate Ht.
Qed.

(** ** Fetch failures and empty windows *)




(** ** What the entry points return, whatever they find *)

(** C9, as amended.  No invocation of an entry point returns a status or
    a count.  [fetch_data.py] returns [None], or ends the process with
    status 1: when the client cannot be built, when the server cannot be
    reached, and when the provider's call raises.
    [trade_ngin/scripts/ingest_data.py] returns [None], except that what
    [Historical(api_key)] raises leaves the function, and that a
    connection that fails after a reply with rows ends in the
    [UnboundLocalError] of [finally], which reads a [conn] that was never
    bound.  [scripts/ingest_data.py] returns [None], except that what
    [Historical(api_key)] raises leaves the function. *)
Theorem entry_points_return_no_status :
  forall (env : Process.environment)
         (api_key symbol start_date end_date : string) (db : database),
    (result (Process.fetch_data env api_key symbol start_date end_date db) =
     match Process.Historical env api_key with
     | inl _ => Py.SystemExit 1
     | inr client =>
         match Process.psycopg2_connect env with
         | Some _ => Py.SystemExit 1
         | None =>
             match Databento.get_historical_ohlcv client
                     (FetchData.request symbol start_date end_date) with
             | inl _ => Py.SystemExit 1
             | inr _ => Py.Returned Py.None_
             end
         end
     end) /\
    (result (Process.trade_ngin_ingest_data env api_key db) =
     match Process.Historical env api_key with
     | inl e => Py.Raised e
     | inr client =>
         match Databento.get_range client IngestData.request,
               Process.psycopg2_connect env with
         | inr (_ :: _), Some _ => Py.Raised Process.conn_unbound
         | _, _ => Py.Returned Py.None_
         end
     end) /\
    (result (Process.scripts_ingest_data env api_key start_date end_date db) =
     match Process.Historical env api_key with
     | inl e => Py.Raised e
     | inr _ => Py.Returned Py.None_
     end) /\
    ~ returns_status_and_count
        (Process.fetch_data env api_key symbol start_date end_date db) /\
    ~ returns_status_and_count (Process.trade_ngin_ingest_data env api_key db) /\
    ~ returns_status_and_count
        (Process.scripts_ingest_data env api_key start_date end_date db).
Proof.
  intros env api_key symbol start_date end_date db.
  assert (H1 : result (Process.fetch_data env api_key symbol start_date end_date db) =
               match Process.Historical env api_key with
               | inl _ => Py.SystemExit 1
               | inr client =>
                   match Process.psycopg2_connect env with
                   | Some _ => Py.SystemExit 1
                   | None =>
                       match Databento.get_historical_ohlcv client
                               (FetchData.request symbol start_date end_date) with
                       | inl _ => Py.SystemExit 1
                       | inr _ => Py.Returned Py.None_
                       end
                   end
               end).
  { unfold Process.fetch_data.
    destruct (Process.Historical env api_key) as [e|client]; [reflexivity|].
    destruct (Process.psycopg2_connect env) as [e|]; [reflexivity|].
    apply (entry_points_return_reachable (fun _ => client) api_key symbol
             start_date end_date db). }
  assert (H2 : result (Process.trade_ngin_ingest_data env api_key db) =
               match Process.Historical env api_key with
               | inl e => Py.Raised e
               | inr client =>
                   match Databento.get_range client IngestData.request,
                         Process.psycopg2_connect env with
                   | inr (_ :: _), Some _ => Py.Raised Process.conn_unbound
                   | _, _ => Py.Returned Py.None_
                   end
               end).
  { unfold Process.trade_ngin_ingest_data.
    destruct (Process.Historical env api_key) as [e|client]; [reflexivity|].
    pose proof (entry_points_return_reachable (fun _ => client) api_key symbol
                  start_date end_date db) as (_ & Hr & _).
    destruct (Databento.get_range client IngestData.request) as [e|[|row df]];
      destruct (Process.psycopg2_connect env) as [e'|];
      try reflexivity; exact Hr. }
  assert (H3 : result (Process.scripts_ingest_data env api_key start_date end_date db) =
               match Process.Historical env api_key with
               | inl e => Py.Raised e
               | inr _ => Py.Returned Py.None_
               end).
  { unfold Process.scripts_ingest_data.
    destruct (Process.Historical env api_key) as [e|client]; [reflexivity|].
    destruct (Process.psycopg2_connect env) as [e|].
    - destruct (Databento.list_datasets client); reflexivity.
    - apply (entry_points_return_reachable (fun _ => client) api_key symbol
               start_date end_date db). }
  split; [exact H1|]. split; [exact H2|]. split; [exact H3|].
  split; [|split]; intros (ok & n & H).
  - rewrite H1 in H.
    destruct (Process.Historical env api_key) as [e|client]; [discriminate H|].
    destruct (Process.psycopg2_connect env) as [e|]; [discriminate H|].
    destruct (Databento.get_historical_ohlcv client _); discriminate H.
  - rewrite H2 in H.
    destruct (Process.Historical env api_key) as [e|client]; [discriminate H|].
    destruct (Databento.get_range client IngestData.request) as [e|[|row df]];
      destruct (Process.psycopg2_connect env) as [e'|]; discriminate H.
  - rewrite H3 in H.
    destruct (Process.Historical env api_key) as [e|client]; discriminate H.
Qed.

(** The runs that do not return: a key that the client refuses, and a
    server that cannot be reached. *)
Example entry_points_without_a_server :
  result (Process.fetch_data (unreachable [es_4700]) "key" "ES"
            "2023-01-01" "2024-01-09" no_table) = Py.SystemExit 1 /\
  result (Process.trade_ngin_ingest_data (unreachable [es_4700]) "key" no_table) =
  Py.Raised Process.conn_unbound /\
  result (Process.trade_ngin_ingest_data (unreachable []) "key" no_table) =
  Py.Returned Py.None_ /\
  result (Process.scripts_ingest_data (unreachable [es_4700]) "key"
            "2024-01-01" "2024-01-31" no_table) = Py.Returned Py.None_ /\
  result (Process.trade_ngin_ingest_data key_refused "key" no_table) =
  Py.Raised (Py.ValueError "invalid API key") /\
  result (Process.fetch_data key_refused "key" "ES" "2023-01-01" "2024-01-09" no_table) =
  Py.SystemExit 1.
Proof. repeat split. Qed.
